(** * Ruthie voicebot: session relay and state-management engine

    A shallow embedding of the Python sources
      - [app/n8n_client.py]            (action dispatcher),
      - [app/conversation_context.py]  (conversation context),
      - [app/inbound_deepgram.py]      (session registry [TTLDict], telephony relay),
      - [app/tts_sanitizer.py]         (output sanitizer),
      - [app/browser_ws.py]            (browser relay),
    followed by the properties of the specification that concern them.

    Conventions.
      - Python [int] is [Z]; loop counters produced by [range] are [nat].
      - A reading of [datetime.utcnow()] is a [Z]: microseconds since the epoch
        (the resolution of [datetime]); every reading is an explicit argument.
      - Python [str] is [string]; the model covers ASCII text.
      - Logging is not modelled. *)

From Stdlib Require Import ZArith List String Ascii Bool Lia QArith.
From Stdlib Require Import DecimalString Sorted.
Import ListNotations.

Local Open Scope string_scope.
Local Open Scope Z_scope.

(* ===================================================================== *)
(** * Part I: the embedding                                               *)
(* ===================================================================== *)

(** ** Python helpers shared by the modules *)

Module Py.

(** [str(n)] for an [int]. *)
Definition str_of_int (n : Z) : string :=
  NilZero.string_of_int (Z.to_int n).

(** [c.lower()] on one ASCII character. *)
Definition lower_char (c : ascii) : ascii :=
  let n := nat_of_ascii c in
  if ((65 <=? n) && (n <=? 90))%nat then ascii_of_nat (n + 32) else c.

(** [s.lower()] *)
Fixpoint lower (s : string) : string :=
  match s with
  | EmptyString => EmptyString
  | String c s' => String (lower_char c) (lower s')
  end.

(** [s.startswith(p)] *)
Fixpoint startswith (p s : string) : bool :=
  match p, s with
  | EmptyString, _ => true
  | String _ _, EmptyString => false
  | String a p', String b s' => Ascii.eqb a b && startswith p' s'
  end.

(** [needle in hay] *)
Fixpoint contains (needle hay : string) : bool :=
  if startswith needle hay then true
  else match hay with
       | EmptyString => false
       | String _ hay' => contains needle hay'
       end.

(** [any(p(x) for x in xs)] *)
Definition any {A : Type} (p : A -> bool) (xs : list A) : bool := existsb p xs.

(** [s] occurs in [t] as a contiguous block: the meaning of [contains]. *)
Definition occurs_in (s t : string) : Prop :=
  exists before after, t = before ++ s ++ after.

(** [d.append(x)] on a [deque(maxlen=maxlen)]: the oldest items give way. *)
Definition deque_append {A : Type} (maxlen : nat) (d : list A) (x : A) : list A :=
  let d' := (d ++ [x])%list in
  skipn (List.length d' - maxlen) d'.

(** [str.isspace()] on one ASCII character; also the class [\s] of [re]. *)
Definition is_space (c : ascii) : bool :=
  let n := nat_of_ascii c in
  (((9 <=? n) && (n <=? 13)) || ((28 <=? n) && (n <=? 32)))%nat.

(** The class [\d] on ASCII. *)
Definition is_digit (c : ascii) : bool :=
  let n := nat_of_ascii c in ((48 <=? n) && (n <=? 57))%nat.

Definition is_upper (c : ascii) : bool :=
  let n := nat_of_ascii c in ((65 <=? n) && (n <=? 90))%nat.

Definition is_lower (c : ascii) : bool :=
  let n := nat_of_ascii c in ((97 <=? n) && (n <=? 122))%nat.

(** The class [\w] on ASCII. *)
Definition is_word (c : ascii) : bool :=
  is_digit c || is_upper c || is_lower c || Ascii.eqb c "_"%char.

(** [s.lstrip()], [s.rstrip()], [s.strip()] *)
Fixpoint lstrip (s : string) : string :=
  match s with
  | EmptyString => EmptyString
  | String c s' => if is_space c then lstrip s' else s
  end.

Fixpoint rstrip (s : string) : string :=
  match s with
  | EmptyString => EmptyString
  | String c s' =>
      match rstrip s' with
      | EmptyString => if is_space c then EmptyString else String c EmptyString
      | r => String c r
      end
  end.

Definition strip (s : string) : string := rstrip (lstrip s).

(** [sep.join(parts)] *)
Fixpoint join (sep : string) (parts : list string) : string :=
  match parts with
  | [] => EmptyString
  | [x] => x
  | x :: rest => x ++ sep ++ join sep rest
  end.

(** [list(s)]: the characters of [s], each as a one-character string. *)
Fixpoint chars (s : string) : list string :=
  match s with
  | EmptyString => []
  | String c s' => String c EmptyString :: chars s'
  end.

(** The scan of [s.replace(old, new)] for a non-empty [old]: [skip] counts
    the characters of the occurrence being replaced that are still ahead. *)
Fixpoint replace_scan (old new s : string) (skip : nat) : string :=
  match s with
  | EmptyString => EmptyString
  | String c s' =>
      match skip with
      | S k => replace_scan old new s' k
      | O =>
          if startswith old s
          then new ++ replace_scan old new s' (String.length old - 1)
          else String c (replace_scan old new s' 0)
      end
  end.

(** [s.replace(old, new)]; an empty [old] matches before every character
    and at the end. *)
Definition replace (old new s : string) : string :=
  match old with
  | EmptyString => new ++ concat EmptyString (map (fun c => c ++ new) (chars s))
  | _ => replace_scan old new s 0
  end.

(** [c in s] for a single character [c]. *)
Fixpoint has_char (c : ascii) (s : string) : bool :=
  match s with
  | EmptyString => false
  | String x s' => Ascii.eqb c x || has_char c s'
  end.

(** A [dict] (or [OrderedDict]) with string keys, as the list of its items
    in insertion order; a key occurs at most once. *)
Definition dict (V : Type) : Type := list (string * V).

(** [d[k]], if [k in d]. *)
Fixpoint dict_get {V : Type} (k : string) (d : dict V) : option V :=
  match d with
  | [] => None
  | (k', v) :: d' => if String.eqb k k' then Some v else dict_get k d'
  end.

(** [d[k] = v]: an existing key keeps its place, a new one goes last. *)
Fixpoint dict_set {V : Type} (k : string) (v : V) (d : dict V) : dict V :=
  match d with
  | [] => [(k, v)]
  | (k', v') :: d' =>
      if String.eqb k k' then (k', v) :: d' else (k', v') :: dict_set k v d'
  end.

(** [d.pop(k, None)] / [del d[k]] for a key that is present. *)
Fixpoint dict_del {V : Type} (k : string) (d : dict V) : dict V :=
  match d with
  | [] => []
  | (k', v) :: d' => if String.eqb k k' then d' else (k', v) :: dict_del k d'
  end.

(** [d.update(updates)] *)
Definition dict_update {V : Type} (d updates : dict V) : dict V :=
  fold_left (fun acc kv => dict_set (fst kv) (snd kv) acc) updates d.

(** The line feed, and [s[:n]] on a string. *)
Definition newline : string := String (ascii_of_nat 10) EmptyString.

Fixpoint slice_to (n : nat) (s : string) : string :=
  match n, s with
  | S n', String c s' => String c (slice_to n' s')
  | _, _ => EmptyString
  end.

(** [l[start:]] for any integer [start]: a negative [start] counts from the
    end, and an index outside the list is clipped. *)
Definition slice_from {A : Type} (start : Z) (l : list A) : list A :=
  let len := Z.of_nat (List.length l) in
  let i := if start <? 0 then Z.max 0 (start + len) else Z.min start len in
  skipn (Z.to_nat i) l.

(** [s[n:]] and, for [n >= 1], [s[-n:]] on a string. *)
Fixpoint drop (n : nat) (s : string) : string :=
  match n, s with
  | S n', String _ s' => drop n' s'
  | _, _ => s
  end.

Definition last_chars (n : nat) (s : string) : string :=
  drop (String.length s - n) s.

(** [min(x, y)] on two numbers. *)
Definition min_q (x y : Q) : Q := if Qle_bool x y then x else y.

(** [l[-n:]] for a natural [n >= 1], and more generally the last [n] items. *)
Definition last_items {A : Type} (n : nat) (l : list A) : list A :=
  skipn (List.length l - n) l.

End Py.

(* --------------------------------------------------------------------- *)
(** ** The fragment of Python's [re] that the sources use                 *)
(* --------------------------------------------------------------------- *)

Module Re.

(** One element of a pattern.  Repetition is only ever applied to a single
    character class, and a capturing group only ever encloses one such
    repetition; [hi = None] is an unbounded repetition. *)
Inductive elem : Type :=
| Chr (c : ascii)
| Bnd
| Rep (cls : ascii -> bool) (lo : nat) (hi : option nat)
| Grp (cls : ascii -> bool) (lo : nat) (hi : option nat).

Definition pattern : Type := list elem.

(** A compiled pattern: [re.compile(p, re.IGNORECASE)] or [re.compile(p)]. *)
Record regex : Type := mkRegex {
  ignorecase : bool;
  elems : pattern
}.

(** A literal string as a pattern. *)
Fixpoint lit (s : string) : pattern :=
  match s with
  | EmptyString => []
  | String c s' => Chr c :: lit s'
  end.

Definition chr_matches (ic : bool) (c x : ascii) : bool :=
  if ic then Ascii.eqb (Py.lower_char c) (Py.lower_char x) else Ascii.eqb c x.

Definition is_word_opt (c : option ascii) : bool :=
  match c with
  | Some x => Py.is_word x
  | None => false
  end.

Definition head (s : string) : option ascii :=
  match s with
  | EmptyString => None
  | String c _ => Some c
  end.

(** [\b]: exactly one of the characters on either side is a word
    character (the edges of the text count as non-word). *)
Definition at_boundary (prev : option ascii) (s : string) : bool :=
  xorb (is_word_opt prev) (is_word_opt (head s)).

(** The number of leading characters of [s] in [cls], at most [hi]. *)
Fixpoint run (cls : ascii -> bool) (hi : option nat) (s : string) : nat :=
  match s with
  | EmptyString => O
  | String c s' =>
      match hi with
      | Some O => O
      | Some (S h) => if cls c then S (run cls (Some h) s') else O
      | None => if cls c then S (run cls None s') else O
      end
  end.

(** Step over [k] characters: the character before the new position and
    the rest of the text. *)
Fixpoint advance (k : nat) (prev : option ascii) (s : string)
    : option ascii * string :=
  match k, s with
  | S k', String c s' => advance k' (Some c) s'
  | _, _ => (prev, s)
  end.

Fixpoint take (k : nat) (s : string) : string :=
  match k, s with
  | S k', String c s' => String c (take k' s')
  | _, _ => EmptyString
  end.

(** Greedy repetition with backtracking: try [lo + extra] characters, then
    one fewer, ... down to [lo]. *)
Fixpoint greedy {A : Type} (try : nat -> option A) (lo extra : nat) : option A :=
  match try (lo + extra)%nat with
  | Some a => Some a
  | None =>
      match extra with
      | O => None
      | S extra' => greedy try lo extra'
      end
  end.

(** Match [pat] at the current position: [prev] is the character before it
    and [s] the text from it on.  Returns the captured groups and the text
    after the match. *)
Fixpoint match_here (ic : bool) (pat : pattern) (prev : option ascii) (s : string)
    {struct pat} : option (list string * string) :=
  match pat with
  | [] => Some ([], s)
  | Chr c :: pat' =>
      match s with
      | String x s' =>
          if chr_matches ic c x then match_here ic pat' (Some x) s' else None
      | EmptyString => None
      end
  | Bnd :: pat' =>
      if at_boundary prev s then match_here ic pat' prev s else None
  | Rep cls lo hi :: pat' =>
      let n := run cls hi s in
      if (n <? lo)%nat then None
      else
        greedy
          (fun k =>
             let '(prev', s') := advance k prev s in
             match_here ic pat' prev' s')
          lo (n - lo)
  | Grp cls lo hi :: pat' =>
      let n := run cls hi s in
      if (n <? lo)%nat then None
      else
        greedy
          (fun k =>
             let '(prev', s') := advance k prev s in
             match match_here ic pat' prev' s' with
             | Some (groups, rest) => Some (take k s :: groups, rest)
             | None => None
             end)
          lo (n - lo)
  end.

(** The scan of [regex.sub(repl, s)]: at each position not inside a match
    already made, the pattern is tried; the leftmost match is replaced and
    the scan resumes after it.  [repl] receives the captured groups.  (The
    patterns of the sources all consume at least one character; an empty
    match inserts the replacement.) *)
Fixpoint sub_scan (r : regex) (repl : list string -> string)
    (prev : option ascii) (s : string) (skip : nat) : string :=
  match s with
  | EmptyString => EmptyString
  | String c s' =>
      match skip with
      | S k => sub_scan r repl (Some c) s' k
      | O =>
          match match_here (ignorecase r) (elems r) prev s with
          | Some (groups, rest) =>
              let n := (String.length s - String.length rest)%nat in
              match n with
              | O => repl groups ++ String c (sub_scan r repl (Some c) s' 0)
              | S k => repl groups ++ sub_scan r repl (Some c) s' k
              end
          | None => String c (sub_scan r repl (Some c) s' 0)
          end
      end
  end.

(** [r.sub(repl, s)] with a function [repl] of the groups of the match. *)
Definition sub (r : regex) (repl : list string -> string) (s : string) : string :=
  sub_scan r repl None s 0.

(** [r.sub(text, s)] with a constant replacement. *)
Definition sub_const (r : regex) (text : string) (s : string) : string :=
  sub r (fun _ => text) s.

(** [\s+] *)
Definition spaces : pattern := [Rep Py.is_space 1 None].

End Re.

(* --------------------------------------------------------------------- *)
(** ** app/n8n_client.py                                                  *)
(* --------------------------------------------------------------------- *)

Module N8nClient.

Definition MAX_RETRIES : nat := 3.
Definition BASE_DELAY_MS : Z := 500.
Definition MAX_DELAY_MS : Z := 2000.

(** The [httpx] response, as far as the client reads it.  [json] is the
    outcome of [response.json()]: the parsed payload, or the message of the
    exception raised when the body does not decode. *)
Record Response : Type := mkResponse {
  status_code : Z;
  text : string;
  json : string + string
}.

(** What one [client.post] can do.  [str(e)] is the carried message. *)
Inductive post_outcome : Type :=
| Responded (response : Response)
| TimeoutException (msg : string)
| OtherException (msg : string).

(** The gateway as the dispatcher sees it: the outcome of the POST made in
    attempt [0], [1], ...  The payload is built once, before the loop, so the
    gateway's reaction to it is part of this function.  (Cancellation of the
    coroutine is outside the model.) *)
Definition gateway : Type := nat -> post_outcome.

(** The three dictionaries [call_n8n_action] can return. *)
Inductive envelope : Type :=
| SuccessEnvelope (action : string) (data : string) (attempts : Z)
| ClientErrorEnvelope (action : string) (error : string) (details : string)
    (attempts : Z)
| ExhaustedEnvelope (action : string) (error : string)
    (last_error : option string) (attempts : Z).

(** Observable effects: the POSTs and the [asyncio.sleep] calls (seconds). *)
Inductive event : Type :=
| Post (attempt : nat)
| Sleep (seconds : Q).

(** [min(BASE_DELAY_MS * (2 ** attempt), MAX_DELAY_MS) / 1000] *)
Definition delay (attempt : nat) : Q :=
  Z.min (BASE_DELAY_MS * 2 ^ Z.of_nat attempt) MAX_DELAY_MS # 1000.

(** The body of [for attempt in range(MAX_RETRIES)], for the [remaining]
    iterations starting at index [attempt]; the code after the loop is the
    [O] case. *)
Fixpoint attempt_loop (gw : gateway) (action : string)
    (remaining attempt : nat) (last_error : option string)
    : envelope * list event :=
  match remaining with
  | O =>
      (ExhaustedEnvelope action "Max retries exceeded" last_error
         (Z.of_nat MAX_RETRIES), [])
  | S remaining' =>
      let retry (last_error' : option string) :=
        let '(env, evs) :=
          attempt_loop gw action remaining' (S attempt) last_error' in
        (env, Post attempt :: Sleep (delay attempt) :: evs) in
      match gw attempt with
      | Responded response =>
          if (status_code response =? 200) || (status_code response =? 201)
          then
            match json response with
            | inl result =>
                (SuccessEnvelope action result (Z.of_nat attempt + 1),
                 [Post attempt])
            | inr msg => retry (Some msg)
            end
          else if status_code response =? 429 then retry last_error
          else if status_code response >=? 500 then retry last_error
          else
            (ClientErrorEnvelope action
               ("Client error: " ++ Py.str_of_int (status_code response))
               (text response) (Z.of_nat attempt + 1),
             [Post attempt])
      | TimeoutException msg => retry (Some msg)
      | OtherException msg => retry (Some msg)
      end
  end.

Definition call_n8n_action (gw : gateway) (action : string)
    : envelope * list event :=
  attempt_loop gw action MAX_RETRIES 0 None.

(** Classification of an attempt's outcome used to state the retry policy:
    the outcomes after which the loop goes round again. *)
Definition retried (o : post_outcome) : bool :=
  match o with
  | Responded r =>
      if (status_code r =? 200) || (status_code r =? 201)
      then match json r with inl _ => false | inr _ => true end
      else (status_code r =? 429) || (status_code r >=? 500)
  | TimeoutException _ => true
  | OtherException _ => true
  end.

(** The events of [n] retried attempts [0 .. n-1]: each POST is followed by
    its back-off sleep. *)
Definition retry_events_from (first n : nat) : list event :=
  flat_map (fun i => [Post i; Sleep (delay i)]) (seq first n).

Definition retry_events (n : nat) : list event := retry_events_from 0 n.

Definition posts (evs : list event) : nat :=
  List.length (filter (fun e => match e with Post _ => true | _ => false end) evs).

(** A gateway that answers from a finite script and times out afterwards. *)
Definition scripted (script : list post_outcome) : gateway :=
  fun attempt => nth attempt script (TimeoutException "timed out").

Definition http (status : Z) (body : string) : post_outcome :=
  Responded (mkResponse status body (inl body)).

(** The ["attempts"] entry of an envelope. *)
Definition attempts (e : envelope) : Z :=
  match e with
  | SuccessEnvelope _ _ n => n
  | ClientErrorEnvelope _ _ _ n => n
  | ExhaustedEnvelope _ _ _ n => n
  end.

(** The time spent in [asyncio.sleep], in seconds. *)
Fixpoint total_sleep (evs : list event) : Q :=
  match evs with
  | [] => 0
  | Post _ :: evs' => total_sleep evs'
  | Sleep seconds :: evs' => seconds + total_sleep evs'
  end.

End N8nClient.

(* --------------------------------------------------------------------- *)
(** ** app/conversation_context.py                                        *)
(* --------------------------------------------------------------------- *)

Module ConversationContext.

Record Turn : Type := mkTurn {
  role : string;
  content : string;
  timestamp : Z
}.

(** The attributes of a [ConversationContext] object; [max_history] is the
    [maxlen] of the [history] deque. *)
Record t : Type := mkContext {
  session_id : string;
  max_history : nat;
  history : list Turn;
  user_sentiment : string;
  topic_stack : list string;
  clarification_count : Z;
  retry_count : Z;
  created_at : Z;
  last_user_speech_time : option Z;
  silence_count : Z
}.

(** [ConversationContext(session_id, max_history)] built at time [now]. *)
Definition init (now : Z) (session_id : string) (max_history : nat) : t :=
  {| session_id := session_id;
     max_history := max_history;
     history := [];
     user_sentiment := "neutral";
     topic_stack := [];
     clarification_count := 0;
     retry_count := 0;
     created_at := now;
     last_user_speech_time := None;
     silence_count := 0 |}.

Definition frustration_keywords : list string :=
  ["frustrated"; "annoyed"; "angry"; "upset"; "ridiculous";
   "forget it"; "never mind"; "this is stupid"; "waste of time";
   "not working"; "doesn't work"; "broken"].

Definition confusion_keywords : list string :=
  ["confused"; "don't understand"; "what"; "huh"; "unclear";
   "not sure"; "don't get it"; "explain"; "clarify"; "repeat"].

Definition satisfaction_keywords : list string :=
  ["great"; "perfect"; "excellent"; "wonderful"; "awesome";
   "thank you"; "thanks"; "appreciate"; "helpful"; "good"].

Definition detect_sentiment (self : t) (text : string) : string :=
  let text_lower := Py.lower text in
  if Py.any (fun kw => Py.contains kw text_lower) frustration_keywords
  then "frustrated"
  else if Py.any (fun kw => Py.contains kw text_lower) confusion_keywords
  then "confused"
  else if Py.any (fun kw => Py.contains kw text_lower) satisfaction_keywords
  then "satisfied"
  else "neutral".

Definition clarification_patterns : list string :=
  ["what"; "huh"; "repeat"; "again"; "didn't catch";
   "didn't hear"; "pardon"; "sorry"; "unclear"].

Definition is_clarification_request (self : t) (text : string) : bool :=
  let text_lower := Py.lower text in
  Py.any (fun pattern => Py.contains pattern text_lower) clarification_patterns.

(** [add_turn(role, content)].  [t_turn] is the clock reading stored in the
    turn, [t_speech] the later reading stored in [last_user_speech_time]. *)
Definition add_turn (t_turn t_speech : Z) (role content : string) (self : t) : t :=
  let turn := mkTurn role content t_turn in
  let history' := Py.deque_append (max_history self) (history self) turn in
  if String.eqb role "user" then
    {| session_id := session_id self;
       max_history := max_history self;
       history := history';
       user_sentiment := detect_sentiment self content;
       topic_stack := topic_stack self;
       clarification_count :=
         if is_clarification_request self content
         then clarification_count self + 1
         else clarification_count self;
       retry_count := retry_count self;
       created_at := created_at self;
       last_user_speech_time := Some t_speech;
       silence_count := 0 |}
  else
    {| session_id := session_id self;
       max_history := max_history self;
       history := history';
       user_sentiment := user_sentiment self;
       topic_stack := topic_stack self;
       clarification_count := clarification_count self;
       retry_count := retry_count self;
       created_at := created_at self;
       last_user_speech_time := last_user_speech_time self;
       silence_count := silence_count self |}.

(** [(datetime.utcnow() - self.last_user_speech_time).total_seconds()]: the
    elapsed microseconds over [10^6], as a rational; its comparisons with
    the whole-second thresholds agree with those of the float. *)
Definition get_silence_duration (now : Z) (self : t) : option Q :=
  match last_user_speech_time self with
  | None => None
  | Some last => Some ((now - last) # 1000000)
  end.

Definition with_silence_count (n : Z) (self : t) : t :=
  {| session_id := session_id self;
     max_history := max_history self;
     history := history self;
     user_sentiment := user_sentiment self;
     topic_stack := topic_stack self;
     clarification_count := clarification_count self;
     retry_count := retry_count self;
     created_at := created_at self;
     last_user_speech_time := last_user_speech_time self;
     silence_count := n |}.

Definition HANDOFF_MESSAGE : string :=
  "I haven't heard from you in a while. Let me connect you with our team. One moment please.".
Definition PATIENCE_MESSAGE : string :=
  "Take your time. I'll wait for you to respond.".
Definition CHECKIN_MESSAGE : string :=
  "Are you still there? I'm here to help.".

(** [get_silence_response()] called when the clock reads [now]: the
    response and the context afterwards. *)
Definition get_silence_response (now : Z) (self : t) : option string * t :=
  match get_silence_duration now self with
  | None => (None, self)
  | Some silence_duration =>
      if Qle_bool (inject_Z 18) silence_duration && (silence_count self <? 3)
      then (Some HANDOFF_MESSAGE, with_silence_count 3 self)
      else if Qle_bool (inject_Z 12) silence_duration && (silence_count self <? 2)
      then (Some PATIENCE_MESSAGE, with_silence_count 2 self)
      else if Qle_bool (inject_Z 6) silence_duration && (silence_count self <? 1)
      then (Some CHECKIN_MESSAGE, with_silence_count 1 self)
      else (None, self)
  end.

Definition silence_messages : list (option string) :=
  [Some CHECKIN_MESSAGE; Some PATIENCE_MESSAGE; Some HANDOFF_MESSAGE].

(** The threshold a response belongs to: 1 (6 s), 2 (12 s), 3 (18 s); 0 for
    an absent response or any other text. *)
Definition threshold_of (response : option string) : Z :=
  match response with
  | None => 0
  | Some msg =>
      if String.eqb msg CHECKIN_MESSAGE then 1
      else if String.eqb msg PATIENCE_MESSAGE then 2
      else if String.eqb msg HANDOFF_MESSAGE then 3
      else 0
  end.

(** The responses that were actually given, in order. *)
Definition fired (responses : list (option string)) : list (option string) :=
  filter (fun r => match r with Some _ => true | None => false end) responses.

(** Threshold [k] (that is, [6 * k] seconds of silence) is newly crossed
    when the clock reads [now]: the user has spoken, at least [6 * k] seconds
    (counted in microseconds) have passed since, and the escalation level is
    still below [k]. *)
Definition newly_crossed (k : Z) (now : Z) (self : t) : Prop :=
  exists t_speech,
    last_user_speech_time self = Some t_speech
    /\ 6000000 * k <= now - t_speech
    /\ silence_count self < k.

(** The text mentions one of the keywords (case-insensitively). *)
Definition mentions (keywords : list string) (text : string) : Prop :=
  exists kw, In kw keywords /\ Py.occurs_in kw (Py.lower text).

(** *** The other methods of [ConversationContext] *)

(** The instruction fragments of [get_adaptive_prompt_suffix]; the
    pictographs are carried as their UTF-8 bytes. *)
Definition FRUSTRATED_FRAGMENT : string :=
  Py.newline ++ Py.newline ++
  "🚨 USER IS FRUSTRATED. Be extra empathetic, apologize sincerely, slow down, and offer to transfer to a human team member.".
Definition CONFUSED_FRAGMENT : string :=
  Py.newline ++ Py.newline ++
  "🤔 USER IS CONFUSED. Slow down, use simpler language, break down information into smaller steps, and offer to repeat.".
Definition SATISFIED_FRAGMENT : string :=
  Py.newline ++ Py.newline ++
  "😊 USER IS SATISFIED. Maintain positive energy, be efficient, and ask if there's anything else you can help with.".
Definition CLARIFICATION_FRAGMENT : string :=
  Py.newline ++ Py.newline ++
  "⚠️ USER HAS ASKED FOR CLARIFICATION 3+ TIMES. Offer to transfer to a human team member who can help better.".
Definition RETRY_FRAGMENT : string :=
  Py.newline ++ Py.newline ++
  "⚠️ USER HAS RETRIED 3+ TIMES. Something isn't working. Offer alternative approach or human transfer.".

Definition get_adaptive_prompt_suffix (self : t) : string :=
  let suffixes := [] in
  let suffixes :=
    if String.eqb (user_sentiment self) "frustrated"
    then (suffixes ++ [FRUSTRATED_FRAGMENT])%list
    else if String.eqb (user_sentiment self) "confused"
    then (suffixes ++ [CONFUSED_FRAGMENT])%list
    else if String.eqb (user_sentiment self) "satisfied"
    then (suffixes ++ [SATISFIED_FRAGMENT])%list
    else suffixes in
  let suffixes :=
    if clarification_count self >=? 3
    then (suffixes ++ [CLARIFICATION_FRAGMENT])%list else suffixes in
  let suffixes :=
    if retry_count self >=? 3
    then (suffixes ++ [RETRY_FRAGMENT])%list else suffixes in
  Py.join EmptyString suffixes.

(** [silence_duration is not None and silence_duration >= 6.0] *)
Definition should_check_presence (now : Z) (self : t) : bool :=
  match get_silence_duration now self with
  | None => false
  | Some silence_duration => Qle_bool (inject_Z 6) silence_duration
  end.

Definition with_retry_count (n : Z) (self : t) : t :=
  {| session_id := session_id self;
     max_history := max_history self;
     history := history self;
     user_sentiment := user_sentiment self;
     topic_stack := topic_stack self;
     clarification_count := clarification_count self;
     retry_count := n;
     created_at := created_at self;
     last_user_speech_time := last_user_speech_time self;
     silence_count := silence_count self |}.

Definition increment_retry (self : t) : t :=
  with_retry_count (retry_count self + 1) self.

Definition reset_retry (self : t) : t := with_retry_count 0 self.

(** *** Sequences of method calls on one context *)

(** A call of one of the methods that change a context, with the clock
    readings it takes. *)
Inductive method_call : Type :=
| GetSilenceResponse (now : Z)
| AddTurn (t_turn t_speech : Z) (role content : string)
| IncrementRetry
| ResetRetry.

Definition is_user_turn (c : method_call) : bool :=
  match c with
  | AddTurn _ _ role _ => String.eqb role "user"
  | _ => false
  end.

(** No call of the sequence is an [add_turn] with role "user". *)
Definition no_user_turn (calls : list method_call) : bool :=
  forallb (fun c => negb (is_user_turn c)) calls.

(** The clock readings of the [get_silence_response] calls, in order. *)
Fixpoint polls (calls : list method_call) : list Z :=
  match calls with
  | [] => []
  | GetSilenceResponse now :: calls' => now :: polls calls'
  | _ :: calls' => polls calls'
  end.

(** The calls made one after the other on a context: the responses of the
    [get_silence_response] calls, in call order, and the final context. *)
Fixpoint silence_episode (calls : list method_call) (self : t)
    : list (option string) * t :=
  match calls with
  | [] => ([], self)
  | GetSilenceResponse now :: calls' =>
      let '(response, self') := get_silence_response now self in
      let '(responses, self'') := silence_episode calls' self' in
      (response :: responses, self'')
  | AddTurn t_turn t_speech role content :: calls' =>
      silence_episode calls' (add_turn t_turn t_speech role content self)
  | IncrementRetry :: calls' => silence_episode calls' (increment_retry self)
  | ResetRetry :: calls' => silence_episode calls' (reset_retry self)
  end.

(** *** Reference description of the escalation, after the specification *)

(** The highest threshold reached after [elapsed] microseconds of silence:
    1 from 6 s, 2 from 12 s, 3 from 18 s, and 0 before. *)
Definition threshold_reached (elapsed : Z) : Z :=
  if 18000000 <=? elapsed then 3
  else if 12000000 <=? elapsed then 2
  else if 6000000 <=? elapsed then 1
  else 0.

(** The message of threshold [k]. *)
Definition message_of (k : Z) : option string :=
  if k =? 1 then Some CHECKIN_MESSAGE
  else if k =? 2 then Some PATIENCE_MESSAGE
  else if k =? 3 then Some HANDOFF_MESSAGE
  else None.

(** One-shot escalation: in an episode that began with the user speaking at
    [t_speech] and has reached [level], a poll answers exactly when the
    threshold reached by then is above [level], with that threshold's
    message, and the episode continues from that threshold. *)
Fixpoint one_shot_responses (t_speech level : Z) (nows : list Z)
    : list (option string) :=
  match nows with
  | [] => []
  | now :: nows' =>
      let k := threshold_reached (now - t_speech) in
      if (0 <? k) && (level <? k)
      then message_of k :: one_shot_responses t_speech k nows'
      else None :: one_shot_responses t_speech level nows'
  end.

(** An exchange after the user spoke at time 0: polls at 7 s and 9 s with
    an assistant turn and a retry in between, then at 13 s, 30 s and 31 s. *)
Definition sample_episode : list method_call :=
  [GetSilenceResponse 7000000;
   AddTurn 8000000 8000000 "assistant" "Are you still there?";
   IncrementRetry;
   GetSilenceResponse 9000000;
   GetSilenceResponse 13000000;
   GetSilenceResponse 30000000;
   GetSilenceResponse 31000000].

(** The lines that [get_conversation_summary] joins:
    [list(self.history)[-max_turns:]], each as [role: content[:100]]. *)
Definition summary_lines (max_turns : Z) (self : t) : list string :=
  map (fun turn => role turn ++ ": " ++ Py.slice_to 100 (content turn))
    (Py.slice_from (- max_turns) (history self)).

Definition get_conversation_summary (max_turns : Z) (self : t) : string :=
  Py.join Py.newline (summary_lines max_turns self).

(** A sequence of [add_turn] calls, each with its two clock readings. *)
Definition add_turns (turns : list (Z * Z * string * string)) (self : t) : t :=
  fold_left
    (fun c turn =>
       add_turn (fst (fst (fst turn))) (snd (fst (fst turn)))
         (snd (fst turn)) (snd turn) c)
    turns self.

(** The turn that an [add_turn] call appends. *)
Definition turn_of (turn : Z * Z * string * string) : Turn :=
  mkTurn (snd (fst turn)) (snd turn) (fst (fst (fst turn))).

(** A short exchange, used to exercise the methods. *)
Definition sample_turns : list (Z * Z * string * string) :=
  [(1, 1, "user", "hi"); (2, 2, "assistant", "hello"); (3, 3, "user", "bye")].

(** Whether a call is a user turn that asks for clarification. *)
Definition asks_clarification (self : t) (turn : Z * Z * string * string) : bool :=
  String.eqb (snd (fst turn)) "user" && is_clarification_request self (snd turn).

End ConversationContext.

(* --------------------------------------------------------------------- *)
(** ** app/inbound_deepgram.py: the session registry                      *)
(* --------------------------------------------------------------------- *)

Module TTLDict.

(** The values stored in the registry: call-metadata dictionaries, or
    anything else. *)
Inductive pyvalue : Type :=
| PyDict (fields : Py.dict string)
| PyOther (repr : string).

(** An item of [_dict] is [key -> (timestamp, value)]. *)
Abbreviation entry := (Z * pyvalue)%type (only parsing).

Record t : Type := mkTTLDict {
  _dict : Py.dict entry;
  _ttl : Z;
  _max_size : Z
}.

(** [TTLDict(ttl_seconds, max_size)] *)
Definition init (ttl_seconds max_size : Z) : t :=
  {| _dict := []; _ttl := ttl_seconds; _max_size := max_size |}.

Definition with_dict (d : Py.dict entry) (self : t) : t :=
  {| _dict := d; _ttl := _ttl self; _max_size := _max_size self |}.

(** [timedelta(seconds=self._ttl)] in microseconds. *)
Definition ttl_delta (self : t) : Z := _ttl self * 1000000.

(** [now - ts < timedelta(seconds=self._ttl)] *)
Definition live (self : t) (now : Z) (e : entry) : bool :=
  now - fst e <? ttl_delta self.

(** [_evict_expired()]: the keys whose entry has [now - ts >= ttl] are
    deleted; keys being unique, this keeps exactly the other items. *)
Definition _evict_expired (now : Z) (self : t) : t :=
  with_dict
    (filter (fun item => negb (now - fst (snd item) >=? ttl_delta self))
       (_dict self))
    self.

(** What a method call comes to: it returns, or [KeyError] escapes. *)
Inductive outcome (A : Type) : Type :=
| Returned (a : A)
| KeyError.
Arguments Returned {A} a.
Arguments KeyError {A}.

(** [set(key, value)]: [t_evict] is the clock reading of [_evict_expired],
    [t_set] the later one stored with the value.  [popitem(last=False)]
    raises [KeyError] on an empty dictionary. *)
Definition set (t_evict t_set : Z) (key : string) (value : pyvalue) (self : t)
    : outcome unit * t :=
  let self1 := _evict_expired t_evict self in
  if Z.of_nat (List.length (_dict self1)) >=? _max_size self1 then
    match _dict self1 with
    | [] => (KeyError, self1)
    | _ :: rest =>
        (Returned tt, with_dict (Py.dict_set key (t_set, value) rest) self1)
    end
  else
    (Returned tt, with_dict (Py.dict_set key (t_set, value) (_dict self1)) self1).

(** [get(key)]: [None] stands for the default being returned. *)
Definition get (now : Z) (key : string) (self : t) : option pyvalue * t :=
  match Py.dict_get key (_dict self) with
  | Some (ts, val) =>
      if live self now (ts, val) then (Some val, self)
      else (None, with_dict (Py.dict_del key (_dict self)) self)
  | None => (None, self)
  end.

Definition update (now : Z) (key : string) (updates : Py.dict string) (self : t)
    : bool * t :=
  match Py.dict_get key (_dict self) with
  | Some (ts, val) =>
      if live self now (ts, val) then
        match val with
        | PyDict fields =>
            (true,
             with_dict
               (Py.dict_set key (ts, PyDict (Py.dict_update fields updates))
                  (_dict self))
               self)
        | PyOther _ => (false, self)
        end
      else (false, self)
  | None => (false, self)
  end.

Definition delete (key : string) (self : t) : t :=
  with_dict (Py.dict_del key (_dict self)) self.

Definition __contains__ (now : Z) (key : string) (self : t) : bool * t :=
  match Py.dict_get key (_dict self) with
  | Some (ts, val) =>
      if live self now (ts, val) then (true, self)
      else (false, with_dict (Py.dict_del key (_dict self)) self)
  | None => (false, self)
  end.

Definition values (now : Z) (self : t) : list pyvalue * t :=
  let self1 := _evict_expired now self in
  (map (fun item => snd (snd item)) (_dict self1), self1).

Definition __len__ (now : Z) (self : t) : Z * t :=
  let self1 := _evict_expired now self in
  (Z.of_nat (List.length (_dict self1)), self1).

(** A call on the registry, with the clock readings it makes. *)
Inductive call : Type :=
| CallSet (t_evict t_set : Z) (key : string) (value : pyvalue)
| CallGet (now : Z) (key : string)
| CallUpdate (now : Z) (key : string) (updates : Py.dict string)
| CallDelete (key : string)
| CallContains (now : Z) (key : string)
| CallValues (now : Z)
| CallLen (now : Z).

(** The registry after a call (a call that raises leaves it as it was at
    the raise). *)
Definition after (c : call) (self : t) : t :=
  match c with
  | CallSet t_evict t_set key value => snd (set t_evict t_set key value self)
  | CallGet now key => snd (get now key self)
  | CallUpdate now key updates => snd (update now key updates self)
  | CallDelete key => delete key self
  | CallContains now key => snd (__contains__ now key self)
  | CallValues now => snd (values now self)
  | CallLen now => snd (__len__ now self)
  end.

Definition after_all (calls : list call) (self : t) : t :=
  fold_left (fun s c => after c s) calls self.

(** The registry holds at most [_max_size] items. *)
Definition bounded (self : t) : Prop :=
  Z.of_nat (List.length (_dict self)) <= _max_size self.

(** A sequence of [update] calls: (clock reading, key, fields). *)
Definition update_calls (ups : list (Z * string * Py.dict string)) : list call :=
  map (fun u => CallUpdate (fst (fst u)) (snd (fst u)) (snd u)) ups.

(** The timestamp stored under [key], if any. *)
Definition timestamp_of (key : string) (self : t) : option Z :=
  option_map fst (Py.dict_get key (_dict self)).

(** The stored keys, in the order of the underlying [OrderedDict]. *)
Definition keys (self : t) : list string := map fst (_dict self).

(** The registries that calls on a fresh [TTLDict] can produce. *)
Definition reachable (self : t) : Prop :=
  exists ttl_seconds max_size calls,
    self = after_all calls (init ttl_seconds max_size).

End TTLDict.

(* --------------------------------------------------------------------- *)
(** ** app/tts_sanitizer.py                                               *)
(* --------------------------------------------------------------------- *)

Module TtsSanitizer.
Import Re.

Definition w_plus : elem := Rep Py.is_word 1 None.
Definition s_plus : elem := Rep Py.is_space 1 None.
Definition d_plus : elem := Rep Py.is_digit 1 None.

(** [\bword\b] *)
Definition word (w : string) : pattern := ([Bnd] ++ lit w ++ [Bnd])%list.

(** [\bkeyword\s+] *)
Definition keyword (w : string) : pattern := ([Bnd] ++ lit w ++ [s_plus])%list.

Definition not_char (c : ascii) : ascii -> bool := fun x => negb (Ascii.eqb x c).

Definition FORBIDDEN_PATTERNS : list pattern :=
  [ (* function names *)
    ([Bnd] ++ lit "initiate_" ++ [w_plus; Bnd])%list;
    ([Bnd] ++ lit "collect_" ++ [w_plus; Bnd])%list;
    ([Bnd] ++ lit "confirm_and_" ++ [w_plus; Bnd])%list;
    word "search_web";
    word "get_current_datetime";
    word "get_location_info";
    word "send_email";
    word "send_sms";
    word "send_whatsapp";
    word "book_appointment";
    word "reschedule_appointment";
    word "cancel_appointment";
    (* code syntax *)
    [Chr "{"; Rep (not_char "}") 0 None; Chr "}"];
    [Chr "["; Rep (not_char "]") 0 None; Chr "]"];
    [Chr "<"; Rep (not_char ">") 0 None; Chr ">"];
    ([Bnd] ++ lit "function" ++ [Chr "("])%list;
    keyword "await";
    keyword "async";
    keyword "return";
    keyword "const";
    keyword "let";
    keyword "var";
    (* technical terms *)
    word "N8N";
    word "n8n";
    word "webhook";
    word "API";
    word "JSON";
    word "HTTP";
    word "REST";
    ([Bnd] ++ lit "error" ++ [s_plus] ++ lit "code" ++ [s_plus; d_plus])%list;
    ([Bnd] ++ lit "session" ++ [s_plus] ++ lit "state" ++ [Bnd])%list;
    word "database";
    word "supabase";
    word "CRM";
    word "endpoint";
    word "payload";
    word "request";
    word "response" ].

Definition FORBIDDEN_REGEX : list regex :=
  map (mkRegex true) FORBIDDEN_PATTERNS.

(** [', '.join(list(digits))] *)
Definition spoken (digits : string) : string := Py.join ", " (Py.chars digits).

(** The class [[-.\s]] *)
Definition is_sep (c : ascii) : bool :=
  Ascii.eqb c "-" || Ascii.eqb c "." || Py.is_space c.

Definition group (i : nat) (groups : list string) : string :=
  nth i groups EmptyString.

Definition pattern_intl : pattern :=
  [Chr "+"; Grp Py.is_digit 1 (Some 3%nat); Rep is_sep 0 (Some 1%nat);
   Grp Py.is_digit 3 (Some 3%nat); Rep is_sep 0 (Some 1%nat);
   Grp Py.is_digit 3 (Some 3%nat); Rep is_sep 0 (Some 1%nat);
   Grp Py.is_digit 4 (Some 4%nat)].

Definition replace_intl (groups : list string) : string :=
  "country code " ++ spoken (group 0 groups) ++ ", " ++ spoken (group 1 groups)
  ++ ", " ++ spoken (group 2 groups) ++ ", " ++ spoken (group 3 groups).

Definition pattern_us : pattern :=
  [Chr "("; Grp Py.is_digit 3 (Some 3%nat); Chr ")";
   Rep Py.is_space 0 (Some 1%nat);
   Grp Py.is_digit 3 (Some 3%nat); Rep is_sep 0 (Some 1%nat);
   Grp Py.is_digit 4 (Some 4%nat)].

Definition replace_us (groups : list string) : string :=
  spoken (group 0 groups) ++ ", " ++ spoken (group 1 groups)
  ++ ", " ++ spoken (group 2 groups).

Definition pattern_plain : pattern :=
  [Bnd; Grp Py.is_digit 10 (Some 10%nat); Bnd].

(** [number[:3]], [number[3:6]], [number[6:]] *)
Definition replace_plain (groups : list string) : string :=
  let number := group 0 groups in
  let area := take 3 number in
  let first := take 3 (snd (advance 3 None number)) in
  let last := snd (advance 6 None number) in
  spoken area ++ ", " ++ spoken first ++ ", " ++ spoken last.

Definition pattern_local : pattern :=
  [Bnd; Grp Py.is_digit 3 (Some 3%nat); Rep is_sep 0 (Some 1%nat);
   Grp Py.is_digit 4 (Some 4%nat); Bnd].

Definition replace_local (groups : list string) : string :=
  spoken (group 0 groups) ++ ", " ++ spoken (group 1 groups).

Definition format_phone_numbers_for_speech (text : string) : string :=
  let text := sub (mkRegex false pattern_intl) replace_intl text in
  let text := sub (mkRegex false pattern_us) replace_us text in
  let text := sub (mkRegex false pattern_plain) replace_plain text in
  let text := sub (mkRegex false pattern_local) replace_local text in
  text.

(** The classes [[a-zA-Z0-9._%+-]], [[a-zA-Z0-9.-]] and [[a-zA-Z]]. *)
Definition is_alpha (c : ascii) : bool := Py.is_upper c || Py.is_lower c.
Definition is_local (c : ascii) : bool :=
  is_alpha c || Py.is_digit c || Ascii.eqb c "." || Ascii.eqb c "_"
  || Ascii.eqb c "%" || Ascii.eqb c "+" || Ascii.eqb c "-".
Definition is_domain (c : ascii) : bool :=
  is_alpha c || Py.is_digit c || Ascii.eqb c "." || Ascii.eqb c "-".

Definition email_pattern : pattern :=
  [Bnd; Grp is_local 1 None; Chr "@"; Grp is_domain 1 None; Chr ".";
   Grp is_alpha 2 None; Bnd].

(** [([a-z])([A-Z])] *)
Definition camel_pattern : pattern :=
  [Grp Py.is_lower 1 (Some 1%nat); Grp Py.is_upper 1 (Some 1%nat)].

Definition replace_email (groups : list string) : string :=
  let local := group 0 groups in
  let domain := group 1 groups in
  let tld := group 2 groups in
  let local_spoken := Py.replace "." " dot " local in
  let domain_spoken :=
    sub (mkRegex false camel_pattern)
      (fun g => group 0 g ++ " " ++ group 1 g) domain in
  let domain_spoken := Py.replace "AI" "A I" (Py.replace "ai" "A I" domain_spoken) in
  let domain_spoken := Py.replace "." " dot " domain_spoken in
  local_spoken ++ " at " ++ domain_spoken ++ " dot " ++ tld.

Definition format_emails_for_speech (text : string) : string :=
  sub (mkRegex false email_pattern) replace_email text.

Definition replacements : list (string * string) :=
  [("#", " number "); ("@", " at "); ("$", " dollars "); ("%", " percent ");
   ("&", " and "); ("*", " "); ("_", " "); ("|", " "); ("~", " "); ("^", " ");
   ("`", " "); ("=", " equals "); ("+", " plus ")].

(** [re.sub(r'\s+', ' ', text)] *)
Definition collapse_spaces (text : string) : string :=
  sub_const (mkRegex false spaces) " " text.

Definition remove_tts_unfriendly_chars (text : string) : string :=
  let text :=
    fold_left (fun t kv => Py.replace (fst kv) (snd kv) t) replacements text in
  let text := collapse_spaces text in
  Py.strip text.

(** Step 6 of [sanitize_for_tts]: the last-resort removal of brackets. *)
Definition strip_brackets (text : string) : string :=
  if Py.contains "{" text || Py.contains "[" text || Py.contains "<" text
  then
    let text :=
      Py.replace ">" EmptyString (Py.replace "<" EmptyString (Py.replace "]" EmptyString
        (Py.replace "[" EmptyString (Py.replace "}" EmptyString (Py.replace "{" EmptyString text))))) in
    Py.strip (collapse_spaces text)
  else text.

Definition sanitize_for_tts (text : string) : string :=
  match text with
  | EmptyString => EmptyString
  | _ =>
      let text := fold_left (fun t regex => sub_const regex EmptyString t) FORBIDDEN_REGEX text in
      let text := format_phone_numbers_for_speech text in
      let text := format_emails_for_speech text in
      let text := remove_tts_unfriendly_chars text in
      let text := Py.strip (collapse_spaces text) in
      strip_brackets text
  end.

(** The characters that [remove_tts_unfriendly_chars] replaces: the keys of
    [replacements]. *)
Definition unfriendly_chars : list ascii :=
  ["#"; "@"; "$"; "%"; "&"; "*"; "_"; "|"; "~"; "^"; "`"; "="; "+"]%char.

(** What [re.sub(r'\s+', ' ', text)] comes to, written directly: every
    maximal run of whitespace becomes one space.  [in_run] tells whether the
    previous character was whitespace. *)
Fixpoint squeeze (in_run : bool) (s : string) : string :=
  match s with
  | EmptyString => EmptyString
  | String c s' =>
      if Py.is_space c
      then if in_run then squeeze true s' else String " " (squeeze true s')
      else String c (squeeze false s')
  end.

(** Whitespace in [s] is tidy: plain spaces only, never two in a row
    ([after_space] tells whether a space precedes [s]). *)
Fixpoint single_spaced (after_space : bool) (s : string) : bool :=
  match s with
  | EmptyString => true
  | String c s' =>
      if Py.is_space c
      then Ascii.eqb c " " && negb after_space && single_spaced true s'
      else single_spaced false s'
  end.

(** The inputs of [test_tts_sanitization] (tests/test_conversational_fixes.py);
    they include all the inputs of [test_sanitization]. *)
Definition test_cases : list string :=
  ["Let me call initiate_booking for you";
   "I'll use collect_client_name to get that";
   "Executing confirm_and_book now";
   "{client_name} is confirmed for {booking_date}";
   "Hello [user], your appointment is at <time>";
   "The N8N webhook failed with error code 422";
   "Let me query the database via REST API";
   "I'll send this to the CRM endpoint";
   "+1-800-555-1234";
   "(952) 333-8443";
   "8141995397";
   "Contact support@callwaitingai.dev";
   "Reach me at john.doe@company.com"].

End TtsSanitizer.

(* --------------------------------------------------------------------- *)
(** ** app/inbound_deepgram.py and app/browser_ws.py: the inbound pumps   *)
(* --------------------------------------------------------------------- *)

Module Relay.

(** A decoded JSON value.  Arrays and objects are kept opaque: the pumps
    only format them, test their truth value or pass them on. *)
Inductive jval : Type :=
| JNull
| JBool (b : bool)
| JInt (n : Z)
| JStr (s : string)
| JComposite (rendering : string) (nonempty : bool).

(** [bool(v)] *)
Definition truthy (v : jval) : bool :=
  match v with
  | JNull => false
  | JBool b => b
  | JInt n => negb (n =? 0)
  | JStr s => negb (String.eqb s EmptyString)
  | JComposite _ nonempty => nonempty
  end.

(** [a or b] *)
Definition py_or (a b : jval) : jval := if truthy a then a else b.

(** [str(v)], as an f-string renders it. *)
Definition py_str (v : jval) : string :=
  match v with
  | JNull => "None"
  | JBool true => "True"
  | JBool false => "False"
  | JInt n => Py.str_of_int n
  | JStr s => s
  | JComposite rendering _ => rendering
  end.

(** [v == s] for a string literal [s] *)
Definition is_str (v : jval) (s : string) : bool :=
  match v with
  | JStr x => String.eqb x s
  | _ => false
  end.

(** [msg.get(key)] and [msg.get(key, default)] *)
Definition get (msg : Py.dict jval) (key : string) : jval :=
  match Py.dict_get key msg with
  | Some v => v
  | None => JNull
  end.

Definition get_default (msg : Py.dict jval) (key : string) (default : jval) : jval :=
  match Py.dict_get key msg with
  | Some v => v
  | None => default
  end.

(** A message received from the agent socket: audio bytes, a text frame
    that decodes to a JSON object, or a text frame on which [json.loads]
    (or the first [.get]) raises. *)
Inductive frame : Type :=
| Binary (audio : string)
| Text (msg_json : Py.dict jval)
| Undecodable (raw : string).

Inductive exn : Type :=
| Exception (type_name : string) (msg : string).

(** The [speak] entry of a handler's result, as far as the pumps look at
    it: a string, or a value of another type, kept by its rendering.
    [sliceable] tells whether [v[:50]] succeeds on it (a list, a tuple) or
    raises (None, a number, a dict). *)
Inductive speak_value : Type :=
| SpeakStr (s : string)
| SpeakOther (rendering : string) (sliceable : bool).

(** What a function handler returns.  Nothing in the pumps constrains it:
    a dictionary, with its [speak] entry if it has one and its other
    entries, or a value without a [get] method (None, a string, a list),
    kept by its rendering.  [serialisable] tells whether [json.dumps]
    accepts the value. *)
Inductive fn_result : Type :=
| ResultDict (speak : option speak_value) (extra : Py.dict jval)
    (serialisable : bool)
| ResultOther (rendering : string) (serialisable : bool).

Inductive handler_outcome : Type :=
| Returns (result : fn_result)
| Raises (e : exn).

(** The [function_call_id] of a response: the one read from the request, or
    the one generated from the clock when the request had none. *)
Inductive call_id : Type :=
| RequestId (v : jval)
| GeneratedId (now : Z).

(** Messages sent to the agent; [output] is the dictionary whose
    [json.dumps] is the [output] string. *)
Inductive agent_msg : Type :=
| FunctionCallResponse (function_call_id : call_id) (output : fn_result).

(** Messages sent to the client transport: the two Twilio events, and the
    browser vocabulary.  Audio is carried before its base64 encoding. *)
Inductive client_msg : Type :=
| TwilioMedia (streamSid : option string) (audio : string)
| TwilioClear (streamSid : string)
| WebsocketAudio (audio : string)
| UserStartedSpeaking
| AgentStartedSpeaking
| AgentResponse (text : jval)
| WebsocketTranscript (text : jval)
| ErrorEvent (message : string)
| PassThrough (msg_json : Py.dict jval).

Record TranscriptEntry : Type := mkEntry {
  entry_role : jval;
  entry_content : jval;
  entry_timestamp : Z
}.

(** What the pump of one connection reads and writes: the two outboxes, the
    variables of the enclosing handler, and the module-level [_contexts]. *)
Record state : Type := mkState {
  agent_out : list agent_msg;
  client_out : list client_msg;
  transcript : list TranscriptEntry;
  last_user_speech_time : option Z;
  contexts : Py.dict ConversationContext.t
}.

(** The variables the pump only reads: [call_sid] and
    [call_metadata.get("stream_sid")] for telephony, [browser_session_id]
    for the browser. *)
Record session : Type := mkSession {
  call_sid : option string;
  stream_sid : option string;
  browser_session_id : string
}.

(** What the pump does not control.  [handle_function_call] belongs to
    [app/function_handler.py]; a send on a socket goes through or raises
    [ConnectionClosed], depending on how many messages went out before. *)
Record env : Type := mkEnv {
  handle_function_call : Z -> jval -> jval -> option string -> handler_outcome;
  agent_send_ok : nat -> bool;
  client_send_ok : nat -> bool
}.

Definition MAX_TRANSCRIPT_ENTRIES : Z := 500.

Definition APOLOGY : fn_result :=
  ResultDict
    (Some (SpeakStr "I'm sorry, something went wrong. Could you try again?"))
    [] true.

(** *** Computations that update the state and may raise *)

Inductive result (A : Type) : Type :=
| Ok (a : A)
| Raised (e : exn).
Arguments Ok {A} a.
Arguments Raised {A} e.

Definition M (A : Type) : Type := state -> result A * state.

Definition ret {A : Type} (a : A) : M A := fun s => (Ok a, s).

Definition bind {A B : Type} (m : M A) (k : A -> M B) : M B :=
  fun s =>
    match m s with
    | (Ok a, s') => k a s'
    | (Raised e, s') => (Raised e, s')
    end.

Definition raise {A : Type} (e : exn) : M A := fun s => (Raised e, s).

(** [try: body  except Exception as e: handler(e)]: what [body] did to the
    state before raising stays done. *)
Definition try_except {A : Type} (body : M A) (handler : exn -> M A) : M A :=
  fun s =>
    match body s with
    | (Ok a, s') => (Ok a, s')
    | (Raised e, s') => handler e s'
    end.

Definition modify (f : state -> state) : M unit := fun s => (Ok tt, f s).

Definition read {A : Type} (f : state -> A) : M A := fun s => (Ok (f s), s).

Notation "x <- m ;; k" := (bind m (fun x => k))
  (at level 61, m at next level, right associativity).
Notation "m ;; k" := (bind m (fun _ => k))
  (at level 61, right associativity).

Definition CONNECTION_CLOSED : exn := Exception "ConnectionClosed" EmptyString.

(** The state with one more message in the agent, or client, outbox. *)
Definition sent_to_agent (m : agent_msg) (s : state) : state :=
  mkState (agent_out s ++ [m])%list (client_out s) (transcript s)
    (last_user_speech_time s) (contexts s).

Definition sent_to_client (m : client_msg) (s : state) : state :=
  mkState (agent_out s) (client_out s ++ [m])%list (transcript s)
    (last_user_speech_time s) (contexts s).

(** [await deepgram_ws.send(json.dumps(m))] *)
Definition send_agent (E : env) (m : agent_msg) : M unit :=
  fun s =>
    if agent_send_ok E (List.length (agent_out s))
    then (Ok tt, sent_to_agent m s)
    else (Raised CONNECTION_CLOSED, s).

(** [await websocket.send_json(m)] *)
Definition send_client (E : env) (m : client_msg) : M unit :=
  fun s =>
    if client_send_ok E (List.length (client_out s))
    then (Ok tt, sent_to_client m s)
    else (Raised CONNECTION_CLOSED, s).

Definition set_transcript (t : list TranscriptEntry) (s : state) : state :=
  mkState (agent_out s) (client_out s) t (last_user_speech_time s) (contexts s).

Definition set_last_user_speech_time (now : Z) (s : state) : state :=
  mkState (agent_out s) (client_out s) (transcript s) (Some now) (contexts s).

Definition set_contexts (c : Py.dict ConversationContext.t) (s : state) : state :=
  mkState (agent_out s) (client_out s) (transcript s) (last_user_speech_time s) c.

(** [get_context(session_id)]: the registered context, created if need be. *)
Definition get_context (now : Z) (session_id : string)
    : M ConversationContext.t :=
  fun s =>
    match Py.dict_get session_id (contexts s) with
    | Some c => (Ok c, s)
    | None =>
        let c := ConversationContext.init now session_id 50 in
        (Ok c, set_contexts (Py.dict_set session_id c (contexts s)) s)
    end.

(** [get_context(session_id).add_turn(role, content)].  When the content
    is not a string the turn is still appended (and, for a user turn, the
    silence state reset) before [content.lower()] or, for another role, the
    closing [content[:100]], raises. *)
Definition context_add_turn (now : Z) (session_id : string) (role : string)
    (content : jval) : M unit :=
  c <- get_context now session_id ;;
  match content with
  | JStr text =>
      modify (fun s =>
        set_contexts
          (Py.dict_set session_id
             (ConversationContext.add_turn now now role text c) (contexts s)) s)
  | _ =>
      let user := String.eqb role "user" in
      modify (fun s =>
        set_contexts
          (Py.dict_set session_id
             (ConversationContext.mkContext
                (ConversationContext.session_id c)
                (ConversationContext.max_history c)
                (Py.deque_append (ConversationContext.max_history c)
                   (ConversationContext.history c)
                   (ConversationContext.mkTurn role (py_str content) now))
                (ConversationContext.user_sentiment c)
                (ConversationContext.topic_stack c)
                (ConversationContext.clarification_count c)
                (ConversationContext.retry_count c)
                (ConversationContext.created_at c)
                (if user then Some now
                 else ConversationContext.last_user_speech_time c)
                (if user then 0 else ConversationContext.silence_count c))
             (contexts s)) s) ;;
      raise (if user
             then Exception "AttributeError" "object has no attribute 'lower'"
             else Exception "TypeError" "object is not subscriptable")
  end.

Definition nonempty (o : option string) : option string :=
  match o with
  | Some s => if String.eqb s EmptyString then None else Some s
  | None => None
  end.

(** [json.dumps(result)] *)
Definition json_dumps (result : fn_result) : M unit :=
  match result with
  | ResultDict _ _ true | ResultOther _ true => ret tt
  | ResultDict _ _ false | ResultOther _ false =>
      raise (Exception "TypeError" "Object is not JSON serializable")
  end.

(** [result.get('speak', default)] *)
Definition get_speak (result : fn_result) (default : string) : M speak_value :=
  match result with
  | ResultDict (Some v) _ _ => ret v
  | ResultDict None _ _ => ret (SpeakStr default)
  | ResultOther _ _ =>
      raise (Exception "AttributeError" "object has no attribute 'get'")
  end.

(** [v[:n]], evaluated for a log line: only whether it raises matters. *)
Definition slice_for_log (v : speak_value) : M unit :=
  match v with
  | SpeakStr _ => ret tt
  | SpeakOther _ true => ret tt
  | SpeakOther _ false =>
      raise (Exception "TypeError" "object is not subscriptable")
  end.

(** [str(v)], as an f-string renders it. *)
Definition speak_str (v : speak_value) : string :=
  match v with
  | SpeakStr s => s
  | SpeakOther rendering _ => rendering
  end.

(** The log line that follows the send of a response:
    [logger.info(f"... {result.get('speak', 'no speak')[:50]}...")]. *)
Definition log_function_response (result : fn_result) : M unit :=
  logged <- get_speak result "no speak" ;;
  slice_for_log logged.

(** The [FunctionCallRequest] fields, read with their fallbacks. *)
Definition request_function_name (msg_json : Py.dict jval) : jval :=
  py_or (get msg_json "function_name") (get msg_json "name").

Definition request_function_id (msg_json : Py.dict jval) : jval :=
  py_or (get msg_json "function_call_id") (get msg_json "id").

Definition request_arguments (msg_json : Py.dict jval) : jval :=
  py_or (get msg_json "input")
    (get_default msg_json "arguments" (JComposite "{}" false)).

(** [if len(transcript) < MAX_TRANSCRIPT_ENTRIES: transcript.append(entry)];
    the entry is built only when there is room for it. *)
Definition log_turn (entry : M TranscriptEntry) : M unit :=
  n <- read (fun s => Z.of_nat (List.length (transcript s))) ;;
  if n <? MAX_TRANSCRIPT_ENTRIES
  then
    e <- entry ;;
    modify (fun s => set_transcript (transcript s ++ [e])%list s)
  else ret tt.

(** The same, with the truncation marker appended once at the limit. *)
Definition log_turn_or_mark (now : Z) (entry : TranscriptEntry) : M unit :=
  modify (fun s =>
    let n := Z.of_nat (List.length (transcript s)) in
    if n <? MAX_TRANSCRIPT_ENTRIES
    then set_transcript (transcript s ++ [entry])%list s
    else if n =? MAX_TRANSCRIPT_ENTRIES
    then set_transcript
           (transcript s
            ++ [mkEntry (JStr "system") (JStr "[Transcript truncated]") now])%list s
    else s).

(** [await handle_function_call(...)] *)
Definition call_handler (E : env) (now : Z) (function_name arguments : jval)
    (session_id : option string) : M fn_result :=
  match handle_function_call E now function_name arguments session_id with
  | Returns result => ret result
  | Raises e => raise e
  end.

(** *** Telephony: the body of the loop of [deepgram_to_twilio] *)

(** [get_context(sid).add_turn("assistant", v)]: the turn is appended, a
    content that is not a string being kept by its rendering, and the log
    line that closes [add_turn] slices the content. *)
Definition context_add_assistant_turn (now : Z) (session_id : string)
    (v : speak_value) : M unit :=
  context_add_turn now session_id "assistant" (JStr (speak_str v)) ;;
  slice_for_log v.

(** The function call is recorded: an entry in the transcript, and an
    assistant turn in the context of the call. *)
Definition twilio_record_function_call (sess : session) (now : Z)
    (function_name : jval) (result : fn_result) : M unit :=
  log_turn
    (spoken <- get_speak result EmptyString ;;
     ret (mkEntry (JStr "function")
            (JStr (py_str function_name ++ ": " ++ speak_str spoken)) now)) ;;
  match nonempty (call_sid sess) with
  | Some sid =>
      spoken <- get_speak result EmptyString ;;
      context_add_assistant_turn now sid spoken
  | None => ret tt
  end.

(** The [try] block of the function call: the handler is awaited, its
    result serialised and sent; then come the log line that slices the
    [speak] entry and the records. *)
Definition twilio_function_call_body (E : env) (sess : session) (now : Z)
    (function_name arguments : jval) (function_id : call_id) : M unit :=
  result <- call_handler E now function_name arguments (call_sid sess) ;;
  json_dumps result ;;
  send_agent E (FunctionCallResponse function_id result) ;;
  log_function_response result ;;
  twilio_record_function_call sess now function_name result.

Definition twilio_function_call (E : env) (sess : session) (now : Z)
    (msg_json : Py.dict jval) : M unit :=
  let function_name := request_function_name msg_json in
  let function_id := request_function_id msg_json in
  let arguments := request_arguments msg_json in
  let function_id :=
    if truthy function_id then RequestId function_id else GeneratedId now in
  try_except
    (twilio_function_call_body E sess now function_name arguments function_id)
    (fun e => send_agent E (FunctionCallResponse function_id APOLOGY)).

Definition twilio_conversation_text (sess : session) (now : Z)
    (msg_json : Py.dict jval) : M unit :=
  let role := get msg_json "role" in
  let content := get msg_json "content" in
  (if is_str role "user" then
     modify (set_last_user_speech_time now) ;;
     match nonempty (call_sid sess) with
     | Some sid => context_add_turn now sid "user" content
     | None => ret tt
     end
   else ret tt) ;;
  log_turn_or_mark now (mkEntry role content now).

Definition twilio_on_message (E : env) (sess : session) (now : Z)
    (message : frame) : M unit :=
  match message with
  | Binary audio => send_client E (TwilioMedia (stream_sid sess) audio)
  | Undecodable _ => raise (Exception "JSONDecodeError" EmptyString)
  | Text msg_json =>
      let msg_type := get msg_json "type" in
      if is_str msg_type "ConversationText" then
        twilio_conversation_text sess now msg_json
      else if is_str msg_type "FunctionCallRequest" then
        twilio_function_call E sess now msg_json
      else if is_str msg_type "Error" then
        (* only logged, unless the code is CLIENT_MESSAGE_TIMEOUT *)
        ret tt
      else if is_str msg_type "UserStartedSpeaking" then
        match nonempty (stream_sid sess) with
        | Some sid => send_client E (TwilioClear sid)
        | None => ret tt
        end
      else ret tt
  end.

(** *** Browser: the body of the loop of [deepgram_to_browser] *)

Definition browser_function_call (E : env) (sess : session) (now : Z)
    (msg_json : Py.dict jval) : M unit :=
  let function_name := request_function_name msg_json in
  let function_id := request_function_id msg_json in
  let arguments := request_arguments msg_json in
  try_except
    (result <- call_handler E now function_name arguments
                 (Some (browser_session_id sess)) ;;
     json_dumps result ;;
     send_agent E (FunctionCallResponse (RequestId function_id) result) ;;
     log_function_response result)
    (fun e => send_agent E (FunctionCallResponse (RequestId function_id) APOLOGY)).

Definition browser_error (E : env) (msg_json : Py.dict jval) : M unit :=
  let error_code := get_default msg_json "code" (JStr EmptyString) in
  if is_str error_code "CLIENT_MESSAGE_TIMEOUT" then ret tt
  else
    let error_msg := get_default msg_json "message" (JStr "Unknown error") in
    send_client E (ErrorEvent ("Deepgram error: " ++ py_str error_msg)).

Definition browser_on_message (E : env) (sess : session) (now : Z)
    (message : frame) : M unit :=
  match message with
  | Binary audio => send_client E (WebsocketAudio audio)
  | Undecodable _ => raise (Exception "JSONDecodeError" EmptyString)
  | Text msg_json =>
      let msg_type := get msg_json "type" in
      if is_str msg_type "UserStartedSpeaking" then
        send_client E UserStartedSpeaking
      else if is_str msg_type "AgentStartedSpeaking" then
        send_client E AgentStartedSpeaking
      else if is_str msg_type "ConversationText" then
        let role := get msg_json "role" in
        let content := get msg_json "content" in
        if is_str role "assistant" then send_client E (AgentResponse content)
        else if is_str role "user" then send_client E (WebsocketTranscript content)
        else ret tt
      else if is_str msg_type "FunctionCallRequest" then
        browser_function_call E sess now msg_json
      else if is_str msg_type "Error" then
        browser_error E msg_json
      else send_client E (PassThrough msg_json)
  end.

(** *** The pump: [async for message in deepgram_ws], each message with the
    clock reading at which it is handled.  An exception ends the loop and
    leaves the pump. *)
Fixpoint pump (on_message : Z -> frame -> M unit) (messages : list (Z * frame))
    : M unit :=
  match messages with
  | [] => ret tt
  | (now, message) :: rest => on_message now message ;; pump on_message rest
  end.

Definition deepgram_to_twilio (E : env) (sess : session)
    (messages : list (Z * frame)) : M unit :=
  pump (twilio_on_message E sess) messages.

Definition deepgram_to_browser (E : env) (sess : session)
    (messages : list (Z * frame)) : M unit :=
  pump (browser_on_message E sess) messages.

Definition initial : state := mkState [] [] [] None [].

(** The transcript respects its cap: [MAX_TRANSCRIPT_ENTRIES] entries and
    the truncation marker. *)
Definition transcript_capped (s : state) : Prop :=
  Z.of_nat (List.length (transcript s)) <= MAX_TRANSCRIPT_ENTRIES + 1.


(** [json.dumps] accepts the result. *)
Definition is_serialisable (result : fn_result) : bool :=
  match result with
  | ResultDict _ _ b => b
  | ResultOther _ b => b
  end.

(** The result is a dictionary whose [speak] entry, if it has one, can be
    sliced. *)
Definition speak_is_sliceable (result : fn_result) : bool :=
  match result with
  | ResultDict None _ _ => true
  | ResultDict (Some (SpeakStr _)) _ _ => true
  | ResultDict (Some (SpeakOther _ b)) _ _ => b
  | ResultOther _ _ => false
  end.

(** The id a telephony response carries for a request. *)
Definition twilio_response_id (now : Z) (msg_json : Py.dict jval) : call_id :=
  if truthy (request_function_id msg_json)
  then RequestId (request_function_id msg_json)
  else GeneratedId now.

(** *** Sample environments and messages *)

(** An environment whose handler always raises and whose sockets are up. *)
Definition failing_handler : env :=
  mkEnv (fun _ _ _ _ => Raises (Exception "RuntimeError" "gateway down"))
    (fun _ => true) (fun _ => true).

Definition phone_session : session := mkSession (Some "CA1") (Some "MZ1") "browser-1".

Definition send_sms_request : Py.dict jval :=
  [("type", JStr "FunctionCallRequest"); ("function_name", JStr "send_sms");
   ("function_call_id", JStr "fc_1"); ("input", JComposite "{'to': '+1'}" true)].

(** An environment whose handler succeeds and whose sockets are up. *)
Definition sockets_up : env :=
  mkEnv (fun _ _ _ _ => Returns (ResultDict (Some (SpeakStr "Done.")) [] true))
    (fun _ => true) (fun _ => true).

(** An environment whose handler raises after the agent closed its socket. *)
Definition agent_closed : env :=
  mkEnv (fun _ _ _ _ => Raises (Exception "RuntimeError" "gateway down"))
    (fun _ => false) (fun _ => true).

(** An environment whose handler returns a dictionary whose [speak] entry
    is [None], with the sockets up. *)
Definition speak_none : env :=
  mkEnv
    (fun _ _ _ _ => Returns (ResultDict (Some (SpeakOther "None" false)) [] true))
    (fun _ => true) (fun _ => true).

Definition internal_error_frame : Py.dict jval :=
  [("type", JStr "Error"); ("code", JStr "INTERNAL_SERVER_ERROR");
   ("message", JStr "agent failed")].

End Relay.

(* --------------------------------------------------------------------- *)
(** ** app/inbound_deepgram.py: helpers                                   *)
(* --------------------------------------------------------------------- *)

Module InboundDeepgram.

(** [mask_phone(phone)]; the argument may be [None]. *)
Definition mask_phone (phone : option string) : string :=
  match phone with
  | Some p =>
      if negb (String.eqb p EmptyString) && (4 <=? String.length p)%nat
      then "***" ++ Py.last_chars 4 p
      else "***"
  | None => "***"
  end.

(** What one call of the decorated function does. *)
Inductive call_outcome (A : Type) : Type :=
| Returns (a : A)
| Raises (e : string).
Arguments Returns {A} a.
Arguments Raises {A} e.

(** What the wrapper built by [async_retry] does: it returns, it raises an
    exception of the function, or [raise last_exception] finds [None] and
    raises [TypeError]. *)
Inductive wrapper_outcome (A : Type) : Type :=
| WrapperReturns (a : A)
| WrapperRaises (e : string)
| WrapperRaisesNone.
Arguments WrapperReturns {A} a.
Arguments WrapperRaises {A} e.
Arguments WrapperRaisesNone {A}.

Inductive retry_event : Type :=
| Call (attempt : nat)
| Sleep (seconds : Q).

(** [min(base_delay * (2 ** attempt), max_delay)] *)
Definition retry_delay (base_delay max_delay : Q) (attempt : nat) : Q :=
  Py.min_q (base_delay * inject_Z (2 ^ Z.of_nat attempt)) max_delay.

(** The iterations of [for attempt in range(max_retries)] that remain,
    starting at index [attempt]; [func attempt] is the outcome of the call
    made in that iteration. *)
Fixpoint retry_loop {A : Type} (func : nat -> call_outcome A)
    (max_retries : Z) (base_delay max_delay : Q)
    (remaining attempt : nat) (last_exception : option string)
    : wrapper_outcome A * list retry_event :=
  match remaining with
  | O =>
      (match last_exception with
       | Some e => WrapperRaises e
       | None => WrapperRaisesNone
       end, [])
  | S remaining' =>
      match func attempt with
      | Returns a => (WrapperReturns a, [Call attempt])
      | Raises e =>
          let '(out, evs) :=
            retry_loop func max_retries base_delay max_delay
              remaining' (S attempt) (Some e) in
          if Z.of_nat attempt <? max_retries - 1
          then (out, Call attempt
                       :: Sleep (retry_delay base_delay max_delay attempt) :: evs)
          else (out, Call attempt :: evs)
      end
  end.

(** [async_retry(max_retries, base_delay, max_delay)(func)(...)] *)
Definition async_retry {A : Type} (max_retries : Z) (base_delay max_delay : Q)
    (func : nat -> call_outcome A) : wrapper_outcome A * list retry_event :=
  retry_loop func max_retries base_delay max_delay (Z.to_nat max_retries) 0 None.

(** The events of [n] failed attempts from [first] on, each followed by its
    back-off sleep. *)
Definition failed_attempts (base_delay max_delay : Q) (first n : nat)
    : list retry_event :=
  flat_map (fun i => [Call i; Sleep (retry_delay base_delay max_delay i)])
    (seq first n).

(** *** The silence watchdog of [media_stream] *)

(** What [silence_monitor] reads and writes: the prompts it has injected
    into the agent socket (the [content] of its [InjectAgent] messages), the
    module-level [_contexts], and [silence_monitoring_active] (also cleared
    when an exception ends the loop). *)
Record monitor_state : Type := mkMonitor {
  injected : list string;
  store : Py.dict ConversationContext.t;
  active : bool
}.

(** The variables of the enclosing handler that the watchdog only reads,
    and whether the agent socket takes its [n]-th prompt. *)
Record monitor_env : Type := mkMonitorEnv {
  monitor_last_user_speech_time : option Z;
  monitor_call_sid : option string;
  inject_ok : nat -> bool
}.

(** The escalation level recorded for the call. *)
Definition level (sid : string) (st : monitor_state) : Z :=
  match Py.dict_get sid (store st) with
  | Some c => ConversationContext.silence_count c
  | None => 0
  end.

(** One round of the loop after its two-second sleep.  [t_poll] is the clock
    reading of [get_silence_response] (and of a context created on the
    spot), [t_check] the later one of the closing [get_silence_duration]. *)
Definition monitor_poll (M : monitor_env) (t_poll t_check : Z)
    (st : monitor_state) : monitor_state :=
  if negb (active st) then st
  else
    match monitor_last_user_speech_time M, Relay.nonempty (monitor_call_sid M) with
    | Some _, Some sid =>
        let context :=
          match Py.dict_get sid (store st) with
          | Some c => c
          | None => ConversationContext.init t_poll sid 50
          end in
        let '(silence_response, context') :=
          ConversationContext.get_silence_response t_poll context in
        let store' := Py.dict_set sid context' (store st) in
        match silence_response with
        | None => mkMonitor (injected st) store' true
        | Some prompt =>
            if inject_ok M (List.length (injected st)) then
              match ConversationContext.get_silence_duration t_check context' with
              | Some d =>
                  mkMonitor (injected st ++ [prompt])%list store'
                    (negb (Qle_bool (inject_Z 18) d))
              | None => mkMonitor (injected st ++ [prompt])%list store' false
              end
            else mkMonitor (injected st) store' false
        end
    | _, _ => st
    end.

(** The watchdog left to itself for a number of rounds. *)
Definition silence_monitor (M : monitor_env) (polls : list (Z * Z))
    (st : monitor_state) : monitor_state :=
  fold_left (fun st poll => monitor_poll M (fst poll) (snd poll) st) polls st.

End InboundDeepgram.

(* --------------------------------------------------------------------- *)
(** ** app/browser_ws.py: the outbound pump                               *)
(* --------------------------------------------------------------------- *)

Module BrowserOutbound.
Import Relay.

(** What [websocket.receive_json()] gives: a JSON object, a frame that does
    not decode, or [WebSocketDisconnect]. *)
Inductive received : Type :=
| Json (data : Py.dict jval)
| BadJson
| Disconnect.

(** Messages sent to the agent: raw audio, the 320 zero bytes of a
    keep-alive, and the two injections. *)
Inductive upstream_msg : Type :=
| Audio (audio_data : string)
| KeepAliveSilence
| InjectUserMessage (content : string)
| InjectAgentMessage (content : string).

Inductive browser_msg : Type :=
| WebsocketReady.

Record out_state : Type := mkOut {
  upstream_out : list upstream_msg;
  browser_out : list browser_msg
}.

(** The sockets, and [base64.b64decode] ([None] when it raises). *)
Record out_env : Type := mkOutEnv {
  upstream_send_ok : nat -> bool;
  browser_send_ok : nat -> bool;
  b64decode : string -> option string
}.

Definition SILENCE_PROMPT : string :=
  "Are you still there? I'm here to help whenever you're ready.".

(** [await deepgram_ws.send(m)] *)
Definition send_upstream (E : out_env) (m : upstream_msg) (s : out_state)
    : result unit * out_state :=
  if upstream_send_ok E (List.length (upstream_out s))
  then (Ok tt, mkOut (upstream_out s ++ [m])%list (browser_out s))
  else (Raised CONNECTION_CLOSED, s).

(** The same inside [try: ... except Exception: logger.warning(...)]. *)
Definition send_upstream_quietly (E : out_env) (m : upstream_msg) (s : out_state)
    : result unit * out_state :=
  (Ok tt, snd (send_upstream E m s)).

(** The body of the loop of [browser_to_deepgram] for one received object. *)
Definition on_data (E : out_env) (data : Py.dict jval) (s : out_state)
    : result unit * out_state :=
  let type := get data "type" in
  if is_str type "websocket_audio" then
    match Py.dict_get "audio" data with
    | None => (Raised (Exception "KeyError" "audio"), s)
    | Some (JStr encoded) =>
        match b64decode E encoded with
        | Some audio_data => send_upstream E (Audio audio_data) s
        | None => (Raised (Exception "Error" "Incorrect padding"), s)
        end
    | Some _ => (Raised (Exception "TypeError" "argument should be a string"), s)
    end
  else if is_str type "websocket_transcript" then
    match get_default data "text" (JStr EmptyString) with
    | JStr text =>
        let user_text := Py.strip text in
        if String.eqb user_text EmptyString then (Ok tt, s)
        else send_upstream E (InjectUserMessage user_text) s
    | _ => (Raised (Exception "AttributeError" "object has no attribute 'strip'"), s)
    end
  else if is_str type "websocket_start" then
    if browser_send_ok E (List.length (browser_out s))
    then (Ok tt, mkOut (upstream_out s) (browser_out s ++ [WebsocketReady])%list)
    else (Raised CONNECTION_CLOSED, s)
  else if is_str type "keepalive" then
    send_upstream_quietly E KeepAliveSilence s
  else if is_str type "silence_detected" then
    send_upstream_quietly E (InjectAgentMessage SILENCE_PROMPT) s
  else (Ok tt, s).

(** [browser_to_deepgram()] over the frames the browser sends: it returns
    when the browser disconnects and lets any other exception out. *)
Fixpoint browser_to_deepgram (E : out_env) (frames : list received) (s : out_state)
    : result unit * out_state :=
  match frames with
  | [] => (Ok tt, s)
  | Disconnect :: _ => (Ok tt, s)
  | BadJson :: _ => (Raised (Exception "JSONDecodeError" EmptyString), s)
  | Json data :: rest =>
      match on_data E data s with
      | (Ok _, s') => browser_to_deepgram E rest s'
      | (Raised e, s') => (Raised e, s')
      end
  end.

(** An injected user message is well formed: not empty, no whitespace at
    either end. *)
Definition well_formed (m : upstream_msg) : Prop :=
  match m with
  | InjectUserMessage content =>
      content <> EmptyString /\ Py.strip content = content
  | _ => True
  end.

(** Frames that cannot end the pump: neither audio, nor text, nor start. *)
Definition harmless (frame : received) : Prop :=
  match frame with
  | Json data =>
      is_str (get data "type") "websocket_audio" = false
      /\ is_str (get data "type") "websocket_transcript" = false
      /\ is_str (get data "type") "websocket_start" = false
  | BadJson => False
  | Disconnect => True
  end.

End BrowserOutbound.

(* ===================================================================== *)
(** * Part II: properties                                                 *)
(* ===================================================================== *)

(** ** Python helpers *)

Module PyFacts.
Import Py.

Lemma startswith_spec p : forall s,
  startswith p s = true <-> exists rest, s = p ++ rest.
Proof.
  induction p as [|a p IH]; intros s; simpl.
  - split; [intros _; exists s; reflexivity | reflexivity].
  - destruct s as [|b s].
    + split; [discriminate | intros [rest H]; discriminate].
    + rewrite andb_true_iff, Ascii.eqb_eq, IH. split.
      * intros [-> [rest ->]]. exists rest. reflexivity.
      * intros [rest H]. injection H as -> ->. split; [reflexivity | now exists rest].
Qed.

Lemma contains_unfold needle hay :
  contains needle hay
  = if startswith needle hay then true
    else match hay with
         | EmptyString => false
         | String _ hay' => contains needle hay'
         end.
Proof. destruct hay; reflexivity. Qed.

Lemma contains_spec needle : forall hay,
  contains needle hay = true <-> occurs_in needle hay.
Proof.
  intros hay. split.
  - induction hay as [|c hay IH]; rewrite contains_unfold;
      destruct (startswith needle _) eqn:Hp.
    + intros _. apply startswith_spec in Hp as [rest ->].
      exists EmptyString, rest. reflexivity.
    + discriminate.
    + intros _. apply startswith_spec in Hp as [rest ->].
      exists EmptyString, rest. reflexivity.
    + intros H. destruct (IH H) as (before & after & ->).
      exists (String c before), after. reflexivity.
  - intros (before & after & ->).
    induction before as [|c before IH]; rewrite contains_unfold.
    + replace (startswith needle (EmptyString ++ needle ++ after)) with true; [reflexivity|].
      symmetry. apply startswith_spec. now exists after.
    + destruct (startswith needle _); [reflexivity | exact IH].
Qed.

Lemma any_spec {A : Type} (p : A -> bool) xs :
  any p xs = true <-> exists x, In x xs /\ p x = true.
Proof. apply existsb_exists. Qed.

Lemma has_char_app c s1 s2 :
  has_char c (s1 ++ s2) = has_char c s1 || has_char c s2.
Proof.
  induction s1 as [|x s1 IH]; simpl; [reflexivity|].
  rewrite IH. apply orb_assoc.
Qed.

Lemma contains_char c s : contains (String c EmptyString) s = has_char c s.
Proof.
  induction s as [|x s IH]; [reflexivity|].
  rewrite contains_unfold. cbn [startswith has_char].
  destruct (Ascii.eqb c x); simpl; [reflexivity|].
  destruct s; exact IH.
Qed.

(** Replacing a character by nothing removes it and nothing else. *)
Lemma has_char_replace_char x c s :
  has_char x (replace (String c EmptyString) EmptyString s)
  = has_char x s && negb (Ascii.eqb x c).
Proof.
  unfold replace. induction s as [|a s IH]; [reflexivity|].
  cbn [replace_scan startswith String.length Nat.sub has_char].
  destruct (Ascii.eqb_spec c a) as [<-|Hca].
  - cbn [andb append]. destruct s; cbn [startswith andb] in *;
      rewrite IH; destruct (Ascii.eqb x c); simpl; try reflexivity;
      now rewrite andb_false_r.
  - cbn [andb has_char]. rewrite IH.
    destruct (Ascii.eqb_spec x a) as [->|Hxa]; simpl; [|reflexivity].
    destruct (Ascii.eqb_spec a c); [congruence | reflexivity].
Qed.

Lemma has_char_lstrip x s : has_char x (lstrip s) = true -> has_char x s = true.
Proof.
  induction s as [|a s IH]; simpl; [trivial|].
  destruct (is_space a); [|trivial].
  intros H. rewrite (IH H). apply orb_true_r.
Qed.

Lemma has_char_rstrip x s : has_char x (rstrip s) = true -> has_char x s = true.
Proof.
  induction s as [|a s IH]; simpl; [trivial|].
  destruct (rstrip s) as [|b r].
  - destruct (is_space a); simpl; [discriminate|].
    rewrite orb_false_r. intros ->. reflexivity.
  - cbn [has_char] in *. destruct (Ascii.eqb x a); simpl; [trivial|]. exact IH.
Qed.

Lemma has_char_strip x s : has_char x (strip s) = true -> has_char x s = true.
Proof. intros H. apply has_char_lstrip, has_char_rstrip, H. Qed.

End PyFacts.

(** ** Regular expressions *)

Module ReFacts.
Import Re.

(** A substitution by a constant only leaves characters of the text or of
    the replacement. *)
Lemma has_char_sub_scan x r text : forall s prev skip,
  Py.has_char x (sub_scan r (fun _ => text) prev s skip) = true ->
  Py.has_char x s = true \/ Py.has_char x text = true.
Proof.
  induction s as [|c s IH]; intros prev skip; cbn [sub_scan].
  - discriminate.
  - assert (Hlater : forall k,
      Py.has_char x (sub_scan r (fun _ => text) (Some c) s k) = true ->
      Py.has_char x (String c s) = true \/ Py.has_char x text = true).
    { intros k H. destruct (IH _ _ H) as [H'|H']; [left | now right].
      cbn [Py.has_char]. rewrite H'. apply orb_true_r. }
    destruct skip as [|k]; [|apply Hlater].
    destruct (match_here (ignorecase r) (elems r) prev (String c s))
      as [[groups rest]|].
    + destruct (String.length (String c s) - String.length rest)%nat as [|k].
      * rewrite PyFacts.has_char_app. cbn [Py.has_char].
        intros H. apply orb_true_iff in H as [H|H]; [now right|].
        apply orb_true_iff in H as [H|H].
        -- left. rewrite H. reflexivity.
        -- apply (Hlater 0%nat H).
      * rewrite PyFacts.has_char_app.
        intros H. apply orb_true_iff in H as [H|H]; [now right|].
        apply (Hlater k H).
    + cbn [Py.has_char]. intros H. apply orb_true_iff in H as [H|H].
      * left. rewrite H. reflexivity.
      * apply (Hlater 0%nat H).
Qed.

Lemma has_char_sub_const x r text s :
  Py.has_char x (sub_const r text s) = true ->
  Py.has_char x s = true \/ Py.has_char x text = true.
Proof. apply has_char_sub_scan. Qed.

End ReFacts.

(** ** Session registry *)

Module TTLDictSpec.
Import TTLDict.

Lemma dict_set_length {V : Type} k (v : V) d :
  (List.length (Py.dict_set k v d) <= S (List.length d))%nat.
Proof.
  induction d as [|[k' v'] d IH]; simpl; [lia|].
  destruct (String.eqb k k'); simpl; lia.
Qed.

Lemma dict_del_length {V : Type} k (d : Py.dict V) :
  (List.length (Py.dict_del k d) <= List.length d)%nat.
Proof.
  induction d as [|[k' v'] d IH]; simpl; [lia|].
  destruct (String.eqb k k'); simpl; lia.
Qed.

Lemma dict_get_set_same {V : Type} k (v : V) d :
  Py.dict_get k (Py.dict_set k v d) = Some v.
Proof.
  induction d as [|[k' v'] d IH]; simpl.
  - rewrite String.eqb_refl. reflexivity.
  - destruct (String.eqb k k') eqn:E; simpl; rewrite E; [reflexivity | exact IH].
Qed.

Lemma dict_get_set_other {V : Type} k k' (v : V) d :
  k <> k' -> Py.dict_get k (Py.dict_set k' v d) = Py.dict_get k d.
Proof.
  intros Hne. induction d as [|[k'' v''] d IH]; simpl.
  - apply String.eqb_neq in Hne. rewrite Hne. reflexivity.
  - destruct (String.eqb k' k'') eqn:E; simpl.
    + apply String.eqb_eq in E. subst k''.
      apply String.eqb_neq in Hne. rewrite Hne. reflexivity.
    + destruct (String.eqb k k''); [reflexivity | exact IH].
Qed.

Lemma evict_length now self :
  (List.length (_dict (_evict_expired now self)) <= List.length (_dict self))%nat.
Proof. unfold _evict_expired. simpl. apply filter_length_le. Qed.

Lemma after_bounded c self :
  0 <= _max_size self -> bounded self ->
  bounded (after c self) /\ _max_size (after c self) = _max_size self.
Proof.
  unfold bounded. intros Hmax Hb.
  destruct c as [t_evict t_set key value|now key|now key ups|key|now key|now|now];
    cbn [after].
  - unfold set. pose proof (evict_length t_evict self) as He.
    destruct (Z.of_nat (List.length (_dict (_evict_expired t_evict self)))
              >=? _max_size (_evict_expired t_evict self)) eqn:Hfull.
    + destruct (_dict (_evict_expired t_evict self)) as [|oldest rest] eqn:Hd.
      * cbn [snd]. rewrite Hd. simpl. split; [lia | reflexivity].
      * cbn [snd with_dict _dict _max_size]. split; [|reflexivity].
        pose proof (dict_set_length key (t_set, value) rest).
        simpl in He. simpl. lia.
    + cbn [snd with_dict _dict _max_size]. split; [|reflexivity].
      rewrite Z.geb_leb in Hfull. apply Z.leb_gt in Hfull. simpl in Hfull.
      pose proof (dict_set_length key (t_set, value)
                    (_dict (_evict_expired t_evict self))).
      simpl in *. lia.
  - unfold get. destruct (Py.dict_get key (_dict self)) as [[ts val]|]; [|now split].
    destruct (live self now (ts, val)); [now split|].
    cbn [snd with_dict _dict _max_size]. split; [|reflexivity].
    pose proof (dict_del_length key (_dict self)). lia.
  - unfold update. destruct (Py.dict_get key (_dict self)) as [[ts val]|] eqn:Hget;
      [|now split].
    destruct (live self now (ts, val)); [|now split].
    destruct val as [fields|repr]; [|now split].
    cbn [snd with_dict _dict _max_size]. split; [|reflexivity].
    assert (Hlen : forall (d : Py.dict entry) e,
               Py.dict_get key d <> None ->
               List.length (Py.dict_set key e d) = List.length d).
    { clear. intros d e. induction d as [|[k' v'] d IH]; simpl; [congruence|].
      destruct (String.eqb key k'); simpl; [reflexivity|].
      intros H. rewrite IH; trivial. }
    rewrite Hlen by congruence. exact Hb.
  - unfold delete. cbn [with_dict _dict _max_size]. split; [|reflexivity].
    pose proof (dict_del_length key (_dict self)). lia.
  - unfold __contains__.
    destruct (Py.dict_get key (_dict self)) as [[ts val]|]; [|now split].
    destruct (live self now (ts, val)); [now split|].
    cbn [snd with_dict _dict _max_size]. split; [|reflexivity].
    pose proof (dict_del_length key (_dict self)). lia.
  - cbn [values snd]. pose proof (evict_length now self). simpl in *.
    split; [lia | reflexivity].
  - cbn [__len__ snd]. pose proof (evict_length now self). simpl in *.
    split; [lia | reflexivity].
Qed.

Lemma after_all_bounded calls : forall self,
  0 <= _max_size self -> bounded self ->
  bounded (after_all calls self)
  /\ _max_size (after_all calls self) = _max_size self.
Proof.
  induction calls as [|c calls IH]; intros self Hmax Hb; [now split|].
  change (after_all (c :: calls) self) with (after_all calls (after c self)).
  destruct (after_bounded c self Hmax Hb) as [Hb' Hm'].
  destruct (IH (after c self)) as [Hb'' Hm'']; [lia | exact Hb' |].
  split; [exact Hb'' | rewrite Hm''; exact Hm'].
Qed.

(** The first item a filter keeps: everything before it was dropped. *)
Lemma filter_first {A : Type} (f : A -> bool) l x r :
  filter f l = x :: r ->
  exists dropped later,
    l = (dropped ++ x :: later)%list
    /\ Forall (fun y => f y = false) dropped
    /\ f x = true.
Proof.
  induction l as [|y l IH]; simpl; [discriminate|].
  destruct (f y) eqn:Hy.
  - intros [= -> <-]. exists [], l. repeat split; [constructor | exact Hy].
  - intros H. destruct (IH H) as (dropped & later & -> & Hd & Hx).
    exists (y :: dropped), later. repeat split; [constructor; assumption | exact Hx].
Qed.

Lemma live_not_expired self now (e : entry) :
  negb (now - fst e >=? ttl_delta self) = live self now e.
Proof.
  unfold live. rewrite Z.geb_leb. symmetry. apply Z.ltb_antisym.
Qed.

(** C5.  Whatever calls are made on a registry created with a non-negative
    [max_size], [len()] never exceeds [max_size]; and a [set] made when the
    live entries fill the registry ([max_size >= 1]) removes the first live
    entry in insertion order and then stores the new value. *)
Theorem len_never_exceeds_max_size :
  (forall (ttl max_size : Z) (calls : list call) (now : Z),
      0 <= max_size ->
      fst (__len__ now (after_all calls (init ttl max_size))) <= max_size)
  /\ (forall (self : t) (t_evict t_set : Z) (key : string) (value : pyvalue),
      1 <= _max_size self ->
      Z.of_nat (List.length (_dict (_evict_expired t_evict self)))
        >= _max_size self ->
      exists oldest rest expired later,
        _dict self = (expired ++ oldest :: later)%list
        /\ Forall (fun item => live self t_evict (snd item) = false) expired
        /\ live self t_evict (snd oldest) = true
        /\ _dict (_evict_expired t_evict self) = oldest :: rest
        /\ set t_evict t_set key value self
           = (Returned tt,
              with_dict (Py.dict_set key (t_set, value) rest) self)).
Proof.
  split.
  - intros ttl max_size calls now Hmax.
    destruct (after_all_bounded calls (init ttl max_size)) as [Hb Hm].
    + exact Hmax.
    + unfold bounded. simpl. exact Hmax.
    + unfold bounded in Hb. cbn [__len__ fst].
      pose proof (evict_length now (after_all calls (init ttl max_size))).
      simpl in Hm. lia.
  - intros self t_evict t_set key value Hmax Hfull.
    destruct (_dict (_evict_expired t_evict self)) as [|oldest rest] eqn:Hd.
    { simpl in Hfull. lia. }
    pose proof Hd as Hfilter. unfold _evict_expired in Hfilter.
    cbn [_dict with_dict] in Hfilter.
    apply filter_first in Hfilter as (expired & later & Hsplit & Hexp & Hlive).
    exists oldest, rest, expired, later. repeat split.
    + exact Hsplit.
    + eapply Forall_impl; [|exact Hexp]. cbv beta. intros item H.
      rewrite <- live_not_expired. rewrite H. reflexivity.
    + rewrite <- live_not_expired. exact Hlive.
    + unfold set. rewrite Hd.
      replace (Z.of_nat (List.length (oldest :: rest))
               >=? _max_size (_evict_expired t_evict self)) with true.
      * reflexivity.
      * symmetry. rewrite Z.geb_leb. apply Z.leb_le.
        change (_max_size (_evict_expired t_evict self)) with (_max_size self).
        lia.
Qed.

(** Three distinct keys into a registry of size two. *)
Lemma len_never_exceeds_max_size_witness :
  fst (__len__ 40
         (after_all
            [CallSet 10 10 "CA1" (PyOther "a"); CallSet 20 20 "CA2" (PyOther "b");
             CallSet 30 30 "CA3" (PyOther "c")]
            (init 3600 2)))
  <= 2.
Proof.
  apply (proj1 len_never_exceeds_max_size). lia.
Defined.

Example set_evicts_oldest :
  _dict (after_all
           [CallSet 10 10 "CA1" (PyOther "a"); CallSet 20 20 "CA2" (PyOther "b");
            CallSet 30 30 "CA3" (PyOther "c")]
           (init 3600 2))
  = [("CA2", (20, PyOther "b")); ("CA3", (30, PyOther "c"))].
Proof. reflexivity. Qed.

(** An [update] leaves every stored timestamp, and the time to live, as
    they were. *)
Lemma update_timestamp now key updates self k :
  timestamp_of k (snd (update now key updates self)) = timestamp_of k self
  /\ ttl_delta (snd (update now key updates self)) = ttl_delta self.
Proof.
  unfold update.
  destruct (Py.dict_get key (_dict self)) as [[ts val]|] eqn:Hget; [|now split].
  destruct (live self now (ts, val)); [|now split].
  destruct val as [fields|repr]; [|now split].
  split; [|reflexivity].
  unfold timestamp_of. cbn [snd with_dict _dict].
  destruct (String.eqb_spec k key) as [->|Hne].
  - rewrite dict_get_set_same, Hget. reflexivity.
  - rewrite dict_get_set_other by exact Hne. reflexivity.
Qed.

Lemma update_calls_timestamp ups : forall self k,
  timestamp_of k (after_all (update_calls ups) self) = timestamp_of k self
  /\ ttl_delta (after_all (update_calls ups) self) = ttl_delta self.
Proof.
  induction ups as [|[[now key] updates] ups IH]; intros self k; [now split|].
  change (after_all (update_calls ((now, key, updates) :: ups)) self)
    with (after_all (update_calls ups) (snd (update now key updates self))).
  destruct (IH (snd (update now key updates self)) k) as [H1 H2].
  destruct (update_timestamp now key updates self k) as [H3 H4].
  split; congruence.
Qed.

(** [get] answers exactly while the stored timestamp is younger than the
    time to live. *)
Lemma get_visible now key self :
  (exists val, fst (get now key self) = Some val)
  <-> exists ts, timestamp_of key self = Some ts /\ now - ts < ttl_delta self.
Proof.
  unfold get, timestamp_of, live.
  destruct (Py.dict_get key (_dict self)) as [[ts val]|]; cbn [option_map fst].
  - destruct (Z.ltb_spec (now - ts) (ttl_delta self)) as [Hlt|Hge]; cbn [fst].
    + split; [intros _; exists ts; now split | intros _; now exists val].
    + split; [intros [v Hv]; discriminate | intros [ts' [[= <-] Hlt]]; lia].
  - split; [intros [v Hv]; discriminate | intros [ts' [Hts _]]; discriminate].
Qed.

Lemma set_timestamp t_evict t_set key value self :
  fst (set t_evict t_set key value self) = Returned tt ->
  timestamp_of key (snd (set t_evict t_set key value self)) = Some t_set
  /\ ttl_delta (snd (set t_evict t_set key value self)) = ttl_delta self.
Proof.
  unfold set, timestamp_of.
  destruct (_ >=? _).
  - destruct (_dict (_evict_expired t_evict self)) as [|oldest rest];
      [discriminate|].
    intros _. cbn [snd with_dict _dict]. rewrite dict_get_set_same. now split.
  - intros _. cbn [snd with_dict _dict]. rewrite dict_get_set_same. now split.
Qed.

(** C10.  [update] on a live dictionary value merges the fields and keeps
    the entry's timestamp; no sequence of [update] calls changes any stored
    timestamp; hence, after a [set] of [key] at [t_set] followed by any
    [update] calls, [get] still finds [key] at time [now] exactly when
    [now - t_set < ttl]. *)
Theorem update_never_extends_lifetime :
  (forall (now : Z) (key : string) (updates : Py.dict string) (self : t)
          (ts : Z) (fields : Py.dict string),
      Py.dict_get key (_dict self) = Some (ts, PyDict fields) ->
      now - ts < ttl_delta self ->
      update now key updates self
      = (true,
         with_dict
           (Py.dict_set key (ts, PyDict (Py.dict_update fields updates))
              (_dict self))
           self))
  /\ (forall (ups : list (Z * string * Py.dict string)) (self : t) (k : string),
      timestamp_of k (after_all (update_calls ups) self) = timestamp_of k self)
  /\ (forall (self : t) (t_evict t_set : Z) (key : string) (value : pyvalue)
          (ups : list (Z * string * Py.dict string)) (now : Z),
      fst (set t_evict t_set key value self) = Returned tt ->
      ((exists val,
          fst (get now key
                 (after_all (update_calls ups)
                    (snd (set t_evict t_set key value self))))
          = Some val)
       <-> now - t_set < ttl_delta self)).
Proof.
  split; [|split].
  - intros now key updates self ts fields Hget Hlive. unfold update, live.
    rewrite Hget. cbn [fst].
    destruct (Z.ltb_spec (now - ts) (ttl_delta self)); [reflexivity | lia].
  - intros ups self k. apply update_calls_timestamp.
  - intros self t_evict t_set key value ups now Hset.
    rewrite get_visible.
    destruct (update_calls_timestamp ups
                (snd (set t_evict t_set key value self)) key) as [Hts Httl].
    destruct (set_timestamp t_evict t_set key value self Hset) as [Hts' Httl'].
    rewrite Hts, Hts', Httl, Httl'.
    split; [intros [ts [[= <-] Hlt]]; exact Hlt | intros Hlt; now exists t_set].
Qed.

(** An entry set at second 0 with a one-hour time to live and updated at
    second 3599 is gone at second 3600. *)
Lemma update_never_extends_lifetime_witness :
  (exists val,
     fst (get 3600000000 "CA1"
            (after_all (update_calls [(3599000000, "CA1", [("status", "completed")])])
               (snd (set 0 0 "CA1" (PyDict [("status", "initiated")])
                       (init 3600 1000)))))
     = Some val)
  <-> 3600000000 - 0 < ttl_delta (init 3600 1000).
Proof.
  apply (proj2 (proj2 update_never_extends_lifetime)
           (init 3600 1000) 0 0 "CA1" (PyDict [("status", "initiated")])
           [(3599000000, "CA1", [("status", "completed")])] 3600000000).
  reflexivity.
Defined.

Example update_then_expire :
  fst (get 3599999999 "CA1"
         (after_all (update_calls [(3599000000, "CA1", [("status", "completed")])])
            (snd (set 0 0 "CA1" (PyDict [("status", "initiated")])
                    (init 3600 1000)))))
  = Some (PyDict [("status", "completed")])
  /\ fst (get 3600000000 "CA1"
         (after_all (update_calls [(3599000000, "CA1", [("status", "completed")])])
            (snd (set 0 0 "CA1" (PyDict [("status", "initiated")])
                    (init 3600 1000)))))
  = None.
Proof. split; reflexivity. Qed.

End TTLDictSpec.

(** ** Conversation context *)

Module ConversationContextSpec.
Import ConversationContext.

Lemma any_contains_mentions keywords text :
  Py.any (fun kw => Py.contains kw (Py.lower text)) keywords = true
  <-> mentions keywords text.
Proof.
  rewrite PyFacts.any_spec. unfold mentions.
  split; intros [kw [Hin H]]; exists kw; split; trivial;
    now apply PyFacts.contains_spec.
Qed.

Lemma any_contains_not_mentions keywords text :
  Py.any (fun kw => Py.contains kw (Py.lower text)) keywords = false
  <-> ~ mentions keywords text.
Proof.
  rewrite <- any_contains_mentions.
  destruct (Py.any _ keywords); split; congruence.
Qed.

(** C4.  [detect_sentiment] does not depend on the context it is called on,
    only on the text; its result follows the priority frustration >
    confusion > satisfaction > neutral over the keyword tables; and the
    sentiment stored by a user turn is that of the turn's text. *)
Theorem detect_sentiment_pure_and_prioritised :
  (forall (c1 c2 : t) (text : string),
      detect_sentiment c1 text = detect_sentiment c2 text)
  /\ (forall (c : t) (text : string),
      (mentions frustration_keywords text ->
       detect_sentiment c text = "frustrated")
      /\ (~ mentions frustration_keywords text ->
          mentions confusion_keywords text ->
          detect_sentiment c text = "confused")
      /\ (~ mentions frustration_keywords text ->
          ~ mentions confusion_keywords text ->
          mentions satisfaction_keywords text ->
          detect_sentiment c text = "satisfied")
      /\ (~ mentions frustration_keywords text ->
          ~ mentions confusion_keywords text ->
          ~ mentions satisfaction_keywords text ->
          detect_sentiment c text = "neutral"))
  /\ (forall (t_turn t_speech : Z) (content : string) (c : t),
      user_sentiment (add_turn t_turn t_speech "user" content c)
      = detect_sentiment c content).
Proof.
  split; [reflexivity|]. split; [|reflexivity].
  intros c text. unfold detect_sentiment.
  repeat split.
  - intros HF. apply any_contains_mentions in HF. rewrite HF. reflexivity.
  - intros HF HC. apply any_contains_not_mentions in HF.
    apply any_contains_mentions in HC. rewrite HF, HC. reflexivity.
  - intros HF HC HS. apply any_contains_not_mentions in HF, HC.
    apply any_contains_mentions in HS. rewrite HF, HC, HS. reflexivity.
  - intros HF HC HS. apply any_contains_not_mentions in HF, HC, HS.
    rewrite HF, HC, HS. reflexivity.
Qed.

(** A message with signal words of all three categories is classified as
    frustrated. *)
Lemma detect_sentiment_pure_and_prioritised_witness :
  detect_sentiment (init 0 "call-1" 50) "Thanks, but WHAT? This is broken"
  = "frustrated".
Proof.
  apply (proj1 (proj1 (proj2 detect_sentiment_pure_and_prioritised)
                  (init 0 "call-1" 50) "Thanks, but WHAT? This is broken")).
  exists "broken". split.
  - simpl. tauto.
  - exists "thanks, but what? this is ", EmptyString. reflexivity.
Defined.

(** One call either answers nothing and changes nothing, or gives one of
    the three messages and raises the level to that message's threshold. *)
Lemma get_silence_response_cases now self :
  get_silence_response now self = (None, self)
  \/ exists msg,
       fst (get_silence_response now self) = Some msg
       /\ In (Some msg) silence_messages
       /\ silence_count self < threshold_of (Some msg)
       /\ snd (get_silence_response now self)
          = with_silence_count (threshold_of (Some msg)) self.
Proof.
  unfold get_silence_response.
  destruct (get_silence_duration now self) as [d|]; [|left; reflexivity].
  destruct (Qle_bool (inject_Z 18) d && (silence_count self <? 3)) eqn:H3.
  { right. exists HANDOFF_MESSAGE. apply andb_true_iff in H3 as [_ H3].
    apply Z.ltb_lt in H3. repeat split; [simpl; tauto | exact H3]. }
  destruct (Qle_bool (inject_Z 12) d && (silence_count self <? 2)) eqn:H2.
  { right. exists PATIENCE_MESSAGE. apply andb_true_iff in H2 as [_ H2].
    apply Z.ltb_lt in H2. repeat split; [simpl; tauto | exact H2]. }
  destruct (Qle_bool (inject_Z 6) d && (silence_count self <? 1)) eqn:H1.
  { right. exists CHECKIN_MESSAGE. apply andb_true_iff in H1 as [_ H1].
    apply Z.ltb_lt in H1. repeat split; [simpl; tauto | exact H1]. }
  left. reflexivity.
Qed.

(** The comparison of a silence duration with a whole number of seconds,
    on the microseconds. *)
Lemma Qle_bool_seconds k n :
  Qle_bool (inject_Z k) (n # 1000000) = (k * 1000000 <=? n).
Proof. unfold Qle_bool. cbn [Qnum Qden inject_Z]. now rewrite Z.mul_1_r. Qed.

Lemma threshold_reached_cases elapsed :
  (threshold_reached elapsed = 0 /\ elapsed < 6000000)
  \/ (threshold_reached elapsed = 1 /\ 6000000 <= elapsed < 12000000)
  \/ (threshold_reached elapsed = 2 /\ 12000000 <= elapsed < 18000000)
  \/ (threshold_reached elapsed = 3 /\ 18000000 <= elapsed).
Proof.
  unfold threshold_reached.
  destruct (Z.leb_spec 18000000 elapsed); [right; right; right; lia|].
  destruct (Z.leb_spec 12000000 elapsed); [right; right; left; lia|].
  destruct (Z.leb_spec 6000000 elapsed); [right; left; lia | left; lia].
Qed.

(** One call, once the user has spoken, in terms of the time elapsed: it
    answers exactly when the threshold reached is above the level. *)
Lemma get_silence_response_reached now self t_speech :
  last_user_speech_time self = Some t_speech ->
  get_silence_response now self
  = if (0 <? threshold_reached (now - t_speech))
       && (silence_count self <? threshold_reached (now - t_speech))
    then (message_of (threshold_reached (now - t_speech)),
          with_silence_count (threshold_reached (now - t_speech)) self)
    else (None, self).
Proof.
  intros Hlast. unfold get_silence_response, get_silence_duration.
  rewrite Hlast, !Qle_bool_seconds.
  change (18 * 1000000) with 18000000. change (12 * 1000000) with 12000000.
  change (6 * 1000000) with 6000000.
  unfold threshold_reached.
  destruct (Z.leb_spec 18000000 (now - t_speech)),
           (Z.leb_spec 12000000 (now - t_speech)),
           (Z.leb_spec 6000000 (now - t_speech)); try lia;
    destruct (Z.ltb_spec (silence_count self) 3),
             (Z.ltb_spec (silence_count self) 2),
             (Z.ltb_spec (silence_count self) 1); try lia; reflexivity.
Qed.

Lemma get_silence_response_before_speech now self :
  last_user_speech_time self = None ->
  get_silence_response now self = (None, self).
Proof.
  intros Hlast. unfold get_silence_response, get_silence_duration.
  now rewrite Hlast.
Qed.

Lemma silence_episode_poll now calls self :
  silence_episode (GetSilenceResponse now :: calls) self
  = (fst (get_silence_response now self)
       :: fst (silence_episode calls (snd (get_silence_response now self))),
     snd (silence_episode calls (snd (get_silence_response now self)))).
Proof.
  simpl. destruct (get_silence_response now self) as [r self'].
  simpl. destruct (silence_episode calls self'). reflexivity.
Qed.

(** A turn of another role leaves the silence clock and the level alone. *)
Lemma add_turn_other_role t_turn t_speech role content self :
  String.eqb role "user" = false ->
  last_user_speech_time (add_turn t_turn t_speech role content self)
  = last_user_speech_time self
  /\ silence_count (add_turn t_turn t_speech role content self)
     = silence_count self.
Proof. intros Hrole. unfold add_turn. rewrite Hrole. now split. Qed.

(** Without a user turn the code answers as the one-shot escalation says. *)
Lemma silence_episode_one_shot calls : forall self t_speech,
  no_user_turn calls = true ->
  last_user_speech_time self = Some t_speech ->
  fst (silence_episode calls self)
  = one_shot_responses t_speech (silence_count self) (polls calls).
Proof.
  induction calls as [|c calls IH]; intros self t_speech Hno Hlast; [reflexivity|].
  unfold no_user_turn in Hno. cbn [forallb] in Hno.
  apply andb_true_iff in Hno as [Hc Hno]. fold (no_user_turn calls) in Hno.
  destruct c as [now|t_turn t_sp role content| |].
  - rewrite silence_episode_poll. cbn [fst polls one_shot_responses].
    rewrite (get_silence_response_reached now self t_speech Hlast).
    destruct ((0 <? threshold_reached (now - t_speech))
              && (silence_count self <? threshold_reached (now - t_speech))).
    + cbn [fst snd]. f_equal. now rewrite (IH _ t_speech Hno).
    + cbn [fst snd]. f_equal. now apply IH.
  - cbn [is_user_turn] in Hc. apply negb_true_iff in Hc.
    destruct (add_turn_other_role t_turn t_sp role content self Hc) as [Hl Hs].
    cbn [silence_episode polls]. rewrite <- Hs. apply IH; [exact Hno|].
    now rewrite Hl.
  - cbn [silence_episode polls]. now apply (IH (increment_retry self)).
  - cbn [silence_episode polls]. now apply (IH (reset_retry self)).
Qed.

(** Before the user has spoken no poll answers. *)
Lemma silence_episode_before_speech calls : forall self,
  no_user_turn calls = true ->
  last_user_speech_time self = None ->
  fst (silence_episode calls self) = map (fun _ => None) (polls calls).
Proof.
  induction calls as [|c calls IH]; intros self Hno Hlast; [reflexivity|].
  unfold no_user_turn in Hno. cbn [forallb] in Hno.
  apply andb_true_iff in Hno as [Hc Hno]. fold (no_user_turn calls) in Hno.
  destruct c as [now|t_turn t_sp role content| |].
  - rewrite silence_episode_poll. cbn [fst polls map].
    rewrite (get_silence_response_before_speech now self Hlast).
    cbn [fst snd]. f_equal. now apply IH.
  - cbn [is_user_turn] in Hc. apply negb_true_iff in Hc.
    destruct (add_turn_other_role t_turn t_sp role content self Hc) as [Hl Hs].
    cbn [silence_episode polls]. apply IH; [exact Hno|]. now rewrite Hl.
  - cbn [silence_episode polls]. now apply (IH (increment_retry self)).
  - cbn [silence_episode polls]. now apply (IH (reset_retry self)).
Qed.

Lemma fired_all_none (nows : list Z) :
  fired (map (fun _ => @None string) nows) = [].
Proof. induction nows; [reflexivity | exact IHnows]. Qed.

(** The message of a threshold that was reached. *)
Lemma message_of_reached elapsed :
  0 < threshold_reached elapsed ->
  exists msg,
    message_of (threshold_reached elapsed) = Some msg
    /\ threshold_of (Some msg) = threshold_reached elapsed
    /\ In (Some msg) silence_messages.
Proof.
  intros Hpos.
  destruct (threshold_reached_cases elapsed)
    as [[H _]|[[H _]|[[H _]|[H _]]]]; rewrite H in *; [lia| | |].
  - exists CHECKIN_MESSAGE. repeat split. simpl. tauto.
  - exists PATIENCE_MESSAGE. repeat split. simpl. tauto.
  - exists HANDOFF_MESSAGE. repeat split. simpl. tauto.
Qed.

(** In the one-shot escalation the thresholds of the answers increase
    strictly, starting above the level the episode began with. *)
Lemma one_shot_responses_escalate t_speech nows : forall level,
  StronglySorted Z.lt
    (map threshold_of (fired (one_shot_responses t_speech level nows)))
  /\ Forall (fun r => In r silence_messages /\ level < threshold_of r)
       (fired (one_shot_responses t_speech level nows)).
Proof.
  induction nows as [|now nows IH]; intros level.
  - split; constructor.
  - cbn [one_shot_responses].
    destruct ((0 <? threshold_reached (now - t_speech))
              && (level <? threshold_reached (now - t_speech))) eqn:Hb.
    + apply andb_true_iff in Hb as [Hpos Hlt].
      apply Z.ltb_lt in Hpos. apply Z.ltb_lt in Hlt.
      destruct (message_of_reached (now - t_speech) Hpos) as (msg & Hm & Hthr & Hin).
      rewrite Hm. cbn [fired filter].
      fold (fired (one_shot_responses t_speech
                     (threshold_reached (now - t_speech)) nows)).
      destruct (IH (threshold_reached (now - t_speech))) as [Hsorted Habove].
      split.
      * cbn [map]. constructor; [exact Hsorted|].
        apply Forall_map. eapply Forall_impl; [|exact Habove].
        cbv beta. intros r [_ Hr]. rewrite Hthr. exact Hr.
      * constructor; [split; [exact Hin | rewrite Hthr; exact Hlt]|].
        eapply Forall_impl; [|exact Habove].
        cbv beta. intros r [Hr1 Hr2]. split; [exact Hr1 | lia].
    + cbn [fired filter]. apply IH.
Qed.

(** C3.  Take any sequence of calls on one context in which no [add_turn]
    has role "user": [get_silence_response] at any clock readings, with
    turns of other roles and retry updates in between.  The answers given
    are among the three threshold messages and their thresholds strictly
    increase in call order, above the level the sequence began with (so each
    message is given at most once and a lower threshold never follows a
    higher one); indeed the answers are exactly those of the one-shot
    escalation: a poll answers when the threshold reached by then is above
    the level, and not at all before the user has spoken.  A call at which no
    threshold is newly crossed returns nothing and changes nothing, and a call
    that answers has newly crossed the threshold of its answer and leaves the
    level there.  A user turn puts the level back to 0 and restarts the
    silence clock, after which the 6-second message is given again. *)
Theorem get_silence_response_one_shot :
  (forall (calls : list method_call) (self : t),
      no_user_turn calls = true ->
      StronglySorted Z.lt
        (map threshold_of (fired (fst (silence_episode calls self))))
      /\ Forall (fun r => In r silence_messages
                          /\ silence_count self < threshold_of r)
           (fired (fst (silence_episode calls self)))
      /\ fst (silence_episode calls self)
         = match last_user_speech_time self with
           | Some t_speech =>
               one_shot_responses t_speech (silence_count self) (polls calls)
           | None => map (fun _ => None) (polls calls)
           end)
  /\ (forall (now : Z) (self : t),
      (forall k, 1 <= k <= 3 -> ~ newly_crossed k now self) ->
      get_silence_response now self = (None, self))
  /\ (forall (now : Z) (self : t) (msg : string),
      fst (get_silence_response now self) = Some msg ->
      newly_crossed (threshold_of (Some msg)) now self
      /\ silence_count (snd (get_silence_response now self))
         = threshold_of (Some msg))
  /\ (forall (t_turn t_speech : Z) (content : string) (self : t),
      silence_count (add_turn t_turn t_speech "user" content self) = 0
      /\ last_user_speech_time (add_turn t_turn t_speech "user" content self)
         = Some t_speech)
  /\ (forall (t_turn t_speech now : Z) (content : string) (self : t),
      6000000 <= now - t_speech < 12000000 ->
      fst (get_silence_response now
             (add_turn t_turn t_speech "user" content self))
      = Some CHECKIN_MESSAGE).
Proof.
  split; [|split; [|split; [|split]]].
  - intros calls self Hno.
    destruct (last_user_speech_time self) as [t_speech|] eqn:Hlast.
    + rewrite (silence_episode_one_shot calls self t_speech Hno Hlast).
      destruct (one_shot_responses_escalate t_speech (polls calls)
                  (silence_count self)) as [H1 H2].
      now repeat split.
    + rewrite (silence_episode_before_speech calls self Hno Hlast).
      rewrite fired_all_none. repeat split; constructor.
  - intros now self Hnone.
    destruct (last_user_speech_time self) as [t_speech|] eqn:Hlast;
      [|now apply get_silence_response_before_speech].
    rewrite (get_silence_response_reached now self t_speech Hlast).
    destruct ((0 <? threshold_reached (now - t_speech))
              && (silence_count self <? threshold_reached (now - t_speech)))
      eqn:Hb; [|reflexivity].
    apply andb_true_iff in Hb as [Hpos Hlt].
    apply Z.ltb_lt in Hpos. apply Z.ltb_lt in Hlt.
    exfalso. apply (Hnone (threshold_reached (now - t_speech))).
    + destruct (threshold_reached_cases (now - t_speech))
        as [[H _]|[[H _]|[[H _]|[H _]]]]; lia.
    + exists t_speech. split; [exact Hlast|]. split; [|exact Hlt].
      destruct (threshold_reached_cases (now - t_speech))
        as [[H ?]|[[H ?]|[[H ?]|[H ?]]]]; lia.
  - intros now self msg Hmsg.
    destruct (last_user_speech_time self) as [t_speech|] eqn:Hlast.
    2:{ rewrite (get_silence_response_before_speech now self Hlast) in Hmsg.
        discriminate. }
    rewrite (get_silence_response_reached now self t_speech Hlast) in Hmsg |- *.
    destruct ((0 <? threshold_reached (now - t_speech))
              && (silence_count self <? threshold_reached (now - t_speech)))
      eqn:Hb; [|discriminate].
    apply andb_true_iff in Hb as [Hpos Hlt].
    apply Z.ltb_lt in Hpos. apply Z.ltb_lt in Hlt.
    destruct (message_of_reached (now - t_speech) Hpos) as (m & Hm & Hthr & _).
    cbn [fst snd] in Hmsg |- *. rewrite Hm in Hmsg. injection Hmsg as <-.
    rewrite Hthr. split; [|reflexivity].
    exists t_speech. split; [exact Hlast|]. split; [|exact Hlt].
    destruct (threshold_reached_cases (now - t_speech))
      as [[H ?]|[[H ?]|[[H ?]|[H ?]]]]; lia.
  - intros. split; reflexivity.
  - intros t_turn t_speech now content self Hnow.
    rewrite (get_silence_response_reached now
               (add_turn t_turn t_speech "user" content self) t_speech eq_refl).
    destruct (threshold_reached_cases (now - t_speech))
      as [[H ?]|[[H ?]|[[H ?]|[H ?]]]]; try lia.
    rewrite H. reflexivity.
Qed.

(** After the user spoke at time 0: the 6-second message at 7 s is not
    repeated at 9 s although an assistant turn came in between, the
    12-second message is given at 13 s, the hand-off at 30 s, nothing at
    31 s. *)
Lemma get_silence_response_one_shot_witness :
  fst (silence_episode sample_episode
         (add_turn 0 0 "user" "hello" (init 0 "call-1" 50)))
  = [Some CHECKIN_MESSAGE; None; Some PATIENCE_MESSAGE; Some HANDOFF_MESSAGE;
     None].
Proof.
  refine (eq_trans
            (proj2 (proj2 (proj1 get_silence_response_one_shot sample_episode
                             (add_turn 0 0 "user" "hello" (init 0 "call-1" 50))
                             _)))
            _); reflexivity.
Defined.

(** Seven seconds after a user turn the 6-second message is given even
    though the previous episode had reached the hand-off level. *)
Example silence_cycle_restarts :
  fst (get_silence_response 107000000
         (add_turn 100000000 100000000 "user" "hello"
            (with_silence_count 3 (init 0 "call-1" 50))))
  = Some CHECKIN_MESSAGE.
Proof. reflexivity. Qed.

(** The watchdog scenario: polled every two seconds for twenty seconds, the
    three messages come out once each, at 6 s, 12 s and 18 s. *)
Example silence_episode_19s :
  fst (silence_episode
         (map (fun s => GetSilenceResponse (s * 1000000))
            [2; 4; 6; 8; 10; 12; 14; 16; 18; 20])
         (add_turn 0 0 "user" "hello" (init 0 "call-1" 50)))
  = [None; None; Some CHECKIN_MESSAGE; None; None; Some PATIENCE_MESSAGE;
     None; None; Some HANDOFF_MESSAGE; None].
Proof. vm_compute. reflexivity. Qed.

End ConversationContextSpec.

(** ** Output sanitizer *)

Module TtsSanitizerSpec.
Import TtsSanitizer.

(** After the last-resort step no opening bracket is left. *)
Lemma strip_brackets_clean x text :
  x = "{"%char \/ x = "["%char \/ x = "<"%char ->
  Py.has_char x (strip_brackets text) = false.
Proof.
  intros Hx. unfold strip_brackets.
  rewrite !PyFacts.contains_char.
  destruct (Py.has_char "{" text || Py.has_char "[" text || Py.has_char "<" text)
    eqn:Hany.
  - apply not_true_is_false. intros H.
    apply PyFacts.has_char_strip in H.
    apply ReFacts.has_char_sub_const in H as [H|H].
    + rewrite !PyFacts.has_char_replace_char in H.
      destruct Hx as [-> | [-> | ->]]; simpl in H;
        rewrite ?andb_false_r in H; discriminate.
    + destruct Hx as [-> | [-> | ->]]; discriminate.
  - apply orb_false_iff in Hany as [Hany H3].
    apply orb_false_iff in Hany as [H1 H2].
    destruct Hx as [-> | [-> | ->]]; assumption.
Qed.

(** C7.  Whatever the input, the output of [sanitize_for_tts] contains none
    of the characters [{], [[], [<]; and the sanitized form of "Let me call
    initiate_booking for you" contains no "initiate_". *)
Theorem sanitize_for_tts_no_brackets :
  (forall text : string,
      Py.contains "{" (sanitize_for_tts text) = false
      /\ Py.contains "[" (sanitize_for_tts text) = false
      /\ Py.contains "<" (sanitize_for_tts text) = false)
  /\ Py.contains "initiate_"
       (sanitize_for_tts "Let me call initiate_booking for you") = false.
Proof.
  split; [|vm_compute; reflexivity].
  intros text. rewrite !PyFacts.contains_char.
  unfold sanitize_for_tts. destruct text as [|c text]; [now repeat split|].
  repeat split; apply strip_brackets_clean; tauto.
Qed.

Example sanitize_initiate_booking :
  sanitize_for_tts "Let me call initiate_booking for you" = "me call for you".
Proof. vm_compute. reflexivity. Qed.

(** C6 as stated fails: an underscore keeps "session state" from being
    recognised in the first pass and is turned into the space that lets the
    second pass remove it. *)
Lemma sanitize_for_tts_not_idempotent :
  sanitize_for_tts "session_state" = "session state"
  /\ sanitize_for_tts "session state" = EmptyString
  /\ sanitize_for_tts (sanitize_for_tts "session_state")
     <> sanitize_for_tts "session_state".
Proof.
  split; [vm_compute; reflexivity|]. split; [vm_compute; reflexivity|].
  vm_compute. discriminate.
Qed.

(** C6 (as amended).  The sanitizer is idempotent on every input of its
    test suite. *)
Theorem sanitize_for_tts_idempotent_on_tests :
  Forall (fun x => sanitize_for_tts (sanitize_for_tts x) = sanitize_for_tts x)
    test_cases.
Proof. repeat constructor; vm_compute; reflexivity. Qed.

End TtsSanitizerSpec.

(** ** Relay: the inbound pumps *)

Module RelaySpec.
Import Relay.

Lemma is_str_true v str : is_str v str = true -> v = JStr str.
Proof.
  destruct v; simpl; try discriminate.
  intros H. apply String.eqb_eq in H. now subst.
Qed.

Lemma pump_cons on_message now message rest s :
  pump on_message ((now, message) :: rest) s
  = match on_message now message s with
    | (Ok _, s') => pump on_message rest s'
    | (Raised e, s') => (Raised e, s')
    end.
Proof. reflexivity. Qed.

Lemma request_function_id_primary msg_json :
  truthy (get msg_json "function_call_id") = true ->
  request_function_id msg_json = get msg_json "function_call_id".
Proof. unfold request_function_id, py_or. now intros ->. Qed.

Lemma request_function_id_fallback msg_json :
  truthy (get msg_json "function_call_id") = false ->
  request_function_id msg_json = get msg_json "id".
Proof. unfold request_function_id, py_or. now intros ->. Qed.

(** A raising handler, telephony: the message comes down to sending the
    apology. *)
Lemma twilio_function_call_raises E sess now msg_json s e :
  is_str (get msg_json "type") "FunctionCallRequest" = true ->
  handle_function_call E now (request_function_name msg_json)
    (request_arguments msg_json) (call_sid sess) = Raises e ->
  twilio_on_message E sess now (Text msg_json) s
  = send_agent E
      (FunctionCallResponse (twilio_response_id now msg_json) APOLOGY) s.
Proof.
  intros Htype Hraise. unfold twilio_on_message.
  rewrite (is_str_true _ _ Htype). cbn [is_str String.eqb Ascii.eqb Bool.eqb].
  unfold twilio_function_call, twilio_function_call_body, twilio_response_id.
  unfold try_except, bind, call_handler. rewrite Hraise. reflexivity.
Qed.

(** The same for the browser, which never generates an id. *)
Lemma browser_function_call_raises E sess now msg_json s e :
  is_str (get msg_json "type") "FunctionCallRequest" = true ->
  handle_function_call E now (request_function_name msg_json)
    (request_arguments msg_json) (Some (browser_session_id sess)) = Raises e ->
  browser_on_message E sess now (Text msg_json) s
  = send_agent E
      (FunctionCallResponse (RequestId (request_function_id msg_json)) APOLOGY) s.
Proof.
  intros Htype Hraise. unfold browser_on_message.
  rewrite (is_str_true _ _ Htype). cbn [is_str String.eqb Ascii.eqb Bool.eqb].
  unfold browser_function_call.
  unfold try_except, bind, call_handler. rewrite Hraise. reflexivity.
Qed.

(** C8 (as amended).  When the function handler raises on a
    [FunctionCallRequest], each pump tries to answer with a
    [FunctionCallResponse] whose output is the apology.  If the agent socket
    takes the send, that response is appended to what was sent to the agent,
    nothing else changes, the pump does not raise and goes on with the
    messages that follow.  The response carries the request's
    [function_call_id], or its [id] when [function_call_id] is missing or
    empty; when the request has neither, the telephony pump answers under an
    id generated from the clock and the browser pump under the empty value it
    read.  If the agent socket refuses the send, the pump raises
    [ConnectionClosed], nothing is sent and the messages that follow are not
    read. *)
Theorem function_call_exception_contained
    (E : env) (sess : session) (now : Z) (msg_json : Py.dict jval)
    (rest : list (Z * frame)) (s : state) :
  is_str (get msg_json "type") "FunctionCallRequest" = true ->
  (truthy (get msg_json "function_call_id") = true ->
   request_function_id msg_json = get msg_json "function_call_id")
  /\ (truthy (get msg_json "function_call_id") = false ->
      request_function_id msg_json = get msg_json "id")
  /\ (forall e,
      handle_function_call E now (request_function_name msg_json)
        (request_arguments msg_json) (call_sid sess) = Raises e ->
      deepgram_to_twilio E sess ((now, Text msg_json) :: rest) s
      = if agent_send_ok E (List.length (agent_out s))
        then
          deepgram_to_twilio E sess rest
            (mkState
               (agent_out s
                ++ [FunctionCallResponse
                      (if truthy (request_function_id msg_json)
                       then RequestId (request_function_id msg_json)
                       else GeneratedId now)
                      (ResultDict
                         (Some (SpeakStr
                            "I'm sorry, something went wrong. Could you try again?"))
                         [] true)])%list
               (client_out s) (transcript s) (last_user_speech_time s)
               (contexts s))
        else (Raised (Exception "ConnectionClosed" EmptyString), s))
  /\ (forall e,
      handle_function_call E now (request_function_name msg_json)
        (request_arguments msg_json) (Some (browser_session_id sess)) = Raises e ->
      deepgram_to_browser E sess ((now, Text msg_json) :: rest) s
      = if agent_send_ok E (List.length (agent_out s))
        then
          deepgram_to_browser E sess rest
            (mkState
               (agent_out s
                ++ [FunctionCallResponse
                      (RequestId (request_function_id msg_json))
                      (ResultDict
                         (Some (SpeakStr
                            "I'm sorry, something went wrong. Could you try again?"))
                         [] true)])%list
               (client_out s) (transcript s) (last_user_speech_time s)
               (contexts s))
        else (Raised (Exception "ConnectionClosed" EmptyString), s)).
Proof.
  intros Htype.
  split; [apply request_function_id_primary|].
  split; [apply request_function_id_fallback|].
  split; intros e Hraise.
  - unfold deepgram_to_twilio. rewrite pump_cons.
    rewrite (twilio_function_call_raises E sess now msg_json s e Htype Hraise).
    unfold send_agent.
    destruct (agent_send_ok E (List.length (agent_out s))); reflexivity.
  - unfold deepgram_to_browser. rewrite pump_cons.
    rewrite (browser_function_call_raises E sess now msg_json s e Htype Hraise).
    unfold send_agent.
    destruct (agent_send_ok E (List.length (agent_out s))); reflexivity.
Qed.

(** The telephony pump: the request is answered with the apology under its
    id and the audio that follows is still forwarded. *)
Lemma function_call_exception_contained_witness :
  deepgram_to_twilio failing_handler phone_session
    [(1000, Text send_sms_request); (2000, Binary "audio")] initial
  = (Ok tt,
     mkState
       [FunctionCallResponse (RequestId (JStr "fc_1"))
          (ResultDict
             (Some (SpeakStr
                "I'm sorry, something went wrong. Could you try again?"))
             [] true)]
       [TwilioMedia (Some "MZ1") "audio"] [] None []).
Proof.
  exact (proj1 (proj2 (proj2 (function_call_exception_contained failing_handler
                                phone_session 1000 send_sms_request
                                [(2000, Binary "audio")] initial eq_refl)))
           (Exception "RuntimeError" "gateway down") eq_refl).
Defined.

(** C8 as stated fails when the agent has closed its socket: the handler
    raises, the apology cannot be sent, and both pumps end with
    [ConnectionClosed]; nothing was sent to the agent and the audio frame
    behind the request is not forwarded. *)
Lemma function_call_exception_escapes_closed_socket :
  handle_function_call agent_closed 1000
    (request_function_name send_sms_request)
    (request_arguments send_sms_request) (call_sid phone_session)
  = Raises (Exception "RuntimeError" "gateway down")
  /\ deepgram_to_twilio agent_closed phone_session
       [(1000, Text send_sms_request); (2000, Binary "audio")] initial
     = (Raised (Exception "ConnectionClosed" EmptyString),
        mkState [] [] [] None [])
  /\ deepgram_to_browser agent_closed phone_session
       [(1000, Text send_sms_request); (2000, Binary "audio")] initial
     = (Raised (Exception "ConnectionClosed" EmptyString),
        mkState [] [] [] None []).
Proof. repeat split. Qed.

(** A request without any id: the telephony pump answers under a generated
    id, the browser pump under the [None] it read. *)
Example function_call_without_id :
  agent_out
    (snd (deepgram_to_twilio failing_handler phone_session
            [(1000, Text [("type", JStr "FunctionCallRequest");
                          ("name", JStr "search_web")])] initial))
  = [FunctionCallResponse (GeneratedId 1000) APOLOGY]
  /\ agent_out
       (snd (deepgram_to_browser failing_handler phone_session
               [(1000, Text [("type", JStr "FunctionCallRequest");
                             ("name", JStr "search_web")])] initial))
     = [FunctionCallResponse (RequestId JNull) APOLOGY].
Proof. split; reflexivity. Qed.

(** C9 (as amended).  On an [Error] frame the browser pump sends nothing
    when the code is [CLIENT_MESSAGE_TIMEOUT] and otherwise sends the client
    an error event carrying the frame's message; the telephony pump sends
    nothing and changes nothing, whatever the code. *)
Theorem upstream_error_frames
    (E : env) (sess : session) (now : Z) (msg_json : Py.dict jval) (s : state) :
  is_str (get msg_json "type") "Error" = true ->
  (is_str (get_default msg_json "code" (JStr EmptyString)) "CLIENT_MESSAGE_TIMEOUT" = true ->
   browser_on_message E sess now (Text msg_json) s = (Ok tt, s))
  /\ (is_str (get_default msg_json "code" (JStr EmptyString)) "CLIENT_MESSAGE_TIMEOUT" = false ->
      client_send_ok E (List.length (client_out s)) = true ->
      browser_on_message E sess now (Text msg_json) s
      = (Ok tt,
         sent_to_client
           (ErrorEvent
              ("Deepgram error: "
               ++ py_str (get_default msg_json "message" (JStr "Unknown error"))))
           s))
  /\ twilio_on_message E sess now (Text msg_json) s = (Ok tt, s).
Proof.
  intros Htype. unfold browser_on_message, twilio_on_message, browser_error.
  rewrite (is_str_true _ _ Htype). cbn [is_str String.eqb Ascii.eqb Bool.eqb].
  repeat split.
  - intros ->. reflexivity.
  - intros -> Hsend. unfold send_client. rewrite Hsend. reflexivity.
Qed.

(** The browser is told about an upstream error that is not the idle
    time-out. *)
Lemma upstream_error_frames_witness :
  browser_on_message sockets_up phone_session 1000 (Text internal_error_frame)
    initial
  = (Ok tt, sent_to_client (ErrorEvent "Deepgram error: agent failed") initial).
Proof.
  refine (proj1 (proj2 (upstream_error_frames sockets_up phone_session 1000
                          internal_error_frame initial _)) _ _); reflexivity.
Defined.

(** C9 as stated fails on the telephony relay: an upstream error whose code
    is not the idle time-out leaves the client outbox empty. *)
Lemma twilio_error_frame_not_surfaced :
  is_str (get_default internal_error_frame "code" (JStr EmptyString))
    "CLIENT_MESSAGE_TIMEOUT" = false
  /\ deepgram_to_twilio sockets_up phone_session
       [(1000, Text internal_error_frame)] initial
     = (Ok tt, initial)
  /\ client_out
       (snd (deepgram_to_twilio sockets_up phone_session
               [(1000, Text internal_error_frame)] initial))
     = [].
Proof. repeat split. Qed.

End RelaySpec.

(** ** Action dispatcher *)

Module N8nClientSpec.
Import N8nClient.

Lemma retry_events_from_S first n :
  retry_events_from first (S n)
  = Post first :: Sleep (delay first) :: retry_events_from (S first) n.
Proof. reflexivity. Qed.

(** A run of [n] retried attempts only adds their events to the trace; the
    loop then continues from attempt [attempt + n]. *)
Lemma attempt_loop_retried gw action n :
  forall remaining attempt last_error,
    (forall i, (i < n)%nat -> retried (gw (attempt + i)%nat) = true) ->
    exists last_error',
      attempt_loop gw action (n + remaining) attempt last_error
      = (fst (attempt_loop gw action remaining (attempt + n) last_error'),
         (retry_events_from attempt n
          ++ snd (attempt_loop gw action remaining (attempt + n) last_error'))%list).
Proof.
  induction n as [|n IH]; intros remaining attempt last_error Hretried.
  - exists last_error. rewrite Nat.add_0_r. simpl.
    destruct (attempt_loop gw action remaining attempt last_error); reflexivity.
  - assert (H0 : retried (gw attempt) = true).
    { rewrite <- (Nat.add_0_r attempt). apply Hretried. lia. }
    assert (Hnext : forall e,
      exists e', attempt_loop gw action (n + remaining) (S attempt) e
      = (fst (attempt_loop gw action remaining (attempt + S n) e'),
         (retry_events_from (S attempt) n
          ++ snd (attempt_loop gw action remaining (attempt + S n) e'))%list)).
    { intros e. destruct (IH remaining (S attempt) e) as [e' He'].
      - intros i Hi. replace (S attempt + i)%nat with (attempt + S i)%nat by lia.
        apply Hretried. lia.
      - exists e'. rewrite He'.
        replace (S attempt + n)%nat with (attempt + S n)%nat by lia. reflexivity. }
    rewrite retry_events_from_S.
    change (S n + remaining)%nat with (S (n + remaining)).
    cbn [attempt_loop]. unfold retried in H0.
    destruct (gw attempt) as [r|msg|msg].
    + destruct ((status_code r =? 200) || (status_code r =? 201)).
      * destruct (json r) as [d|msg]; [discriminate|].
        destruct (Hnext (Some msg)) as [e' He']. exists e'. rewrite He'. reflexivity.
      * destruct (status_code r =? 429).
        { destruct (Hnext last_error) as [e' He']. exists e'. rewrite He'. reflexivity. }
        destruct (status_code r >=? 500); [|discriminate].
        destruct (Hnext last_error) as [e' He']. exists e'. rewrite He'. reflexivity.
    + destruct (Hnext (Some msg)) as [e' He']. exists e'. rewrite He'. reflexivity.
    + destruct (Hnext (Some msg)) as [e' He']. exists e'. rewrite He'. reflexivity.
Qed.

Lemma posts_app evs1 evs2 : posts (evs1 ++ evs2) = (posts evs1 + posts evs2)%nat.
Proof. unfold posts. rewrite filter_app, length_app. reflexivity. Qed.

(** The loop never makes more POSTs than it has iterations left. *)
Lemma attempt_loop_posts gw action :
  forall remaining attempt last_error,
    (posts (snd (attempt_loop gw action remaining attempt last_error))
     <= remaining)%nat.
Proof.
  induction remaining as [|k IH]; intros attempt last_error.
  - simpl. unfold posts. simpl. lia.
  - assert (Hretry : forall e,
      (posts (snd (let '(env, evs) := attempt_loop gw action k (S attempt) e in
                   (env, Post attempt :: Sleep (delay attempt) :: evs)))
       <= S k)%nat).
    { intros e. specialize (IH (S attempt) e).
      destruct (attempt_loop gw action k (S attempt) e) as [env evs].
      simpl in *. unfold posts in *. simpl. lia. }
    cbn [attempt_loop].
    destruct (gw attempt) as [r|msg|msg]; try apply Hretry.
    destruct ((status_code r =? 200) || (status_code r =? 201)).
    + destruct (json r); [unfold posts; simpl; lia | apply Hretry].
    + destruct (status_code r =? 429); [apply Hretry|].
      destruct (status_code r >=? 500); [apply Hretry|].
      unfold posts; simpl; lia.
Qed.

Example ex_500_500_200 :
  call_n8n_action (scripted [http 500 "e"; http 500 "e"; http 200 "ok"]) "send_sms"
  = (SuccessEnvelope "send_sms" "ok" 3,
     [Post 0; Sleep (500 # 1000); Post 1; Sleep (1000 # 1000); Post 2]).
Proof. reflexivity. Qed.

Example ex_404 :
  call_n8n_action (scripted [http 404 "nf"]) "send_sms"
  = (ClientErrorEnvelope "send_sms" "Client error: 404" "nf" 1, [Post 0]).
Proof. reflexivity. Qed.

(** What the loop does on its first non-retried outcome, when iterations
    remain. *)
Lemma attempt_loop_settles gw action remaining attempt last_error :
  (forall r d, gw attempt = Responded r ->
     status_code r = 200 \/ status_code r = 201 -> json r = inl d ->
     attempt_loop gw action (S remaining) attempt last_error
     = (SuccessEnvelope action d (Z.of_nat attempt + 1), [Post attempt]))
  /\ (forall r, gw attempt = Responded r ->
     400 <= status_code r < 500 -> status_code r <> 429 ->
     attempt_loop gw action (S remaining) attempt last_error
     = (ClientErrorEnvelope action
          ("Client error: " ++ Py.str_of_int (status_code r)) (text r)
          (Z.of_nat attempt + 1),
        [Post attempt])).
Proof.
  split.
  - intros r d Hgw Hst Hjson. cbn [attempt_loop]. rewrite Hgw, Hjson.
    destruct Hst as [-> | ->]; reflexivity.
  - intros r Hgw Hrange Hne. cbn [attempt_loop]. rewrite Hgw.
    replace (status_code r =? 200) with false by (symmetry; apply Z.eqb_neq; lia).
    replace (status_code r =? 201) with false by (symmetry; apply Z.eqb_neq; lia).
    replace (status_code r =? 429) with false by (symmetry; apply Z.eqb_neq; lia).
    replace (status_code r >=? 500) with false
      by (symmetry; rewrite Z.geb_leb; apply Z.leb_gt; lia).
    reflexivity.
Qed.

(** The retry policy as the loop has it.  Let the first [n] attempts of a
    dispatch be retried (HTTP 429, HTTP >= 500, a transport error, or a
    200/201 whose body does not decode), with [n < MAX_RETRIES].  Then each of
    them is followed by a sleep of
    [min(BASE_DELAY_MS * 2^attempt, MAX_DELAY_MS)] milliseconds, and attempt
    [n] decides: HTTP 200 or 201 with a decodable body returns the success
    envelope with [attempts = n + 1]; an HTTP 4xx other than 429 returns the
    failure envelope with [attempts = n + 1] (so 1 when it is the first
    answer); in both cases no further POST is made.  A dispatch never makes
    more than [MAX_RETRIES] POSTs, and 500, 500, 200 yields success with
    [attempts = 3]. *)
Theorem call_n8n_action_retry_policy (gw : gateway) (action : string) :
  (posts (snd (call_n8n_action gw action)) <= MAX_RETRIES)%nat
  /\ (forall n : nat,
        (n < MAX_RETRIES)%nat ->
        (forall i, (i < n)%nat -> retried (gw i) = true) ->
        (forall r d, gw n = Responded r ->
           status_code r = 200 \/ status_code r = 201 -> json r = inl d ->
           call_n8n_action gw action
           = (SuccessEnvelope action d (Z.of_nat n + 1),
              (retry_events n ++ [Post n])%list))
        /\ (forall r, gw n = Responded r ->
           400 <= status_code r < 500 -> status_code r <> 429 ->
           call_n8n_action gw action
           = (ClientErrorEnvelope action
                ("Client error: " ++ Py.str_of_int (status_code r)) (text r)
                (Z.of_nat n + 1),
              (retry_events n ++ [Post n])%list))
        /\ (retried (gw n) = true ->
           exists env evs,
             call_n8n_action gw action
             = (env, (retry_events n ++ Post n :: Sleep (delay n) :: evs)%list)))
  /\ (forall i : nat,
        delay i = (Z.min (500 * 2 ^ Z.of_nat i) 2000 # 1000))
  /\ (forall b1 b2 b3,
        call_n8n_action (scripted [http 500 b1; http 500 b2; http 200 b3]) action
        = (SuccessEnvelope action b3 3, (retry_events 2 ++ [Post 2])%list)).
Proof.
  split; [apply attempt_loop_posts|].
  split; [|split; [reflexivity | reflexivity]].
  intros n Hn Hretried. unfold call_n8n_action.
  destruct (attempt_loop_retried gw action n (MAX_RETRIES - n) 0 None)
    as [le Hle]; [exact Hretried|].
  replace (n + (MAX_RETRIES - n))%nat with MAX_RETRIES in Hle by lia.
  rewrite Hle. simpl Nat.add.
  destruct (MAX_RETRIES - n)%nat as [|k] eqn:Hk; [lia|].
  destruct (attempt_loop_settles gw action k n le) as [Hok Hclient].
  split; [|split].
  - intros r d Hgw Hst Hjson. rewrite (Hok r d Hgw Hst Hjson). reflexivity.
  - intros r Hgw Hrange Hne. rewrite (Hclient r Hgw Hrange Hne). reflexivity.
  - intros Hn_retried.
    destruct (attempt_loop_retried gw action 1 k n le) as [le' Hle'].
    { intros i Hi. replace (n + i)%nat with n by lia. exact Hn_retried. }
    change (1 + k)%nat with (S k) in Hle'. rewrite Hle'.
    eexists. eexists. reflexivity.
Qed.

(** The policy at work on the scenario of the specification: 500, 500, 200. *)
Lemma call_n8n_action_retry_policy_witness :
  call_n8n_action (scripted [http 500 "e"; http 500 "e"; http 200 "ok"]) "send_sms"
  = (SuccessEnvelope "send_sms" "ok" 3, (retry_events 2 ++ [Post 2])%list).
Proof.
  refine (proj1 (proj1 (proj2
    (call_n8n_action_retry_policy
       (scripted [http 500 "e"; http 500 "e"; http 200 "ok"]) "send_sms"))
    2%nat _ _) (mkResponse 200 "ok" (inl "ok")) "ok" _ _ _).
  - unfold MAX_RETRIES. lia.
  - intros i Hi. destruct i as [|[|i]]; [reflexivity | reflexivity | lia].
  - reflexivity.
  - left. reflexivity.
  - reflexivity.
Defined.

(** [attempts] counts the attempts made: a 404 that follows a retried
    attempt is reported with [attempts = 2]. *)
Example ex_500_404 :
  call_n8n_action (scripted [http 500 "e"; http 404 "nf"]) "send_sms"
  = (ClientErrorEnvelope "send_sms" "Client error: 404" "nf" 2,
     [Post 0; Sleep (500 # 1000); Post 1]).
Proof. reflexivity. Qed.

(** C1.  The dispatcher does not treat every HTTP 2xx answer as a success:
    it tests [status_code in [200, 201]], so a first answer with any other
    2xx status (204 No Content, 202 Accepted, ...) falls through the 429 and
    [>= 500] tests into the branch written for "4xx except 429" and comes
    back as the failure envelope "Client error: <status>" with
    [attempts = 1], after the one POST. *)
Theorem call_n8n_action_2xx_reported_as_client_error
    (gw : gateway) (action : string) (r : Response) :
  gw 0%nat = Responded r ->
  200 <= status_code r < 300 ->
  status_code r <> 200 ->
  status_code r <> 201 ->
  call_n8n_action gw action
  = (ClientErrorEnvelope action
       ("Client error: " ++ Py.str_of_int (status_code r)) (text r) 1,
     [Post 0]).
Proof.
  intros Hgw Hrange H200 H201. unfold call_n8n_action.
  change MAX_RETRIES with (S 2). cbn [attempt_loop]. rewrite Hgw.
  replace (status_code r =? 200) with false by (symmetry; apply Z.eqb_neq; lia).
  replace (status_code r =? 201) with false by (symmetry; apply Z.eqb_neq; lia).
  replace (status_code r =? 429) with false by (symmetry; apply Z.eqb_neq; lia).
  replace (status_code r >=? 500) with false
    by (symmetry; rewrite Z.geb_leb; apply Z.leb_gt; lia).
  reflexivity.
Qed.

(** HTTP 204 on the first attempt. *)
Lemma call_n8n_action_2xx_reported_as_client_error_witness :
  call_n8n_action (scripted [http 204 EmptyString]) "send_sms"
  = (ClientErrorEnvelope "send_sms" "Client error: 204" EmptyString 1, [Post 0]).
Proof.
  apply (call_n8n_action_2xx_reported_as_client_error
           (scripted [http 204 EmptyString]) "send_sms"
           (mkResponse 204 EmptyString (inl EmptyString)));
    [reflexivity | simpl; lia | discriminate | discriminate].
Defined.

(** Exhaustion: when all [MAX_RETRIES] attempts are retried, the envelope is
    the "Max retries exceeded" one with [attempts = MAX_RETRIES]. *)
Lemma call_n8n_action_exhausted gw action :
  (forall i, (i < MAX_RETRIES)%nat -> retried (gw i) = true) ->
  exists last_error,
    call_n8n_action gw action
    = (ExhaustedEnvelope action "Max retries exceeded" last_error 3,
       retry_events MAX_RETRIES).
Proof.
  intros Hall. unfold call_n8n_action.
  destruct (attempt_loop_retried gw action MAX_RETRIES 0 0 None) as [le Hle];
    [exact Hall|].
  rewrite Nat.add_0_r in Hle. rewrite Hle. exists le.
  cbn [attempt_loop fst snd]. rewrite app_nil_r. reflexivity.
Qed.

(** C2.  On a gateway that answers 500 to every attempt the dispatcher
    returns "Max retries exceeded" with [attempts = 3], but [last_error] is
    [None]: the HTTP error of the last attempt is not recorded. *)
Theorem call_n8n_action_persistent_500 :
  call_n8n_action (fun _ => http 500 "Internal Server Error") "book_appointment"
  = (ExhaustedEnvelope "book_appointment" "Max retries exceeded" None 3,
     [Post 0; Sleep (500 # 1000); Post 1; Sleep (1000 # 1000);
      Post 2; Sleep (2000 # 1000)]).
Proof. reflexivity. Qed.

(** Only exceptions are recorded: a time-out followed by two 500s reports
    the time-out as the last error. *)
Example call_n8n_action_stale_last_error :
  fst (call_n8n_action
         (scripted [TimeoutException "read timeout"; http 500 "e"; http 500 "e"])
         "book_appointment")
  = ExhaustedEnvelope "book_appointment" "Max retries exceeded"
      (Some "read timeout") 3.
Proof. reflexivity. Qed.

End N8nClientSpec.

(** ** Session registry: further properties *)

Module TTLDictMore.
Import TTLDict.

Lemma dict_set_keys_present {V : Type} k (v : V) d :
  In k (map fst d) -> map fst (Py.dict_set k v d) = map fst d.
Proof.
  induction d as [|[k' v'] d IH]; simpl; [tauto|].
  destruct (String.eqb_spec k k') as [->|Hne]; [reflexivity|].
  intros [H|H]; [congruence|]. simpl. now rewrite IH.
Qed.

Lemma dict_set_keys_absent {V : Type} k (v : V) d :
  ~ In k (map fst d) -> map fst (Py.dict_set k v d) = (map fst d ++ [k])%list.
Proof.
  induction d as [|[k' v'] d IH]; simpl; [reflexivity|].
  destruct (String.eqb_spec k k') as [->|Hne]; [tauto|].
  intros H. simpl. rewrite IH; tauto.
Qed.

Lemma dict_get_none {V : Type} k (d : Py.dict V) :
  Py.dict_get k d = None <-> ~ In k (map fst d).
Proof.
  induction d as [|[k' v'] d IH]; simpl; [tauto|].
  destruct (String.eqb_spec k k') as [->|Hne].
  - split; [discriminate | tauto].
  - rewrite IH. split; [intros H [E|HI]; [congruence | tauto] | tauto].
Qed.

Lemma dict_set_nodup {V : Type} k (v : V) d :
  NoDup (map fst d) -> NoDup (map fst (Py.dict_set k v d)).
Proof.
  intros Hnd. destruct (in_dec string_dec k (map fst d)) as [Hin|Hout].
  - now rewrite dict_set_keys_present.
  - rewrite dict_set_keys_absent by exact Hout.
    apply NoDup_app; [assumption | repeat constructor; simpl; tauto|].
    simpl. intros a Ha [<-|[]]. tauto.
Qed.

Lemma dict_del_keys_subset {V : Type} k (d : Py.dict V) x :
  In x (map fst (Py.dict_del k d)) -> In x (map fst d).
Proof.
  induction d as [|[k' v'] d IH]; simpl; [tauto|].
  destruct (String.eqb k k'); simpl; tauto.
Qed.

Lemma dict_del_nodup {V : Type} k (d : Py.dict V) :
  NoDup (map fst d) -> NoDup (map fst (Py.dict_del k d)).
Proof.
  induction d as [|[k' v'] d IH]; simpl; [trivial|].
  intros Hnd. inversion Hnd as [|? ? Hout Hnd']; subst.
  destruct (String.eqb k k'); [assumption|].
  simpl. constructor; [|now apply IH].
  intros H. apply Hout. eapply dict_del_keys_subset, H.
Qed.

Lemma dict_del_absent {V : Type} k (d : Py.dict V) :
  NoDup (map fst d) -> Py.dict_get k (Py.dict_del k d) = None.
Proof.
  induction d as [|[k' v'] d IH]; simpl; [trivial|].
  intros Hnd. inversion Hnd as [|? ? Hout Hnd']; subst.
  destruct (String.eqb_spec k k') as [->|Hne].
  - now apply dict_get_none.
  - simpl. destruct (String.eqb_spec k k'); [congruence|]. now apply IH.
Qed.

Lemma filter_keys_nodup {V : Type} (f : string * V -> bool) (d : Py.dict V) :
  NoDup (map fst d) -> NoDup (map fst (filter f d)).
Proof.
  induction d as [|[k v] d IH]; simpl; [trivial|].
  intros Hnd. inversion Hnd as [|? ? Hout Hnd']; subst.
  destruct (f (k, v)); [|now apply IH].
  simpl. constructor; [|now apply IH].
  intros H. apply Hout. apply in_map_iff in H as [[k' v'] [E H]].
  apply filter_In in H as [H _]. apply in_map_iff. now exists (k', v').
Qed.

Lemma after_keys_unique c self :
  NoDup (keys self) -> NoDup (keys (after c self)).
Proof.
  unfold keys. intros Hnd.
  assert (Hev : forall now, NoDup (map fst (_dict (_evict_expired now self)))).
  { intros now. apply filter_keys_nodup, Hnd. }
  destruct c as [t_evict t_set key value|now key|now key ups|key|now key|now|now];
    cbn [after].
  - unfold set. specialize (Hev t_evict). destruct (_ >=? _).
    + destruct (_dict (_evict_expired t_evict self)) as [|oldest rest] eqn:Hd.
      * cbn [snd]. rewrite Hd. constructor.
      * cbn [snd with_dict _dict]. apply dict_set_nodup.
        simpl in Hev. now inversion Hev.
    + cbn [snd with_dict _dict]. now apply dict_set_nodup.
  - unfold get. destruct (Py.dict_get key (_dict self)) as [[ts val]|]; trivial.
    destruct (live self now (ts, val)); trivial.
    cbn [snd with_dict _dict]. now apply dict_del_nodup.
  - unfold update. destruct (Py.dict_get key (_dict self)) as [[ts val]|]; trivial.
    destruct (live self now (ts, val)); trivial.
    destruct val; trivial. cbn [snd with_dict _dict]. now apply dict_set_nodup.
  - unfold delete. cbn [with_dict _dict]. now apply dict_del_nodup.
  - unfold __contains__.
    destruct (Py.dict_get key (_dict self)) as [[ts val]|]; trivial.
    destruct (live self now (ts, val)); trivial.
    cbn [snd with_dict _dict]. now apply dict_del_nodup.
  - apply Hev.
  - apply Hev.
Qed.

(** No call ever makes a key occur twice. *)
Lemma reachable_keys_unique self : reachable self -> NoDup (keys self).
Proof.
  intros (ttl & max_size & calls & ->).
  assert (H : forall calls s, NoDup (keys s) -> NoDup (keys (after_all calls s))).
  { clear. induction calls as [|c calls IH]; intros s Hs; [exact Hs|].
    change (after_all (c :: calls) s) with (after_all calls (after c s)).
    apply IH, after_keys_unique, Hs. }
  apply H. constructor.
Qed.

(** With room for at least one entry, [set] never raises, and a [get] made
    less than [ttl] after it returns the value just stored and leaves the
    registry alone. *)
Theorem set_then_get
    (self : t) (t_evict t_set : Z) (key : string) (value : pyvalue) (now : Z) :
  1 <= _max_size self ->
  now - t_set < ttl_delta self ->
  fst (set t_evict t_set key value self) = Returned tt
  /\ get now key (snd (set t_evict t_set key value self))
     = (Some value, snd (set t_evict t_set key value self)).
Proof.
  intros Hmax Hlive.
  assert (Hget : forall d,
    get now key (with_dict (Py.dict_set key (t_set, value) d)
                   (_evict_expired t_evict self))
    = (Some value,
       with_dict (Py.dict_set key (t_set, value) d) (_evict_expired t_evict self))).
  { intros d. unfold get. cbn [with_dict _dict].
    rewrite TTLDictSpec.dict_get_set_same. unfold live, ttl_delta.
    unfold ttl_delta in Hlive.
    change (_ttl (with_dict (Py.dict_set key (t_set, value) d)
                    (_evict_expired t_evict self))) with (_ttl self).
    cbn [fst].
    destruct (Z.ltb_spec (now - t_set) (_ttl self * 1000000));
      [reflexivity | lia]. }
  unfold set.
  destruct (Z.geb_spec
    (Z.of_nat (List.length (_dict (_evict_expired t_evict self))))
    (_max_size (_evict_expired t_evict self))) as [Hfull|Hroom].
  - destruct (_dict (_evict_expired t_evict self)) as [|oldest rest].
    + simpl in Hfull. lia.
    + cbn [fst snd]. split; [reflexivity | apply Hget].
  - cbn [fst snd]. split; [reflexivity | apply Hget].
Qed.

Lemma set_then_get_witness :
  fst (set 10 10 "CA1" (PyOther "a") (init 3600 2)) = Returned tt
  /\ get 20 "CA1" (snd (set 10 10 "CA1" (PyOther "a") (init 3600 2)))
     = (Some (PyOther "a"), snd (set 10 10 "CA1" (PyOther "a") (init 3600 2))).
Proof.
  apply (set_then_get (init 3600 2) 10 10 "CA1" (PyOther "a") 20).
  - simpl. lia.
  - reflexivity.
Defined.

Lemma after_all_empty calls : forall self,
  _max_size self <= 0 -> _dict self = [] ->
  _dict (after_all calls self) = []
  /\ _max_size (after_all calls self) = _max_size self.
Proof.
  induction calls as [|c calls IH]; intros self Hmax Hd; [now split|].
  change (after_all (c :: calls) self) with (after_all calls (after c self)).
  assert (H : _dict (after c self) = [] /\ _max_size (after c self) = _max_size self).
  { destruct c; cbn [after]; unfold set, get, update, delete, __contains__,
      values, __len__, _evict_expired; rewrite Hd; cbn.
    - destruct (0 >=? _max_size self) eqn:E; [now split|].
      rewrite Z.geb_leb in E. apply Z.leb_gt in E. lia.
    - rewrite Hd. now split.
    - rewrite Hd. now split.
    - now split.
    - rewrite Hd. now split.
    - now split.
    - now split. }
  destruct H as [Hd' Hm']. destruct (IH (after c self)) as [H1 H2]; [lia | exact Hd' |].
  split; [exact H1 | lia].
Qed.

(** A registry created with [max_size <= 0] stays empty: every [set] on it
    raises [KeyError] (from [popitem] on the empty dictionary) and stores
    nothing. *)
Theorem set_raises_without_capacity
    (ttl_seconds max_size : Z) (calls : list call)
    (t_evict t_set : Z) (key : string) (value : pyvalue) :
  max_size <= 0 ->
  _dict (after_all calls (init ttl_seconds max_size)) = []
  /\ fst (set t_evict t_set key value (after_all calls (init ttl_seconds max_size)))
     = KeyError
  /\ _dict (snd (set t_evict t_set key value
                   (after_all calls (init ttl_seconds max_size)))) = [].
Proof.
  intros Hmax.
  destruct (after_all_empty calls (init ttl_seconds max_size)) as [Hd Hm];
    [exact Hmax | reflexivity |].
  split; [exact Hd|].
  unfold set, _evict_expired. rewrite Hd. cbn. rewrite Hm. cbn.
  destruct (0 >=? max_size) eqn:E; [now split|].
  rewrite Z.geb_leb in E. apply Z.leb_gt in E. lia.
Qed.

Lemma set_raises_without_capacity_witness :
  _dict (after_all [CallSet 1 1 "CA0" (PyOther "x")] (init 3600 0)) = []
  /\ fst (set 10 10 "CA1" (PyOther "a")
            (after_all [CallSet 1 1 "CA0" (PyOther "x")] (init 3600 0)))
     = KeyError
  /\ _dict (snd (set 10 10 "CA1" (PyOther "a")
                   (after_all [CallSet 1 1 "CA0" (PyOther "x")] (init 3600 0))))
     = [].
Proof.
  apply (set_raises_without_capacity 3600 0 [CallSet 1 1 "CA0" (PyOther "x")]
           10 10 "CA1" (PyOther "a")).
  lia.
Defined.

(** [get] and [__contains__] agree on every key and leave the same registry
    behind; on an entry whose time to live has run out both answer "absent"
    and remove it, after which the key is not stored any more. *)
Theorem expired_entry_purged (self : t) (now : Z) (key : string) :
  reachable self ->
  (fst (__contains__ now key self) = true
   <-> exists val, fst (get now key self) = Some val)
  /\ snd (__contains__ now key self) = snd (get now key self)
  /\ (forall ts,
        timestamp_of key self = Some ts ->
        ttl_delta self <= now - ts ->
        fst (get now key self) = None
        /\ fst (__contains__ now key self) = false
        /\ timestamp_of key (snd (get now key self)) = None).
Proof.
  intros Hreach. apply reachable_keys_unique in Hreach. unfold keys in Hreach.
  unfold __contains__, get, timestamp_of.
  destruct (Py.dict_get key (_dict self)) as [[ts val]|] eqn:Hget.
  - unfold live. cbn [fst].
    destruct (Z.ltb_spec (now - ts) (ttl_delta self)) as [Hlt|Hge]; cbn [fst snd].
    + split; [split; [intros _; now exists val | reflexivity]|].
      split; [reflexivity|]. cbn [option_map fst]. intros ts' [= <-] H. lia.
    + split; [split; [discriminate | intros [v Hv]; discriminate]|].
      split; [reflexivity|]. intros ts' _ _. cbn [with_dict _dict].
      rewrite dict_del_absent by exact Hreach. now repeat split.
  - cbn [fst snd]. split; [split; [discriminate | intros [v Hv]; discriminate]|].
    split; [reflexivity|]. cbn [option_map]. discriminate.
Qed.

Lemma expired_entry_purged_witness :
  fst (get 3600000000 "CA1"
         (after_all [CallSet 0 0 "CA1" (PyOther "a")] (init 3600 10))) = None
  /\ fst (__contains__ 3600000000 "CA1"
            (after_all [CallSet 0 0 "CA1" (PyOther "a")] (init 3600 10))) = false
  /\ timestamp_of "CA1"
       (snd (get 3600000000 "CA1"
               (after_all [CallSet 0 0 "CA1" (PyOther "a")] (init 3600 10))))
     = None.
Proof.
  refine (proj2 (proj2 (expired_entry_purged
            (after_all [CallSet 0 0 "CA1" (PyOther "a")] (init 3600 10))
            3600000000 "CA1" _)) 0 _ _).
  - exists 3600, 10, [CallSet 0 0 "CA1" (PyOther "a")]. reflexivity.
  - reflexivity.
  - vm_compute. discriminate.
Defined.

(** [update] answers [True] exactly when the key holds a live dictionary
    value; in every other case (absent key, expired entry, value that is not
    a dictionary) it answers [False] and leaves the registry untouched, an
    expired entry included. *)
Theorem update_refuses
    (self : t) (now : Z) (key : string) (updates : Py.dict string) :
  (fst (update now key updates self) = true
   <-> exists ts fields,
         Py.dict_get key (_dict self) = Some (ts, PyDict fields)
         /\ now - ts < ttl_delta self)
  /\ (fst (update now key updates self) = false ->
      snd (update now key updates self) = self).
Proof.
  unfold update.
  destruct (Py.dict_get key (_dict self)) as [[ts val]|].
  - unfold live. cbn [fst].
    destruct (Z.ltb_spec (now - ts) (ttl_delta self)) as [Hlt|Hge].
    + destruct val as [fields|repr]; cbn [fst snd].
      * split; [|discriminate]. split; [intros _; now exists ts, fields | reflexivity].
      * split; [|reflexivity]. split; [discriminate | intros (ts' & f & [=] & _)].
    + cbn [fst snd]. split; [|reflexivity].
      split; [discriminate | intros (ts' & f & [= <- _] & H); lia].
  - cbn [fst snd]. split; [|reflexivity].
    split; [discriminate | intros (ts' & f & [=] & _)].
Qed.

Lemma update_refuses_witness :
  snd (update 5 "CA9" [("status", "completed")]
         (snd (set 0 0 "CA1" (PyDict [("status", "initiated")]) (init 3600 10))))
  = snd (set 0 0 "CA1" (PyDict [("status", "initiated")]) (init 3600 10)).
Proof.
  apply (proj2 (update_refuses
                  (snd (set 0 0 "CA1" (PyDict [("status", "initiated")])
                          (init 3600 10)))
                  5 "CA9" [("status", "completed")])).
  reflexivity.
Defined.

Lemma dict_update_snoc {V : Type} (d ups : Py.dict V) (k : string) (v : V) :
  Py.dict_update d (ups ++ [(k, v)])%list
  = Py.dict_set k v (Py.dict_update d ups).
Proof. unfold Py.dict_update. rewrite fold_left_app. reflexivity. Qed.

(** Looking a field up after [d.update(updates)]: the value [updates] gives
    it (the last one, should the list repeat the field), else the value it
    had in [d]. *)
Lemma dict_update_lookup {V : Type} (d ups : Py.dict V) f :
  Py.dict_get f (Py.dict_update d ups)
  = match Py.dict_get f (rev ups) with
    | Some v => Some v
    | None => Py.dict_get f d
    end.
Proof.
  induction ups as [|[k v] ups IH] using rev_ind; [reflexivity|].
  rewrite dict_update_snoc, rev_app_distr. cbn [rev app Py.dict_get].
  destruct (String.eqb_spec f k) as [->|Hne].
  - apply TTLDictSpec.dict_get_set_same.
  - rewrite TTLDictSpec.dict_get_set_other by exact Hne. exact IH.
Qed.

(** After a successful [update], [get] returns the merged dictionary: each
    field has the value the update gave it, and otherwise the value it had
    before. *)
Theorem update_then_get
    (self : t) (t_update now : Z) (key : string) (updates : Py.dict string)
    (ts : Z) (fields : Py.dict string) :
  Py.dict_get key (_dict self) = Some (ts, PyDict fields) ->
  t_update - ts < ttl_delta self ->
  now - ts < ttl_delta self ->
  exists merged,
    fst (get now key (snd (update t_update key updates self)))
    = Some (PyDict merged)
    /\ forall f,
         Py.dict_get f merged
         = match Py.dict_get f (rev updates) with
           | Some v => Some v
           | None => Py.dict_get f fields
           end.
Proof.
  intros Hget Hlive Hnow. exists (Py.dict_update fields updates).
  split; [|intros f; apply dict_update_lookup].
  unfold update, live. rewrite Hget. cbn [fst].
  destruct (Z.ltb_spec (t_update - ts) (ttl_delta self)); [|lia].
  unfold get. cbn [snd with_dict _dict].
  rewrite TTLDictSpec.dict_get_set_same. unfold live. cbn [fst].
  change (ttl_delta (with_dict _ self)) with (ttl_delta self).
  destruct (Z.ltb_spec (now - ts) (ttl_delta self)); [reflexivity | lia].
Qed.

Lemma update_then_get_witness :
  exists merged,
    fst (get 20 "CA1"
           (snd (update 10 "CA1" [("status", "completed"); ("duration", "42")]
                   (snd (set 0 0 "CA1"
                           (PyDict [("from", "+1"); ("status", "initiated")])
                           (init 3600 10))))))
    = Some (PyDict merged)
    /\ forall f,
         Py.dict_get f merged
         = match Py.dict_get f
                   (rev [("status", "completed"); ("duration", "42")]) with
           | Some v => Some v
           | None => Py.dict_get f [("from", "+1"); ("status", "initiated")]
           end.
Proof.
  apply (update_then_get
           (snd (set 0 0 "CA1" (PyDict [("from", "+1"); ("status", "initiated")])
                   (init 3600 10)))
           10 20 "CA1" [("status", "completed"); ("duration", "42")] 0
           [("from", "+1"); ("status", "initiated")]); reflexivity.
Defined.

(** Eviction order is insertion order, not write order: when there is
    room, a [set] on a key that is already stored leaves the order of the
    keys as it was, and a [set] on a new key puts it last. *)
Theorem set_keeps_insertion_order
    (self : t) (t_evict t_set : Z) (key : string) (value : pyvalue) :
  Z.of_nat (List.length (_dict (_evict_expired t_evict self))) < _max_size self ->
  (In key (keys (_evict_expired t_evict self)) ->
   keys (snd (set t_evict t_set key value self))
   = keys (_evict_expired t_evict self))
  /\ (~ In key (keys (_evict_expired t_evict self)) ->
      keys (snd (set t_evict t_set key value self))
      = (keys (_evict_expired t_evict self) ++ [key])%list).
Proof.
  intros Hroom. unfold set.
  destruct (Z.geb_spec
    (Z.of_nat (List.length (_dict (_evict_expired t_evict self))))
    (_max_size (_evict_expired t_evict self))) as [Hfull|_].
  { change (_max_size (_evict_expired t_evict self)) with (_max_size self) in Hfull.
    lia. }
  unfold keys. cbn [snd with_dict _dict]. split; intros H.
  - now apply dict_set_keys_present.
  - now apply dict_set_keys_absent.
Qed.

(** Written again, the oldest key is still the first in line. *)
Lemma set_keeps_insertion_order_witness :
  keys (snd (set 30 30 "CA1" (PyOther "new")
               (after_all [CallSet 10 10 "CA1" (PyOther "a");
                           CallSet 20 20 "CA2" (PyOther "b")] (init 3600 3))))
  = keys (_evict_expired 30
            (after_all [CallSet 10 10 "CA1" (PyOther "a");
                        CallSet 20 20 "CA2" (PyOther "b")] (init 3600 3))).
Proof.
  apply (proj1 (set_keeps_insertion_order
                  (after_all [CallSet 10 10 "CA1" (PyOther "a");
                              CallSet 20 20 "CA2" (PyOther "b")] (init 3600 3))
                  30 30 "CA1" (PyOther "new") ltac:(vm_compute; reflexivity))).
  simpl. tauto.
Defined.

Lemma dict_get_in {V : Type} k (e : V) d :
  Py.dict_get k d = Some e -> In (k, e) d.
Proof.
  induction d as [|[k' v'] d IH]; simpl; [discriminate|].
  destruct (String.eqb_spec k k') as [->|Hne].
  - intros [= ->]. now left.
  - intros H. right. now apply IH.
Qed.

Lemma in_dict_get {V : Type} k (e : V) d :
  NoDup (map fst d) -> In (k, e) d -> Py.dict_get k d = Some e.
Proof.
  induction d as [|[k' v'] d IH]; simpl; [tauto|].
  intros Hnd. inversion Hnd as [|? ? Hout Hnd']; subst.
  intros [[= -> ->]|Hin].
  - now rewrite String.eqb_refl.
  - destruct (String.eqb_spec k k') as [->|Hne]; [|now apply IH].
    exfalso. apply Hout. apply in_map_iff. now exists (k', e).
Qed.

(** [values()] lists exactly the values that [get] would return at that
    moment for some key: nothing expired, nothing left out. *)
Theorem values_are_the_visible_values (self : t) (now : Z) (v : pyvalue) :
  reachable self ->
  (In v (fst (values now self))
   <-> exists key, fst (get now key self) = Some v).
Proof.
  intros Hreach. apply reachable_keys_unique in Hreach. unfold keys in Hreach.
  unfold values, _evict_expired. cbn [fst with_dict _dict].
  rewrite in_map_iff. split.
  - intros [[k [ts v']] [Hv Hin]]. cbn in Hv. subst v'.
    apply filter_In in Hin as [Hin Hlive]. cbn [snd fst] in Hlive.
    exists k. unfold get. rewrite (in_dict_get k (ts, v) _ Hreach Hin).
    rewrite <- (TTLDictSpec.live_not_expired self now (ts, v)). cbn [fst].
    rewrite Hlive. reflexivity.
  - intros [key Hget]. unfold get in Hget.
    destruct (Py.dict_get key (_dict self)) as [[ts val]|] eqn:Hd; [|discriminate].
    destruct (live self now (ts, val)) eqn:Hlive; [|discriminate].
    cbn in Hget. injection Hget as ->.
    exists (key, (ts, v)). split; [reflexivity|].
    apply filter_In. split; [now apply dict_get_in|].
    cbn [snd fst]. rewrite <- Hlive.
    apply (TTLDictSpec.live_not_expired self now (ts, v)).
Qed.

Lemma values_are_the_visible_values_witness :
  In (PyOther "b")
    (fst (values 3600000005
            (after_all [CallSet 0 0 "CA1" (PyOther "a");
                        CallSet 10 10 "CA2" (PyOther "b")] (init 3600 10))))
  <-> exists key,
        fst (get 3600000005 key
               (after_all [CallSet 0 0 "CA1" (PyOther "a");
                           CallSet 10 10 "CA2" (PyOther "b")] (init 3600 10)))
        = Some (PyOther "b").
Proof.
  apply (values_are_the_visible_values
           (after_all [CallSet 0 0 "CA1" (PyOther "a");
                       CallSet 10 10 "CA2" (PyOther "b")] (init 3600 10))
           3600000005 (PyOther "b")).
  exists 3600, 10,
    [CallSet 0 0 "CA1" (PyOther "a"); CallSet 10 10 "CA2" (PyOther "b")].
  reflexivity.
Defined.

End TTLDictMore.

(** ** Conversation context: further properties *)

Module ConversationContextMore.
Import ConversationContext.

Lemma last_items_length {A : Type} (n : nat) (l : list A) :
  (List.length (Py.last_items n l) <= n)%nat.
Proof. unfold Py.last_items. rewrite length_skipn. lia. Qed.

Lemma last_items_short {A : Type} (n : nat) (l : list A) :
  (List.length l <= n)%nat -> Py.last_items n l = l.
Proof.
  intros H. unfold Py.last_items.
  replace (List.length l - n)%nat with 0%nat by lia. reflexivity.
Qed.

(** Trimming to the last [n] items commutes with appending more items. *)
Lemma last_items_app {A : Type} (n : nat) (l r : list A) :
  Py.last_items n (Py.last_items n l ++ r) = Py.last_items n (l ++ r).
Proof.
  destruct (Nat.le_gt_cases (List.length l) n) as [Hle|Hgt].
  - rewrite (last_items_short n l) by exact Hle. reflexivity.
  - unfold Py.last_items at 1 3. rewrite !length_app.
    unfold Py.last_items. rewrite length_skipn.
    replace (List.length l - (List.length l - n) + List.length r - n)%nat
      with (List.length r) by lia.
    replace (List.length l + List.length r - n)%nat
      with (List.length r + (List.length l - n))%nat by lia.
    rewrite <- skipn_skipn. f_equal.
    rewrite skipn_app.
    replace (List.length l - n - List.length l)%nat with 0%nat by lia.
    reflexivity.
Qed.

Lemma add_turn_history t_turn t_speech role content self :
  history (add_turn t_turn t_speech role content self)
  = Py.last_items (max_history self)
      (history self ++ [mkTurn role content t_turn])
  /\ max_history (add_turn t_turn t_speech role content self) = max_history self.
Proof. unfold add_turn. destruct (String.eqb role "user"); now split. Qed.

Lemma add_turns_cons turn turns self :
  add_turns (turn :: turns) self
  = add_turns turns
      (add_turn (fst (fst (fst turn))) (snd (fst (fst turn)))
         (snd (fst turn)) (snd turn) self).
Proof. reflexivity. Qed.

(** The history is always the most recent [max_history] turns: after any
    sequence of [add_turn] calls it consists of the last [max_history]
    elements of the old history followed by the added turns, in order. *)
Theorem history_keeps_latest_turns
    (turns : list (Z * Z * string * string)) (self : t) :
  (List.length (history self) <= max_history self)%nat ->
  history (add_turns turns self)
  = Py.last_items (max_history self) (history self ++ map turn_of turns)
  /\ (List.length (history (add_turns turns self)) <= max_history self)%nat
  /\ max_history (add_turns turns self) = max_history self.
Proof.
  revert self. induction turns as [|turn turns IH]; intros self Hlen.
  - cbn [add_turns fold_left map]. rewrite app_nil_r.
    rewrite last_items_short by exact Hlen. now repeat split.
  - rewrite add_turns_cons.
    destruct turn as [[[t_turn t_speech] role] content]. cbn [fst snd].
    destruct (add_turn_history t_turn t_speech role content self) as [Hh Hm].
    destruct (IH (add_turn t_turn t_speech role content self)) as (H1 & H2 & H3).
    { rewrite Hh, Hm. apply last_items_length. }
    rewrite Hm in *. split; [|split; assumption].
    rewrite H1, Hh, last_items_app. cbn [map turn_of fst snd].
    rewrite <- app_assoc. reflexivity.
Qed.

(** With room for two turns, three turns leave the last two. *)
Lemma history_keeps_latest_turns_witness :
  history (add_turns sample_turns (init 0 "call-1" 2))
  = Py.last_items (max_history (init 0 "call-1" 2))
      (history (init 0 "call-1" 2) ++ map turn_of sample_turns)
  /\ (List.length (history (add_turns sample_turns (init 0 "call-1" 2)))
      <= max_history (init 0 "call-1" 2))%nat
  /\ max_history (add_turns sample_turns (init 0 "call-1" 2))
     = max_history (init 0 "call-1" 2).
Proof.
  apply (history_keeps_latest_turns sample_turns (init 0 "call-1" 2)).
  simpl. lia.
Defined.

(** Over any sequence of turns, [clarification_count] grows by exactly the
    number of user turns that ask for clarification, and [retry_count], the
    session id and the creation time are never touched. *)
Theorem add_turns_counts_clarifications
    (turns : list (Z * Z * string * string)) (self : t) :
  clarification_count (add_turns turns self)
  = clarification_count self
    + Z.of_nat (List.length (filter (asks_clarification self) turns))
  /\ retry_count (add_turns turns self) = retry_count self
  /\ session_id (add_turns turns self) = session_id self
  /\ created_at (add_turns turns self) = created_at self.
Proof.
  revert self. induction turns as [|turn turns IH]; intros self.
  - cbn. rewrite Z.add_0_r. now repeat split.
  - rewrite add_turns_cons.
    destruct turn as [[[t_turn t_speech] role] content]. cbn [fst snd].
    destruct (IH (add_turn t_turn t_speech role content self)) as (H1 & H2 & H3 & H4).
    rewrite H1, H2, H3, H4.
    replace (filter (asks_clarification (add_turn t_turn t_speech role content self)) turns)
      with (filter (asks_clarification self) turns) by reflexivity.
    cbn [filter]. unfold asks_clarification at 2. cbn [fst snd].
    unfold add_turn.
    destruct (String.eqb role "user"); cbn [andb].
    + destruct (is_clarification_request self content);
        cbn [clarification_count retry_count session_id created_at List.length];
        repeat split; lia.
    + cbn [clarification_count retry_count session_id created_at].
      repeat split; lia.
Qed.

(** A turn of any role other than "user" changes nothing but the history:
    sentiment, counters and the silence state stay as they were. *)
Theorem non_user_turn_only_appends
    (t_turn t_speech : Z) (role content : string) (self : t) :
  role <> "user" ->
  add_turn t_turn t_speech role content self
  = {| session_id := session_id self;
       max_history := max_history self;
       history :=
         Py.last_items (max_history self)
           (history self ++ [mkTurn role content t_turn]);
       user_sentiment := user_sentiment self;
       topic_stack := topic_stack self;
       clarification_count := clarification_count self;
       retry_count := retry_count self;
       created_at := created_at self;
       last_user_speech_time := last_user_speech_time self;
       silence_count := silence_count self |}.
Proof.
  intros Hrole. unfold add_turn.
  destruct (String.eqb_spec role "user"); [contradiction | reflexivity].
Qed.

Lemma non_user_turn_only_appends_witness :
  silence_count
    (add_turn 5 5 "assistant" "what? broken!"
       (with_silence_count 2 (init 0 "call-1" 50))) = 2
  /\ user_sentiment
       (add_turn 5 5 "assistant" "what? broken!"
          (with_silence_count 2 (init 0 "call-1" 50))) = "neutral".
Proof.
  rewrite (non_user_turn_only_appends 5 5 "assistant" "what? broken!"
             (with_silence_count 2 (init 0 "call-1" 50))).
  - split; reflexivity.
  - discriminate.
Defined.

(** [get_silence_response] never speaks unless [should_check_presence]
    holds at that moment: before the user has spoken, or within six seconds
    of the last user turn, it returns nothing and changes nothing. *)
Theorem silence_response_needs_presence_check (now : Z) (self : t) :
  (should_check_presence now self = false ->
   get_silence_response now self = (None, self))
  /\ (forall msg,
        fst (get_silence_response now self) = Some msg ->
        should_check_presence now self = true)
  /\ (last_user_speech_time self = None ->
      should_check_presence now self = false).
Proof.
  unfold should_check_presence, get_silence_response, get_silence_duration.
  destruct (last_user_speech_time self) as [last|]; [|repeat split; discriminate].
  set (d := (now - last) # 1000000).
  assert (Hmono : forall a b, a <= b ->
            Qle_bool (inject_Z b) d = true -> Qle_bool (inject_Z a) d = true).
  { intros a b Hab Hb. apply Qle_bool_iff. apply Qle_bool_iff in Hb.
    eapply Qle_trans; [|exact Hb]. rewrite <- Zle_Qle. exact Hab. }
  split; [|split; [|discriminate]].
  - intros H6.
    assert (H12 : Qle_bool (inject_Z 12) d = false).
    { apply not_true_is_false. intros H. rewrite (Hmono 6 12) in H6; [discriminate | lia | exact H]. }
    assert (H18 : Qle_bool (inject_Z 18) d = false).
    { apply not_true_is_false. intros H. rewrite (Hmono 6 18) in H6; [discriminate | lia | exact H]. }
    rewrite H18, H12, H6. reflexivity.
  - intros msg.
    destruct (Qle_bool (inject_Z 18) d) eqn:H18.
    { intros _. apply (Hmono 6 18); [lia | exact H18]. }
    destruct (Qle_bool (inject_Z 12) d) eqn:H12.
    { intros _. apply (Hmono 6 12); [lia | exact H12]. }
    destruct (Qle_bool (inject_Z 6) d) eqn:H6; [reflexivity|].
    cbn. discriminate.
Qed.

Lemma silence_response_needs_presence_check_witness :
  get_silence_response 5000000 (add_turn 0 0 "user" "hello" (init 0 "call-1" 50))
  = (None, add_turn 0 0 "user" "hello" (init 0 "call-1" 50)).
Proof.
  apply (proj1 (silence_response_needs_presence_check 5000000
                  (add_turn 0 0 "user" "hello" (init 0 "call-1" 50)))).
  reflexivity.
Defined.

(** The adaptive suffix is empty exactly when no condition is active: the
    sentiment is none of frustrated, confused, satisfied, and both counters
    are below three. *)
Theorem adaptive_suffix_empty_iff (self : t) :
  get_adaptive_prompt_suffix self = EmptyString
  <-> (user_sentiment self <> "frustrated"
       /\ user_sentiment self <> "confused"
       /\ user_sentiment self <> "satisfied"
       /\ clarification_count self < 3
       /\ retry_count self < 3).
Proof.
  unfold get_adaptive_prompt_suffix.
  destruct (String.eqb_spec (user_sentiment self) "frustrated") as [Ef|Ef];
  [|destruct (String.eqb_spec (user_sentiment self) "confused") as [Ec|Ec];
    [|destruct (String.eqb_spec (user_sentiment self) "satisfied") as [Es|Es]]];
  destruct (Z.geb_spec (clarification_count self) 3) as [Hc|Hc];
  destruct (Z.geb_spec (retry_count self) 3) as [Hr|Hr];
  cbn [app Py.join];
  (split; [intros H; try discriminate H; repeat split; solve [assumption | lia]
          | intros (H1 & H2 & H3 & H4 & H5);
            try reflexivity; try contradiction; try lia]).
Qed.

(** A fresh context needs no adaptation. *)
Lemma adaptive_suffix_empty_iff_witness :
  get_adaptive_prompt_suffix (init 0 "call-1" 50) = EmptyString.
Proof.
  apply (proj2 (adaptive_suffix_empty_iff (init 0 "call-1" 50))).
  repeat split; discriminate.
Defined.

(** Which turns [get_conversation_summary(max_turns)] covers: for
    [max_turns >= 1] the last [max_turns] turns of the history (all of them
    if there are fewer), but for [max_turns = 0] the whole history, since
    [-0] is [0]; each line shows at most 100 characters of content. *)
Theorem summary_lines_window (self : t) :
  (forall max_turns,
      1 <= max_turns ->
      summary_lines max_turns self
      = map (fun turn => role turn ++ ": " ++ Py.slice_to 100 (content turn))
          (Py.last_items (Z.to_nat max_turns) (history self))
      /\ Z.of_nat (List.length (summary_lines max_turns self)) <= max_turns)
  /\ List.length (summary_lines 0 self) = List.length (history self)
  /\ (forall max_turns line,
        In line (summary_lines max_turns self) ->
        exists turn,
          In turn (history self)
          /\ line = role turn ++ ": " ++ Py.slice_to 100 (content turn)
          /\ (String.length line <= String.length (role turn) + 102)%nat).
Proof.
  split; [|split].
  - intros max_turns Hmax. unfold summary_lines, Py.slice_from, Py.last_items.
    destruct (Z.ltb_spec (- max_turns) 0); [|lia].
    replace (Z.to_nat (Z.max 0 (- max_turns + Z.of_nat (List.length (history self)))))
      with (List.length (history self) - Z.to_nat max_turns)%nat by lia.
    split; [reflexivity|].
    rewrite length_map, length_skipn. lia.
  - unfold summary_lines, Py.slice_from. cbn. rewrite length_map.
    replace (Z.to_nat (Z.min 0 (Z.of_nat (List.length (history self))))) with 0%nat
      by lia.
    reflexivity.
  - intros max_turns line Hin. unfold summary_lines in Hin.
    apply in_map_iff in Hin as [turn [<- Hin]].
    exists turn. split; [|split; [reflexivity|]].
    + unfold Py.slice_from in Hin.
      rewrite <- (firstn_skipn
        (Z.to_nat
           (if - max_turns <? 0
            then Z.max 0 (- max_turns + Z.of_nat (List.length (history self)))
            else Z.min (- max_turns) (Z.of_nat (List.length (history self)))))
        (history self)).
      apply in_or_app. right. exact Hin.
    + assert (Hslice : forall n s, (String.length (Py.slice_to n s) <= n)%nat).
      { induction n as [|n IHn]; intros [|c s']; simpl; try lia.
        specialize (IHn s'). lia. }
      assert (Happ : forall a b, String.length (a ++ b)
                                 = (String.length a + String.length b)%nat).
      { induction a as [|c a IHa]; intros b; simpl; [reflexivity|].
        now rewrite IHa. }
      rewrite !Happ. specialize (Hslice 100%nat (content turn)).
      change (String.length ": ") with 2%nat. lia.
Qed.

Lemma summary_lines_window_witness :
  summary_lines 2 (add_turns sample_turns (init 0 "call-1" 50))
  = map (fun turn => role turn ++ ": " ++ Py.slice_to 100 (content turn))
      (Py.last_items (Z.to_nat 2)
         (history (add_turns sample_turns (init 0 "call-1" 50))))
  /\ Z.of_nat (List.length
                 (summary_lines 2 (add_turns sample_turns (init 0 "call-1" 50))))
     <= 2.
Proof.
  apply (proj1 (summary_lines_window (add_turns sample_turns (init 0 "call-1" 50)))).
  lia.
Defined.

Example summary_of_sample :
  get_conversation_summary 2 (add_turns sample_turns (init 0 "call-1" 50))
  = "assistant: hello" ++ Py.newline ++ "user: bye"
  /\ List.length
       (summary_lines 0 (add_turns sample_turns (init 0 "call-1" 50))) = 3%nat.
Proof. split; reflexivity. Qed.

(** Keywords are matched as substrings, and four of them are shared by the
    clarification and the confusion tables: a user text that mentions
    "what", "huh", "repeat" or "unclear" is always a clarification request
    and is never classified as satisfied or neutral. *)
Theorem clarification_words_colour_sentiment (c : t) (text : string) :
  mentions ["what"; "huh"; "repeat"; "unclear"] text ->
  is_clarification_request c text = true
  /\ (detect_sentiment c text = "frustrated"
      \/ detect_sentiment c text = "confused").
Proof.
  intros (kw & Hin & Hocc).
  assert (Hc : In kw clarification_patterns) by (simpl in *; tauto).
  assert (Hf : In kw confusion_keywords) by (simpl in *; tauto).
  split.
  - unfold is_clarification_request. apply PyFacts.any_spec.
    exists kw. split; [exact Hc | now apply PyFacts.contains_spec].
  - unfold detect_sentiment.
    destruct (Py.any _ frustration_keywords); [now left|].
    replace (Py.any (fun kw0 => Py.contains kw0 (Py.lower text)) confusion_keywords)
      with true; [now right|].
    symmetry. apply PyFacts.any_spec.
    exists kw. split; [exact Hf | now apply PyFacts.contains_spec].
Qed.

(** "Whatever, thanks" counts as a clarification request and as confusion. *)
Lemma clarification_words_colour_sentiment_witness :
  is_clarification_request (init 0 "call-1" 50) "Whatever, thanks" = true
  /\ (detect_sentiment (init 0 "call-1" 50) "Whatever, thanks" = "frustrated"
      \/ detect_sentiment (init 0 "call-1" 50) "Whatever, thanks" = "confused").
Proof.
  apply (clarification_words_colour_sentiment (init 0 "call-1" 50) "Whatever, thanks").
  exists "what". split.
  - simpl. tauto.
  - exists EmptyString, "ever, thanks". reflexivity.
Defined.

End ConversationContextMore.

(** ** Telephony helpers *)

Module InboundDeepgramSpec.
Import InboundDeepgram.

Lemma string_length_app a b :
  String.length (a ++ b) = (String.length a + String.length b)%nat.
Proof. induction a as [|c a IH]; simpl; [reflexivity | now rewrite IH]. Qed.

Lemma drop_app a b : Py.drop (String.length a) (a ++ b) = b.
Proof. induction a as [|c a IH]; simpl; [now destruct b | exact IH]. Qed.

Lemma drop_length n s : (String.length (Py.drop n s) = String.length s - n)%nat.
Proof.
  revert s. induction n as [|n IH]; intros [|c s]; simpl; try lia. apply IH.
Qed.

(** [mask_phone] shows nothing but the last four characters: two numbers
    with the same last four are masked alike, whatever precedes them; a
    missing or shorter number gives the bare mask; the result never has more
    than seven characters. *)
Theorem mask_phone_hides_prefix :
  (forall prefix tail : string,
      String.length tail = 4%nat ->
      mask_phone (Some (prefix ++ tail)) = "***" ++ tail)
  /\ (forall p : string, (String.length p < 4)%nat -> mask_phone (Some p) = "***")
  /\ mask_phone None = "***"
  /\ (forall phone, (String.length (mask_phone phone) <= 7)%nat).
Proof.
  split; [|split; [|split; [reflexivity|]]].
  - intros prefix tail Htail. unfold mask_phone.
    assert (Hlen : String.length (prefix ++ tail) = (String.length prefix + 4)%nat).
    { rewrite string_length_app. lia. }
    destruct (String.eqb_spec (prefix ++ tail) EmptyString) as [E|_].
    { rewrite E in Hlen. simpl in Hlen. lia. }
    destruct (Nat.leb_spec 4 (String.length (prefix ++ tail))); [|lia].
    cbn [negb andb]. unfold Py.last_chars. rewrite Hlen.
    replace (String.length prefix + 4 - 4)%nat with (String.length prefix) by lia.
    now rewrite drop_app.
  - intros p Hp. unfold mask_phone.
    destruct (Nat.leb_spec 4 (String.length p)); [lia|].
    now rewrite andb_false_r.
  - intros [p|]; [|simpl; lia]. unfold mask_phone.
    destruct (negb (String.eqb p EmptyString) && (4 <=? String.length p)%nat) eqn:E;
      [|simpl; lia].
    apply andb_true_iff in E as [_ E]. apply Nat.leb_le in E.
    rewrite string_length_app. unfold Py.last_chars. rewrite drop_length.
    simpl. lia.
Qed.

Lemma mask_phone_hides_prefix_witness :
  mask_phone (Some ("+1800555" ++ "1234")) = "***" ++ "1234".
Proof.
  apply (proj1 mask_phone_hides_prefix "+1800555" "1234"). reflexivity.
Defined.

Lemma failed_attempts_S base_delay max_delay first n :
  failed_attempts base_delay max_delay first (S n)
  = Call first :: Sleep (retry_delay base_delay max_delay first)
      :: failed_attempts base_delay max_delay (S first) n.
Proof. reflexivity. Qed.

(** A run of [n] failing calls, none of them the last allowed one, adds
    their events (each with its sleep) and hands the last error on. *)
Lemma retry_loop_failures {A : Type} (func : nat -> call_outcome A)
    (errs : nat -> string) max_retries base_delay max_delay n :
  forall remaining attempt last_exception,
    (forall i, (i < n)%nat -> func (attempt + i)%nat = Raises (errs (attempt + i)%nat)) ->
    Z.of_nat (attempt + n) <= max_retries - 1 ->
    retry_loop func max_retries base_delay max_delay (n + remaining) attempt
      last_exception
    = (fst (retry_loop func max_retries base_delay max_delay remaining (attempt + n)
              (match n with
               | O => last_exception
               | S n' => Some (errs (attempt + n')%nat)
               end)),
       (failed_attempts base_delay max_delay attempt n
        ++ snd (retry_loop func max_retries base_delay max_delay remaining
                  (attempt + n)
                  (match n with
                   | O => last_exception
                   | S n' => Some (errs (attempt + n')%nat)
                   end)))%list).
Proof.
  induction n as [|n IH]; intros remaining attempt last_exception Hfail Hmax.
  - rewrite Nat.add_0_r. cbn [Nat.add failed_attempts seq flat_map app].
    now destruct (retry_loop _ _ _ _ remaining attempt last_exception).
  - cbn [Nat.add retry_loop].
    pose proof (Hfail 0%nat ltac:(lia)) as H0. rewrite Nat.add_0_r in H0.
    rewrite H0.
    rewrite (IH remaining (S attempt) (Some (errs attempt))).
    + destruct (Z.ltb_spec (Z.of_nat attempt) (max_retries - 1)); [|lia].
      rewrite failed_attempts_S.
      replace (S attempt + n)%nat with (attempt + S n)%nat by lia.
      destruct n as [|n'].
      * rewrite Nat.add_0_r. reflexivity.
      * replace (S attempt + n')%nat with (attempt + S n')%nat by lia. reflexivity.
    + intros i Hi. replace (S attempt + i)%nat with (attempt + S i)%nat by lia.
      apply Hfail. lia.
    + lia.
Qed.

(** The wrapper returns the first result the function gives within
    [max_retries] calls: after [n] failures and a success it has made
    [n + 1] calls and slept after each failure. *)
Theorem async_retry_first_success {A : Type}
    (func : nat -> call_outcome A) (errs : nat -> string)
    (max_retries : Z) (base_delay max_delay : Q) (n : nat) (a : A) :
  Z.of_nat n < max_retries ->
  (forall i, (i < n)%nat -> func i = Raises (errs i)) ->
  func n = Returns a ->
  async_retry max_retries base_delay max_delay func
  = (WrapperReturns a, (failed_attempts base_delay max_delay 0 n ++ [Call n])%list).
Proof.
  intros Hn Hfail Hok. unfold async_retry.
  replace (Z.to_nat max_retries) with (n + S (Z.to_nat max_retries - S n))%nat by lia.
  rewrite (retry_loop_failures func errs max_retries base_delay max_delay n);
    [|exact Hfail | simpl; lia].
  cbn [Nat.add retry_loop]. rewrite Hok. reflexivity.
Qed.

Lemma async_retry_first_success_witness :
  async_retry 3 (1 # 4) (2 # 1)
    (fun i => if (i <? 1)%nat then Raises "timeout" else Returns "saved")
  = (WrapperReturns "saved",
     (failed_attempts (1 # 4) (2 # 1) 0 1 ++ [Call 1])%list).
Proof.
  apply (async_retry_first_success
           (fun i => if (i <? 1)%nat then Raises "timeout" else Returns "saved")
           (fun _ => "timeout") 3 (1 # 4) (2 # 1) 1 "saved").
  - lia.
  - intros i Hi. destruct i; [reflexivity | lia].
  - reflexivity.
Defined.

(** When all [max_retries >= 1] calls fail, the wrapper raises the
    exception of the last call, having slept between the calls but not
    after the last one; with [max_retries <= 0] the function is never
    called and [raise None] gives a [TypeError]. *)
Theorem async_retry_exhausted {A : Type}
    (func : nat -> call_outcome A) (errs : nat -> string)
    (max_retries : Z) (base_delay max_delay : Q) :
  (1 <= max_retries ->
   (forall i, Z.of_nat i < max_retries -> func i = Raises (errs i)) ->
   async_retry max_retries base_delay max_delay func
   = (WrapperRaises (errs (Z.to_nat max_retries - 1)%nat),
      (failed_attempts base_delay max_delay 0 (Z.to_nat max_retries - 1)
       ++ [Call (Z.to_nat max_retries - 1)])%list))
  /\ (max_retries <= 0 ->
      async_retry max_retries base_delay max_delay func = (WrapperRaisesNone, [])).
Proof.
  split.
  - intros Hmax Hfail. unfold async_retry.
    replace (Z.to_nat max_retries) with (Z.to_nat max_retries - 1 + 1)%nat at 1 by lia.
    rewrite (retry_loop_failures func errs max_retries base_delay max_delay
               (Z.to_nat max_retries - 1));
      [|intros i Hi; apply Hfail; lia | simpl; lia].
    cbn [Nat.add retry_loop]. rewrite (Hfail (Z.to_nat max_retries - 1)%nat) by lia.
    destruct (Z.ltb_spec (Z.of_nat (Z.to_nat max_retries - 1)) (max_retries - 1));
      [lia | reflexivity].
  - intros Hmax. unfold async_retry.
    replace (Z.to_nat max_retries) with 0%nat by lia. reflexivity.
Qed.

Lemma async_retry_exhausted_witness :
  async_retry 3 (1 # 4) (2 # 1)
    (fun i => @Raises string (if (i <? 2)%nat then "timeout" else "refused"))
  = (WrapperRaises "refused",
     (failed_attempts (1 # 4) (2 # 1) 0 2 ++ [Call 2])%list).
Proof.
  apply (proj1 (async_retry_exhausted
                  (fun i => @Raises string (if (i <? 2)%nat then "timeout" else "refused"))
                  (fun i => if (i <? 2)%nat then "timeout" else "refused")
                  3 (1 # 4) (2 # 1))).
  - lia.
  - intros i Hi. reflexivity.
Defined.

End InboundDeepgramSpec.

(** ** Action dispatcher: further properties *)

Module N8nClientMore.
Import N8nClient.

(** A success envelope is only ever built from an attempt that answered
    200 or 201 with a decodable body, after retried attempts only. *)
Lemma attempt_loop_success gw action :
  forall remaining attempt last_error a d n,
    fst (attempt_loop gw action remaining attempt last_error)
    = SuccessEnvelope a d n ->
    a = action
    /\ exists (k : nat) (r : Response),
         (attempt <= k < attempt + remaining)%nat
         /\ n = Z.of_nat k + 1
         /\ gw k = Responded r
         /\ (status_code r = 200 \/ status_code r = 201)
         /\ json r = inl d
         /\ forall i, (attempt <= i < k)%nat -> retried (gw i) = true.
Proof.
  induction remaining as [|rem IH]; intros attempt last_error a d n.
  - cbn. discriminate.
  - assert (Hretry : forall e,
      retried (gw attempt) = true ->
      fst (let '(env, evs) := attempt_loop gw action rem (S attempt) e in
           (env, Post attempt :: Sleep (delay attempt) :: evs))
      = SuccessEnvelope a d n ->
      a = action
      /\ exists (k : nat) (r : Response),
           (attempt <= k < attempt + S rem)%nat
           /\ n = Z.of_nat k + 1
           /\ gw k = Responded r
           /\ (status_code r = 200 \/ status_code r = 201)
           /\ json r = inl d
           /\ forall i, (attempt <= i < k)%nat -> retried (gw i) = true).
    { intros e Hr H.
      destruct (attempt_loop gw action rem (S attempt) e) as [env evs] eqn:E.
      cbn [fst] in H. subst env.
      destruct (IH (S attempt) e a d n) as (Ha & k & r & Hk & Hn & Hgw & Hst & Hj & Hall).
      { rewrite E. reflexivity. }
      split; [exact Ha|]. exists k, r. repeat split; try assumption; try lia.
      intros i Hi. destruct (Nat.eq_dec i attempt) as [->|Hne]; [exact Hr|].
      apply Hall. lia. }
    cbn [attempt_loop]. unfold retried in Hretry.
    destruct (gw attempt) as [r|msg|msg] eqn:Hgw; try (apply Hretry; reflexivity).
    destruct ((status_code r =? 200) || (status_code r =? 201)) eqn:Hst.
    + destruct (json r) as [result|msg] eqn:Hj; [|apply Hretry; reflexivity].
      cbn [fst]. intros [= <- <- <-]. split; [reflexivity|].
      exists attempt, r. repeat split; try assumption; lia.
    + destruct (status_code r =? 429) eqn:H429; [apply Hretry; reflexivity|].
      destruct (status_code r >=? 500) eqn:H500; [apply Hretry; reflexivity|].
      cbn [fst]. discriminate.
Qed.

(** The dispatcher never reports success on its own account: a success
    envelope names the requested action, carries the payload of an attempt
    that answered HTTP 200 or 201 with a decodable body, counts that attempt
    in ["attempts"], and every earlier attempt was a retried one. *)
Theorem success_only_from_the_gateway
    (gw : gateway) (action a d : string) (n : Z) :
  fst (call_n8n_action gw action) = SuccessEnvelope a d n ->
  a = action
  /\ exists (k : nat) (r : Response),
       (k < MAX_RETRIES)%nat
       /\ n = Z.of_nat k + 1
       /\ gw k = Responded r
       /\ (status_code r = 200 \/ status_code r = 201)
       /\ json r = inl d
       /\ forall i, (i < k)%nat -> retried (gw i) = true.
Proof.
  intros H. unfold call_n8n_action in H.
  destruct (attempt_loop_success gw action _ _ _ _ _ _ H)
    as (Ha & k & r & Hk & Hn & Hgw & Hst & Hj & Hall).
  split; [exact Ha|]. exists k, r. repeat split; try assumption; try lia.
  intros i Hi. apply Hall. lia.
Qed.

Lemma success_only_from_the_gateway_witness :
  "send_sms" = "send_sms"
  /\ exists (k : nat) (r : Response),
       (k < MAX_RETRIES)%nat
       /\ 2 = Z.of_nat k + 1
       /\ scripted [http 503 "busy"; http 201 "ok"] k = Responded r
       /\ (status_code r = 200 \/ status_code r = 201)
       /\ json r = inl "ok"
       /\ forall i, (i < k)%nat ->
            retried (scripted [http 503 "busy"; http 201 "ok"] i) = true.
Proof.
  apply (success_only_from_the_gateway
           (scripted [http 503 "busy"; http 201 "ok"]) "send_sms" "send_sms" "ok" 2).
  reflexivity.
Defined.

Lemma delay_nonneg i : (0 <= delay i)%Q.
Proof.
  unfold delay, Qle. cbn [Qnum Qden]. unfold BASE_DELAY_MS, MAX_DELAY_MS.
  pose proof (Z.pow_nonneg 2 (Z.of_nat i) ltac:(lia)). lia.
Qed.

Lemma total_sleep_retry_events_nonneg first n :
  (0 <= total_sleep (retry_events_from first n))%Q.
Proof.
  revert first. induction n as [|n IH]; intros first.
  - cbn. apply Qle_refl.
  - rewrite N8nClientSpec.retry_events_from_S. cbn [total_sleep].
    rewrite <- (Qplus_0_r 0). apply Qplus_le_compat; [apply delay_nonneg | apply IH].
Qed.

(** What the loop does from attempt [attempt] on, when [remaining] is all
    that is left of the [MAX_RETRIES] iterations. *)
Lemma attempt_loop_accounting gw action :
  forall remaining attempt last_error,
    (attempt + remaining = MAX_RETRIES)%nat ->
    attempts (fst (attempt_loop gw action remaining attempt last_error))
    = Z.of_nat attempt
      + Z.of_nat (posts (snd (attempt_loop gw action remaining attempt last_error)))
    /\ (total_sleep (snd (attempt_loop gw action remaining attempt last_error))
        <= total_sleep (retry_events_from attempt remaining))%Q.
Proof.
  induction remaining as [|rem IH]; intros attempt last_error Hsum.
  - cbn. split; [unfold MAX_RETRIES in *; lia | apply Qle_refl].
  - assert (Hretry : forall e,
      attempts (fst (let '(env, evs) := attempt_loop gw action rem (S attempt) e in
                     (env, Post attempt :: Sleep (delay attempt) :: evs)))
      = Z.of_nat attempt
        + Z.of_nat (posts (snd (let '(env, evs) :=
                                  attempt_loop gw action rem (S attempt) e in
                                (env, Post attempt :: Sleep (delay attempt) :: evs))))
      /\ (total_sleep (snd (let '(env, evs) :=
                              attempt_loop gw action rem (S attempt) e in
                            (env, Post attempt :: Sleep (delay attempt) :: evs)))
          <= total_sleep (retry_events_from attempt (S rem)))%Q).
    { intros e. destruct (IH (S attempt) e ltac:(lia)) as [Ha Hs].
      destruct (attempt_loop gw action rem (S attempt) e) as [env evs].
      cbn [fst snd] in *. rewrite N8nClientSpec.retry_events_from_S.
      split.
      - rewrite Ha. unfold posts. cbn [filter List.length]. lia.
      - cbn [total_sleep]. apply Qplus_le_compat; [apply Qle_refl | exact Hs]. }
    assert (Hstop : forall env,
      attempts env = Z.of_nat attempt + 1 ->
      attempts (fst (env, [Post attempt]))
      = Z.of_nat attempt + Z.of_nat (posts (snd (env, [Post attempt])))
      /\ (total_sleep (snd (env, [Post attempt]))
          <= total_sleep (retry_events_from attempt (S rem)))%Q).
    { intros env Henv. cbn [fst snd]. split.
      - rewrite Henv. reflexivity.
      - cbn [total_sleep]. apply total_sleep_retry_events_nonneg. }
    cbn [attempt_loop].
    destruct (gw attempt) as [r|msg|msg]; try apply Hretry.
    destruct ((status_code r =? 200) || (status_code r =? 201)).
    + destruct (json r); [apply Hstop; reflexivity | apply Hretry].
    + destruct (status_code r =? 429); [apply Hretry|].
      destruct (status_code r >=? 500); [apply Hretry|].
      apply Hstop. reflexivity.
Qed.

(** An iteration of the loop always makes its POST. *)
Lemma attempt_loop_posts_pos gw action remaining attempt last_error :
  (1 <= posts (snd (attempt_loop gw action (S remaining) attempt last_error)))%nat.
Proof.
  assert (Hretry : forall e,
    (1 <= posts (snd (let '(env, evs) :=
                        attempt_loop gw action remaining (S attempt) e in
                      (env, Post attempt :: Sleep (delay attempt) :: evs))))%nat).
  { intros e. destruct (attempt_loop gw action remaining (S attempt) e).
    unfold posts. cbn [snd filter List.length]. lia. }
  cbn [attempt_loop].
  destruct (gw attempt) as [r|msg|msg]; try apply Hretry.
  destruct ((status_code r =? 200) || (status_code r =? 201)).
  - destruct (json r); [unfold posts; cbn; lia | apply Hretry].
  - destruct (status_code r =? 429); [apply Hretry|].
    destruct (status_code r >=? 500); [apply Hretry|].
    unfold posts; cbn; lia.
Qed.

(** Whatever the gateway does, the ["attempts"] entry of the envelope is
    the number of POSTs actually made, between 1 and 3, and the dispatcher
    sleeps at most 3.5 seconds in all. *)
Theorem dispatch_accounting (gw : gateway) (action : string) :
  attempts (fst (call_n8n_action gw action))
  = Z.of_nat (posts (snd (call_n8n_action gw action)))
  /\ 1 <= attempts (fst (call_n8n_action gw action)) <= 3
  /\ (total_sleep (snd (call_n8n_action gw action)) <= 7 # 2)%Q.
Proof.
  unfold call_n8n_action.
  destruct (attempt_loop_accounting gw action MAX_RETRIES 0 None eq_refl) as [Ha Hs].
  pose proof (N8nClientSpec.attempt_loop_posts gw action MAX_RETRIES 0 None) as Hp.
  pose proof (attempt_loop_posts_pos gw action 2 0 None) as Hpos.
  change (S 2) with MAX_RETRIES in Hpos.
  split; [rewrite Ha; reflexivity|]. split.
  - rewrite Ha. unfold MAX_RETRIES in Hp at 2. lia.
  - eapply Qle_trans; [exact Hs|]. vm_compute. discriminate.
Qed.

End N8nClientMore.

(** ** Output sanitizer: further properties *)

Module TtsSanitizerMore.
Import TtsSanitizer.

(** Replacing a character by a text: what can be found afterwards. *)
Lemma has_char_replace_one x c new s :
  Py.has_char x (Py.replace (String c EmptyString) new s)
  = (Py.has_char x s && negb (Ascii.eqb x c))
    || (Py.has_char c s && Py.has_char x new).
Proof.
  unfold Py.replace. induction s as [|a s IH]; [reflexivity|].
  cbn [Py.replace_scan Py.startswith String.length Nat.sub Py.has_char].
  replace (Py.startswith EmptyString s) with true by (now destruct s).
  rewrite andb_true_r.
  destruct (Ascii.eqb_spec c a) as [<-|Hca].
  - rewrite PyFacts.has_char_app, IH. cbn [orb].
    destruct (Ascii.eqb x c), (Py.has_char x s), (Py.has_char c s),
      (Py.has_char x new); reflexivity.
  - cbn [Py.has_char orb]. rewrite IH.
    destruct (Ascii.eqb_spec x a) as [->|Hxa].
    + destruct (Ascii.eqb_spec a c); [congruence|]. reflexivity.
    + destruct (Ascii.eqb x c), (Py.has_char x s), (Py.has_char c s),
        (Py.has_char x new); reflexivity.
Qed.

(** After a series of single-character replacements whose texts do not
    contain [x], an [x] in the result was in the input and is none of the
    replaced characters. *)
Lemma has_char_replacements x reps : forall text,
  (forall kv, In kv reps ->
     exists c, fst kv = String c EmptyString /\ Py.has_char x (snd kv) = false) ->
  Py.has_char x (fold_left (fun t kv => Py.replace (fst kv) (snd kv) t) reps text)
  = true ->
  Py.has_char x text = true
  /\ forall kv, In kv reps -> fst kv <> String x EmptyString.
Proof.
  induction reps as [|kv reps IH]; intros text Hreps H.
  - split; [exact H | intros kv []].
  - cbn [fold_left] in H.
    destruct (IH _ (fun kv' Hin => Hreps kv' (or_intror Hin)) H) as [Hx Hrest].
    destruct (Hreps kv (or_introl eq_refl)) as (c & Hc & Hnew).
    rewrite Hc, has_char_replace_one, Hnew, andb_false_r, orb_false_r in Hx.
    apply andb_true_iff in Hx as [Hx Hneq]. split; [exact Hx|].
    intros kv' [<-|Hin]; [|now apply Hrest].
    rewrite Hc. intros [= ->]. rewrite Ascii.eqb_refl in Hneq. discriminate.
Qed.

Lemma replacements_shape x :
  In x unfriendly_chars ->
  (forall kv, In kv replacements ->
     exists c, fst kv = String c EmptyString /\ Py.has_char x (snd kv) = false)
  /\ exists new, In (String x EmptyString, new) replacements.
Proof.
  intros Hx. cbn [In unfriendly_chars] in Hx.
  repeat (destruct Hx as [<-|Hx]; [split;
    [intros kv Hin; cbn [In replacements] in Hin;
     repeat (destruct Hin as [<-|Hin]; [eexists; split; reflexivity|]);
     destruct Hin
    |eexists; cbn [In replacements]; tauto]|]).
  destruct Hx.
Qed.

Lemma remove_tts_unfriendly_chars_clean x text :
  In x unfriendly_chars ->
  Py.has_char x (remove_tts_unfriendly_chars text) = false.
Proof.
  intros Hx. destruct (replacements_shape x Hx) as [Hshape [new Hin]].
  apply not_true_is_false. intros H. unfold remove_tts_unfriendly_chars in H.
  apply PyFacts.has_char_strip in H.
  apply ReFacts.has_char_sub_const in H as [H|H].
  - destruct (has_char_replacements x replacements text Hshape H) as [_ Hno].
    apply (Hno _ Hin). reflexivity.
  - cbn [In unfriendly_chars] in Hx.
    repeat (destruct Hx as [<-|Hx]; [discriminate H|]). destruct Hx.
Qed.

(** The closing steps only delete or collapse: a character other than the
    space that is found after them was there before. *)
Lemma strip_brackets_keeps x text :
  x <> " "%char ->
  Py.has_char x (strip_brackets text) = true -> Py.has_char x text = true.
Proof.
  intros Hx. unfold strip_brackets.
  destruct (_ || _); [|trivial].
  intros H. apply PyFacts.has_char_strip in H.
  apply ReFacts.has_char_sub_const in H as [H|H].
  - rewrite !PyFacts.has_char_replace_char in H.
    repeat (apply andb_true_iff in H as [H _]). exact H.
  - cbn in H. rewrite orb_false_r in H. apply Ascii.eqb_eq in H. contradiction.
Qed.

Lemma has_char_occurs c needle s :
  Py.has_char c needle = true -> Py.contains needle s = true ->
  Py.has_char c s = true.
Proof.
  intros Hc Hs. apply PyFacts.contains_spec in Hs as (before & after & ->).
  rewrite !PyFacts.has_char_app, Hc. now rewrite orb_true_r.
Qed.

(** None of the thirteen symbols that are unsafe for speech is ever found
    in the output of [remove_tts_unfriendly_chars] or of [sanitize_for_tts];
    in particular no text with an underscore in it (such as the names of the
    agent's functions) occurs in sanitized output. *)
Theorem sanitize_for_tts_no_unfriendly_chars (text : string) :
  (forall x, In x unfriendly_chars ->
     Py.has_char x (remove_tts_unfriendly_chars text) = false
     /\ Py.has_char x (sanitize_for_tts text) = false)
  /\ (forall needle,
        Py.has_char "_" needle = true ->
        Py.contains needle (sanitize_for_tts text) = false).
Proof.
  assert (Hclean : forall x, In x unfriendly_chars ->
            Py.has_char x (sanitize_for_tts text) = false).
  { intros x Hx. unfold sanitize_for_tts. destruct text as [|c0 text0]; [reflexivity|].
    assert (Hsp : x <> " "%char).
    { cbn [In unfriendly_chars] in Hx.
      repeat (destruct Hx as [<-|Hx]; [discriminate|]). destruct Hx. }
    apply not_true_is_false. intros H.
    apply strip_brackets_keeps in H; [|exact Hsp].
    apply PyFacts.has_char_strip in H.
    apply ReFacts.has_char_sub_const in H as [H|H].
    - rewrite remove_tts_unfriendly_chars_clean in H by exact Hx. discriminate.
    - cbn in H. rewrite orb_false_r in H. apply Ascii.eqb_eq in H. contradiction. }
  split.
  - intros x Hx. split; [now apply remove_tts_unfriendly_chars_clean | now apply Hclean].
  - intros needle Hn. apply not_true_is_false. intros H.
    pose proof (has_char_occurs _ _ _ Hn H) as Hu.
    rewrite Hclean in Hu; [discriminate | cbn; tauto].
Qed.

Lemma sanitize_for_tts_no_unfriendly_chars_witness :
  Py.contains "collect_" (sanitize_for_tts "call collect_<x>email now") = false.
Proof.
  apply (proj2 (sanitize_for_tts_no_unfriendly_chars "call collect_<x>email now")).
  reflexivity.
Defined.

(** *** Whitespace *)

Lemma run_spaces_cons c s :
  Re.run Py.is_space None (String c s)
  = if Py.is_space c then S (Re.run Py.is_space None s) else 0%nat.
Proof. reflexivity. Qed.

Lemma advance_length k : forall prev s,
  (k <= String.length s)%nat ->
  String.length (snd (Re.advance k prev s)) = (String.length s - k)%nat.
Proof.
  induction k as [|k IH]; intros prev [|c s] Hk; cbn in *; try lia.
  apply IH. lia.
Qed.

Lemma run_le_length cls hi s : (Re.run cls hi s <= String.length s)%nat.
Proof.
  revert hi. induction s as [|c s IH]; intros hi; cbn; [lia|].
  destruct hi as [[|h]|]; [lia | |]; destruct (cls c); try lia.
  - specialize (IH (Some h)). lia.
  - specialize (IH None). lia.
Qed.

(** At a whitespace character the pattern [\s+] matches the whole run. *)
Lemma match_spaces ic prev c s :
  Re.match_here ic Re.spaces prev (String c s)
  = if Py.is_space c
    then Some ([], snd (Re.advance (S (Re.run Py.is_space None s)) prev (String c s)))
    else None.
Proof.
  unfold Re.spaces. cbn [Re.match_here]. rewrite run_spaces_cons.
  destruct (Py.is_space c); [|reflexivity].
  cbn [Nat.ltb Nat.leb Nat.sub].
  rewrite Nat.sub_0_r.
  destruct (Re.run Py.is_space None s) as [|n]; cbn [Re.greedy Nat.add];
    destruct (Re.advance _ prev (String c s)); reflexivity.
Qed.

(** The regular-expression substitution and the direct definition agree. *)
Lemma collapse_scan_squeeze s :
  (forall prev,
     Re.sub_scan (Re.mkRegex false Re.spaces) (fun _ => " ") prev s 0
     = squeeze false s)
  /\ (forall prev,
       Re.sub_scan (Re.mkRegex false Re.spaces) (fun _ => " ") prev s
         (Re.run Py.is_space None s)
       = squeeze true s).
Proof.
  induction s as [|c s [IH0 IHrun]]; [split; reflexivity|].
  assert (H0 : forall prev,
    Re.sub_scan (Re.mkRegex false Re.spaces) (fun _ => " ") prev (String c s) 0
    = squeeze false (String c s)).
  { intros prev. cbn [Re.sub_scan Re.ignorecase Re.elems squeeze].
    rewrite match_spaces. destruct (Py.is_space c) eqn:Hc.
    - rewrite advance_length
        by (pose proof (run_le_length Py.is_space None s);
            cbn [String.length]; lia).
      pose proof (run_le_length Py.is_space None s) as Hle.
      replace (String.length (String c s)
               - (String.length (String c s) - S (Re.run Py.is_space None s)))%nat
        with (S (Re.run Py.is_space None s)) by (cbn [String.length]; lia).
      rewrite IHrun. reflexivity.
    - rewrite IH0. reflexivity. }
  split; [exact H0|].
  intros prev. rewrite run_spaces_cons. cbn [squeeze].
  destruct (Py.is_space c) eqn:Hc.
  - cbn [Re.sub_scan]. apply IHrun.
  - rewrite H0. cbn [squeeze]. rewrite Hc. reflexivity.
Qed.

Lemma collapse_spaces_squeeze text : collapse_spaces text = squeeze false text.
Proof. apply collapse_scan_squeeze. Qed.

Lemma squeeze_single_spaced s : forall b, single_spaced b (squeeze b s) = true.
Proof.
  induction s as [|c s IH]; intros b; [reflexivity|].
  cbn [squeeze]. destruct (Py.is_space c) eqn:Hc.
  - destruct b; [apply IH|]. cbn. apply IH.
  - cbn [single_spaced]. rewrite Hc. apply IH.
Qed.

Lemma single_spaced_weaken s :
  single_spaced true s = true -> single_spaced false s = true.
Proof.
  destruct s as [|c s]; [trivial|]. cbn.
  destruct (Py.is_space c); [|trivial]. now rewrite andb_false_r.
Qed.

Lemma single_spaced_lstrip s : forall b,
  single_spaced b s = true -> single_spaced false (Py.lstrip s) = true.
Proof.
  induction s as [|c s IH]; intros b H; [reflexivity|].
  cbn [Py.lstrip]. cbn [single_spaced] in H.
  destruct (Py.is_space c) eqn:Hc.
  - apply andb_true_iff in H as [_ H]. now apply (IH true).
  - cbn [single_spaced]. now rewrite Hc.
Qed.

Lemma single_spaced_rstrip s : forall b,
  single_spaced b s = true -> single_spaced b (Py.rstrip s) = true.
Proof.
  induction s as [|c s IH]; intros b H; [reflexivity|].
  cbn [Py.rstrip]. cbn [single_spaced] in H.
  destruct (Py.is_space c) eqn:Hc.
  - apply andb_true_iff in H as [H1 H2]. specialize (IH true H2).
    destruct (Py.rstrip s) as [|a r]; [reflexivity|].
    cbn [single_spaced] in *. rewrite Hc, H1. exact IH.
  - specialize (IH false H).
    destruct (Py.rstrip s) as [|a r]; cbn [single_spaced] in *; rewrite Hc;
      [reflexivity | exact IH].
Qed.

Lemma single_spaced_no_double s : forall b,
  single_spaced b s = true -> Py.contains "  " s = false.
Proof.
  induction s as [|c s IH]; intros b H; [reflexivity|].
  rewrite PyFacts.contains_unfold. cbn [single_spaced] in H.
  destruct (Py.is_space c) eqn:Hc.
  - apply andb_true_iff in H as [_ H]. rewrite (IH true H).
    destruct s as [|a s]; cbn [Py.startswith]; [now rewrite andb_false_r|].
    destruct (Ascii.eqb_spec " " a) as [<-|]; [|now rewrite !andb_false_r].
    cbn in H. discriminate.
  - rewrite (IH false H). cbn [Py.startswith].
    destruct (Ascii.eqb_spec " " c) as [<-|]; [discriminate | reflexivity].
Qed.

Lemma single_spaced_only_spaces c s : forall b,
  single_spaced b s = true -> Py.is_space c = true ->
  Py.has_char c s = true -> c = " "%char.
Proof.
  induction s as [|a s IH]; intros b H Hc Hin; [discriminate|].
  cbn [single_spaced Py.has_char] in *.
  apply orb_true_iff in Hin as [Hin|Hin].
  - apply Ascii.eqb_eq in Hin. subst a. rewrite Hc in H.
    apply andb_true_iff in H as [H _]. apply andb_true_iff in H as [H _].
    now apply Ascii.eqb_eq in H.
  - destruct (Py.is_space a).
    + apply andb_true_iff in H as [_ H]. now apply (IH true).
    + now apply (IH false).
Qed.

Lemma rstrip_idempotent s : Py.rstrip (Py.rstrip s) = Py.rstrip s.
Proof.
  induction s as [|c s IH]; [reflexivity|].
  cbn [Py.rstrip]. destruct (Py.rstrip s) as [|a r] eqn:Hr.
  - destruct (Py.is_space c) eqn:Hc; [reflexivity|]. cbn. now rewrite Hc.
  - cbn [Py.rstrip]. cbn [Py.rstrip] in IH. rewrite IH. reflexivity.
Qed.

Lemma rstrip_head c s :
  Py.is_space c = false ->
  exists r, Py.rstrip (String c s) = String c r.
Proof.
  intros Hc. cbn [Py.rstrip]. destruct (Py.rstrip s) as [|a r].
  - rewrite Hc. now exists EmptyString.
  - now exists (String a r).
Qed.

Lemma lstrip_head s :
  Py.lstrip s = EmptyString
  \/ exists c r, Py.lstrip s = String c r /\ Py.is_space c = false.
Proof.
  induction s as [|c s IH]; [now left|]. cbn [Py.lstrip].
  destruct (Py.is_space c) eqn:Hc; [exact IH|]. right. now exists c, s.
Qed.

Lemma strip_idempotent s : Py.strip (Py.strip s) = Py.strip s.
Proof.
  unfold Py.strip. destruct (lstrip_head s) as [->|(c & r & -> & Hc)]; [reflexivity|].
  destruct (rstrip_head c r Hc) as [r' Hr]. rewrite Hr.
  cbn [Py.lstrip]. rewrite Hc, <- Hr. apply rstrip_idempotent.
Qed.

(** The output has the form [strip(re.sub(r'\s+', ' ', y))] for some [y]. *)
Lemma sanitize_for_tts_shape text :
  exists y, sanitize_for_tts text = Py.strip (collapse_spaces y).
Proof.
  unfold sanitize_for_tts. destruct text as [|c text]; [now exists EmptyString|].
  unfold strip_brackets. destruct (_ || _); eexists; reflexivity.
Qed.

(** Whatever the input, sanitized text is tidy: it neither begins nor ends
    with whitespace, it never has two spaces in a row, and its only
    whitespace characters are plain spaces (no tab, no line break). *)
Theorem sanitize_for_tts_whitespace (text : string) :
  Py.strip (sanitize_for_tts text) = sanitize_for_tts text
  /\ Py.contains "  " (sanitize_for_tts text) = false
  /\ (forall c,
        Py.is_space c = true ->
        Py.has_char c (sanitize_for_tts text) = true -> c = " "%char).
Proof.
  destruct (sanitize_for_tts_shape text) as [y ->].
  assert (H : single_spaced false (Py.strip (collapse_spaces y)) = true).
  { unfold Py.strip. apply single_spaced_rstrip.
    apply (single_spaced_lstrip _ false).
    rewrite collapse_spaces_squeeze. apply squeeze_single_spaced. }
  split; [apply strip_idempotent|]. split.
  - exact (single_spaced_no_double _ _ H).
  - intros c Hc Hin. exact (single_spaced_only_spaces c _ _ H Hc Hin).
Qed.

(** A tab between two words comes out as the one plain space. *)
Lemma sanitize_for_tts_whitespace_witness :
  Py.is_space " " = true
  /\ Py.has_char " "
       (sanitize_for_tts ("hello" ++ String (ascii_of_nat 9) "world")) = true
  /\ " "%char = " "%char.
Proof.
  split; [reflexivity|]. split; [vm_compute; reflexivity|].
  apply (proj2 (proj2 (sanitize_for_tts_whitespace
                         ("hello" ++ String (ascii_of_nat 9) "world")))
           " "%char); vm_compute; reflexivity.
Defined.

Example sanitize_tab :
  sanitize_for_tts ("  hello" ++ String (ascii_of_nat 9) (String (ascii_of_nat 10) "world "))
  = "hello world".
Proof. vm_compute. reflexivity. Qed.

End TtsSanitizerMore.

(** ** Relay: further properties *)

Module RelayMore.
Import Relay.

(** A computation never lets the transcript grow past its cap. *)
Definition keeps_cap {A : Type} (m : M A) : Prop :=
  forall s, transcript_capped s -> transcript_capped (snd (m s)).

Lemma keeps_cap_bind {A B : Type} (m : M A) (k : A -> M B) :
  keeps_cap m -> (forall a, keeps_cap (k a)) -> keeps_cap (bind m k).
Proof.
  intros Hm Hk s Hs. unfold bind. specialize (Hm s Hs).
  destruct (m s) as [[a|e] s']; [apply Hk, Hm | exact Hm].
Qed.

Lemma keeps_cap_try {A : Type} (body : M A) (handler : exn -> M A) :
  keeps_cap body -> (forall e, keeps_cap (handler e)) ->
  keeps_cap (try_except body handler).
Proof.
  intros Hb Hh s Hs. unfold try_except. specialize (Hb s Hs).
  destruct (body s) as [[a|e] s']; [exact Hb | apply Hh, Hb].
Qed.

Lemma keeps_cap_same_transcript {A : Type} (m : M A) :
  (forall s, transcript (snd (m s)) = transcript s) -> keeps_cap m.
Proof. intros H s Hs. unfold transcript_capped. now rewrite H. Qed.

Lemma keeps_cap_send_agent E m : keeps_cap (send_agent E m).
Proof.
  apply keeps_cap_same_transcript. intros s. unfold send_agent.
  now destruct (agent_send_ok E _).
Qed.

Lemma keeps_cap_send_client E m : keeps_cap (send_client E m).
Proof.
  apply keeps_cap_same_transcript. intros s. unfold send_client.
  now destruct (client_send_ok E _).
Qed.

Lemma keeps_cap_ret {A : Type} (a : A) : keeps_cap (ret a).
Proof. now apply keeps_cap_same_transcript. Qed.

Lemma keeps_cap_raise {A : Type} e : keeps_cap (@raise A e).
Proof. now apply keeps_cap_same_transcript. Qed.

Lemma keeps_cap_context_add_turn now sid role content :
  keeps_cap (context_add_turn now sid role content).
Proof.
  apply keeps_cap_same_transcript. intros s.
  unfold context_add_turn, bind, get_context, modify, raise.
  destruct (Py.dict_get sid (contexts s)); destruct content; reflexivity.
Qed.

Lemma keeps_cap_log_turn (entry : M TranscriptEntry) :
  (forall s, transcript (snd (entry s)) = transcript s) ->
  keeps_cap (log_turn entry).
Proof.
  intros Hentry s Hs.
  unfold log_turn, bind, read, modify, ret, transcript_capped in *.
  destruct (Z.ltb_spec (Z.of_nat (List.length (transcript s))) MAX_TRANSCRIPT_ENTRIES);
    [|exact Hs].
  specialize (Hentry s). destruct (entry s) as [[e|x] s']; cbn [snd] in *.
  - cbn [set_transcript transcript]. rewrite length_app, Hentry.
    cbn [List.length]. lia.
  - rewrite Hentry. exact Hs.
Qed.

Lemma keeps_cap_json_dumps result : keeps_cap (json_dumps result).
Proof.
  apply keeps_cap_same_transcript. intros s.
  now destruct result as [sp extra [|]|rendering [|]].
Qed.

Lemma get_speak_same_state result default s :
  snd (get_speak result default s) = s.
Proof. now destruct result as [[v|] extra b|rendering b]. Qed.

Lemma keeps_cap_get_speak result default : keeps_cap (get_speak result default).
Proof.
  apply keeps_cap_same_transcript. intros s. now rewrite get_speak_same_state.
Qed.

Lemma keeps_cap_slice_for_log v : keeps_cap (slice_for_log v).
Proof.
  apply keeps_cap_same_transcript. intros s.
  now destruct v as [text|rendering [|]].
Qed.

Lemma keeps_cap_log_turn_or_mark now entry : keeps_cap (log_turn_or_mark now entry).
Proof.
  intros s Hs. unfold log_turn_or_mark, modify, transcript_capped in *. cbn [snd].
  destruct (Z.ltb_spec (Z.of_nat (List.length (transcript s))) MAX_TRANSCRIPT_ENTRIES).
  - cbn [set_transcript transcript]. rewrite length_app. cbn [List.length]. lia.
  - destruct (Z.eqb_spec (Z.of_nat (List.length (transcript s))) MAX_TRANSCRIPT_ENTRIES);
      [|exact Hs].
    cbn [set_transcript transcript]. rewrite length_app. cbn [List.length]. lia.
Qed.

Lemma keeps_cap_twilio_on_message E sess now message :
  keeps_cap (twilio_on_message E sess now message).
Proof.
  unfold twilio_on_message. destruct message as [audio|msg_json|raw].
  - apply keeps_cap_send_client.
  - destruct (is_str _ "ConversationText").
    { unfold twilio_conversation_text. apply keeps_cap_bind.
      - destruct (is_str _ "user"); [|apply keeps_cap_ret].
        apply keeps_cap_bind; [now apply keeps_cap_same_transcript|].
        intros _. destruct (nonempty (call_sid sess));
          [apply keeps_cap_context_add_turn | apply keeps_cap_ret].
      - intros _. apply keeps_cap_log_turn_or_mark. }
    destruct (is_str _ "FunctionCallRequest").
    { unfold twilio_function_call. apply keeps_cap_try.
      - unfold twilio_function_call_body. apply keeps_cap_bind.
        + unfold call_handler. destruct (handle_function_call _ _ _ _ _);
            [apply keeps_cap_ret | apply keeps_cap_raise].
        + intros result. apply keeps_cap_bind; [apply keeps_cap_json_dumps|].
          intros _. apply keeps_cap_bind; [apply keeps_cap_send_agent|].
          intros _. apply keeps_cap_bind.
          { unfold log_function_response.
            apply keeps_cap_bind; [apply keeps_cap_get_speak|].
            intros logged. apply keeps_cap_slice_for_log. }
          intros _. unfold twilio_record_function_call. apply keeps_cap_bind.
          { apply keeps_cap_log_turn. intros s. unfold bind.
            pose proof (get_speak_same_state result EmptyString s) as Hsame.
            destruct (get_speak result EmptyString s) as [[v|x] s'];
              cbn [snd] in *; now subst. }
          intros _. destruct (nonempty (call_sid sess)); [|apply keeps_cap_ret].
          apply keeps_cap_bind; [apply keeps_cap_get_speak|].
          intros spoken. unfold context_add_assistant_turn.
          apply keeps_cap_bind; [apply keeps_cap_context_add_turn|].
          intros _. apply keeps_cap_slice_for_log.
      - intros e. apply keeps_cap_send_agent. }
    destruct (is_str _ "Error"); [apply keeps_cap_ret|].
    destruct (is_str _ "UserStartedSpeaking"); [|apply keeps_cap_ret].
    destruct (nonempty (stream_sid sess));
      [apply keeps_cap_send_client | apply keeps_cap_ret].
  - apply keeps_cap_raise.
Qed.

(** However many messages arrive, and whether the pump ends normally or by
    an exception, the transcript of a call never holds more than
    [MAX_TRANSCRIPT_ENTRIES] entries plus the truncation marker. *)
Theorem transcript_stays_capped
    (E : env) (sess : session) (messages : list (Z * frame)) (s : state) :
  transcript_capped s ->
  transcript_capped (snd (deepgram_to_twilio E sess messages s)).
Proof.
  unfold deepgram_to_twilio. revert s.
  induction messages as [|[now message] rest IH]; intros s Hs; [exact Hs|].
  rewrite RelaySpec.pump_cons.
  pose proof (keeps_cap_twilio_on_message E sess now message s Hs) as H.
  destruct (twilio_on_message E sess now message s) as [[u|e] s'];
    [apply IH, H | exact H].
Qed.

Lemma transcript_stays_capped_witness :
  transcript_capped
    (snd (deepgram_to_twilio sockets_up phone_session
            [(1000, Text send_sms_request); (2000, Binary "audio")] initial)).
Proof.
  apply (transcript_stays_capped sockets_up phone_session
           [(1000, Text send_sms_request); (2000, Binary "audio")] initial).
  unfold transcript_capped, MAX_TRANSCRIPT_ENTRIES. simpl. lia.
Defined.





(** A control frame of a type the pump does not know is not an error: the
    telephony pump drops it, the browser pump hands it to the client as it
    came. *)
Theorem unknown_control_frames
    (E : env) (sess : session) (now : Z) (msg_json : Py.dict jval) (s : state) :
  is_str (get msg_json "type") "ConversationText" = false ->
  is_str (get msg_json "type") "FunctionCallRequest" = false ->
  is_str (get msg_json "type") "Error" = false ->
  is_str (get msg_json "type") "UserStartedSpeaking" = false ->
  twilio_on_message E sess now (Text msg_json) s = (Ok tt, s)
  /\ (is_str (get msg_json "type") "AgentStartedSpeaking" = false ->
      client_send_ok E (List.length (client_out s)) = true ->
      browser_on_message E sess now (Text msg_json) s
      = (Ok tt, sent_to_client (PassThrough msg_json) s)).
Proof.
  intros H1 H2 H3 H4. unfold twilio_on_message, browser_on_message.
  rewrite H1, H2, H3, H4. split; [reflexivity|].
  intros H5 Hup. rewrite H5. unfold send_client. now rewrite Hup.
Qed.

Lemma unknown_control_frames_witness :
  twilio_on_message sockets_up phone_session 1000
    (Text [("type", JStr "AgentAudioDone")]) initial
  = (Ok tt, initial).
Proof.
  apply (proj1 (unknown_control_frames sockets_up phone_session 1000
                  [("type", JStr "AgentAudioDone")] initial
                  eq_refl eq_refl eq_refl eq_refl)).
Defined.

Lemma json_dumps_cases result s :
  json_dumps result s
  = if is_serialisable result then (Ok tt, s)
    else (Raised (Exception "TypeError" "Object is not JSON serializable"), s).
Proof. now destruct result as [sp extra [|]|rendering [|]]. Qed.

(** The log line goes through exactly on a dictionary whose [speak] entry
    can be sliced; otherwise it raises and changes nothing. *)
Lemma log_function_response_cases result s :
  if speak_is_sliceable result
  then log_function_response result s = (Ok tt, s)
  else exists e, log_function_response result s = (Raised e, s).
Proof.
  destruct result as [[[text|rendering [|]]|] extra b|rendering b];
    cbn [speak_is_sliceable]; try reflexivity; eexists; reflexivity.
Qed.

(** Once the log line went through, recording the call does not raise and
    sends nothing. *)
Lemma twilio_record_function_call_ok sess now function_name result s :
  speak_is_sliceable result = true ->
  fst (twilio_record_function_call sess now function_name result s) = Ok tt
  /\ agent_out (snd (twilio_record_function_call sess now function_name result s))
     = agent_out s
  /\ client_out (snd (twilio_record_function_call sess now function_name result s))
     = client_out s.
Proof.
  intros Hok. unfold twilio_record_function_call, log_turn, bind, read, modify.
  assert (Hget : exists v,
            (forall s0, get_speak result EmptyString s0 = (Ok v, s0))
            /\ forall s0, slice_for_log v s0 = (Ok tt, s0)).
  { destruct result as [[[text|rendering [|]]|] extra b|rendering b];
      try discriminate; eexists; split; reflexivity. }
  destruct Hget as (v & Hget & Hslice).
  destruct (Z.of_nat (List.length (transcript s)) <? MAX_TRANSCRIPT_ENTRIES);
    rewrite ?Hget; cbn [ret];
    (destruct (nonempty (call_sid sess)) as [sid|]; [|now repeat split]);
    rewrite Hget; unfold context_add_assistant_turn, context_add_turn, bind,
      get_context, modify;
    cbn [contexts set_transcript];
    destruct (Py.dict_get sid (contexts s)); rewrite Hslice; now repeat split.
Qed.

(** How a [FunctionCallRequest] is answered.  While the agent socket takes
    the sends, either pump answers it and goes on, sending nothing to the
    client: with the apology alone if the handler raised or [json.dumps]
    rejects what it returned; with the result alone if that is a dictionary
    whose [speak] entry, if any, can be sliced; and otherwise (the result is
    not a dictionary, or its [speak] is [None] or a number) with the result
    and then, the log line behind the send having raised, with the apology
    as a second response under the same id.  If the socket refuses the first
    send, the pump raises [ConnectionClosed] and nothing is sent. *)
Theorem function_call_responses
    (E : env) (sess : session) (now : Z) (msg_json : Py.dict jval) (s : state) :
  is_str (get msg_json "type") "FunctionCallRequest" = true ->
  ((forall n, agent_send_ok E n = true) ->
   (fst (twilio_on_message E sess now (Text msg_json) s) = Ok tt
    /\ client_out (snd (twilio_on_message E sess now (Text msg_json) s))
       = client_out s
    /\ agent_out (snd (twilio_on_message E sess now (Text msg_json) s))
       = (agent_out s
          ++ map (FunctionCallResponse (twilio_response_id now msg_json))
               match handle_function_call E now (request_function_name msg_json)
                       (request_arguments msg_json) (call_sid sess) with
               | Raises _ => [APOLOGY]
               | Returns result =>
                   if negb (is_serialisable result) then [APOLOGY]
                   else if speak_is_sliceable result then [result]
                   else [result; APOLOGY]
               end)%list)
   /\ (fst (browser_on_message E sess now (Text msg_json) s) = Ok tt
       /\ client_out (snd (browser_on_message E sess now (Text msg_json) s))
          = client_out s
       /\ agent_out (snd (browser_on_message E sess now (Text msg_json) s))
          = (agent_out s
             ++ map (FunctionCallResponse (RequestId (request_function_id msg_json)))
                  match handle_function_call E now (request_function_name msg_json)
                          (request_arguments msg_json)
                          (Some (browser_session_id sess)) with
                  | Raises _ => [APOLOGY]
                  | Returns result =>
                      if negb (is_serialisable result) then [APOLOGY]
                      else if speak_is_sliceable result then [result]
                      else [result; APOLOGY]
                  end)%list))
  /\ (agent_send_ok E (List.length (agent_out s)) = false ->
      twilio_on_message E sess now (Text msg_json) s
      = (Raised (Exception "ConnectionClosed" EmptyString), s)
      /\ browser_on_message E sess now (Text msg_json) s
         = (Raised (Exception "ConnectionClosed" EmptyString), s)).
Proof.
  intros Htype. unfold twilio_on_message, browser_on_message.
  rewrite (RelaySpec.is_str_true _ _ Htype).
  cbn [is_str String.eqb Ascii.eqb Bool.eqb].
  unfold twilio_function_call, twilio_function_call_body, browser_function_call,
    twilio_response_id.
  set (id := if truthy (request_function_id msg_json)
             then RequestId (request_function_id msg_json) else GeneratedId now).
  unfold try_except, bind, call_handler.
  split; [intros Hup; split|intros Hdown; split].
  - destruct (handle_function_call E now (request_function_name msg_json)
                (request_arguments msg_json) (call_sid sess)) as [result|e].
    + unfold ret. rewrite json_dumps_cases.
      destruct (is_serialisable result); cbn [negb].
      * unfold send_agent at 1 3 5. rewrite Hup.
        pose proof (log_function_response_cases result
                      (sent_to_agent (FunctionCallResponse id result) s)) as Hlog.
        destruct (speak_is_sliceable result) eqn:Hok.
        { rewrite Hlog.
          destruct (twilio_record_function_call_ok sess now
                      (request_function_name msg_json) result
                      (sent_to_agent (FunctionCallResponse id result) s) Hok)
            as (H1 & H2 & H3).
          destruct (twilio_record_function_call sess now
                      (request_function_name msg_json) result
                      (sent_to_agent (FunctionCallResponse id result) s))
            as [[u|x] s']; cbn [fst snd] in *; [|discriminate].
          destruct u. now repeat split. }
        destruct Hlog as [x Hlog]. rewrite Hlog.
        unfold send_agent. rewrite Hup. cbn [map].
        cbn [fst snd sent_to_agent agent_out client_out].
        rewrite <- app_assoc. now repeat split.
      * unfold send_agent. rewrite Hup. now repeat split.
    + unfold raise, send_agent. rewrite Hup. now repeat split.
  - destruct (handle_function_call E now (request_function_name msg_json)
                (request_arguments msg_json) (Some (browser_session_id sess)))
      as [result|e].
    + unfold ret. rewrite json_dumps_cases.
      destruct (is_serialisable result); cbn [negb].
      * unfold send_agent at 1 3 5. rewrite Hup.
        pose proof (log_function_response_cases result
                      (sent_to_agent
                         (FunctionCallResponse
                            (RequestId (request_function_id msg_json)) result) s))
          as Hlog.
        destruct (speak_is_sliceable result) eqn:Hok.
        { rewrite Hlog. now repeat split. }
        destruct Hlog as [x Hlog]. rewrite Hlog.
        unfold send_agent. rewrite Hup. cbn [map].
        cbn [fst snd sent_to_agent agent_out client_out].
        rewrite <- app_assoc. now repeat split.
      * unfold send_agent. rewrite Hup. now repeat split.
    + unfold raise, send_agent. rewrite Hup. now repeat split.
  - destruct (handle_function_call E now (request_function_name msg_json)
                (request_arguments msg_json) (call_sid sess)) as [result|e].
    + unfold ret. rewrite json_dumps_cases.
      destruct (is_serialisable result); unfold send_agent;
        now rewrite ?Hdown.
    + unfold raise, send_agent. now rewrite Hdown.
  - destruct (handle_function_call E now (request_function_name msg_json)
                (request_arguments msg_json) (Some (browser_session_id sess)))
      as [result|e].
    + unfold ret. rewrite json_dumps_cases.
      destruct (is_serialisable result); unfold send_agent;
        now rewrite ?Hdown.
    + unfold raise, send_agent. now rewrite Hdown.
Qed.

(** A handler that returns [{"speak": None}]: the result goes out, the log
    line raises, and the apology follows under the same id. *)
Lemma function_call_responses_witness :
  agent_out
    (snd (twilio_on_message speak_none phone_session 1000
            (Text send_sms_request) initial))
  = [FunctionCallResponse (RequestId (JStr "fc_1"))
       (ResultDict (Some (SpeakOther "None" false)) [] true);
     FunctionCallResponse (RequestId (JStr "fc_1")) APOLOGY].
Proof.
  exact (proj2 (proj2 (proj1 (proj1 (function_call_responses speak_none
                                       phone_session 1000 send_sms_request
                                       initial eq_refl)
                                (fun _ => eq_refl))))).
Defined.

(** A user utterance reported by the agent reaches the conversation
    context of the call: its sentiment is that of the text, the silence
    escalation is back at level 0 and the silence clock restarts at the time
    of the frame; nothing is sent on either socket. *)
Theorem user_text_updates_context
    (E : env) (sess : session) (now : Z) (msg_json : Py.dict jval) (s : state)
    (sid text : string) :
  is_str (get msg_json "type") "ConversationText" = true ->
  get msg_json "role" = JStr "user" ->
  get msg_json "content" = JStr text ->
  nonempty (call_sid sess) = Some sid ->
  fst (twilio_on_message E sess now (Text msg_json) s) = Ok tt
  /\ last_user_speech_time (snd (twilio_on_message E sess now (Text msg_json) s))
     = Some now
  /\ agent_out (snd (twilio_on_message E sess now (Text msg_json) s)) = agent_out s
  /\ client_out (snd (twilio_on_message E sess now (Text msg_json) s)) = client_out s
  /\ exists c,
       Py.dict_get sid
         (contexts (snd (twilio_on_message E sess now (Text msg_json) s))) = Some c
       /\ ConversationContext.user_sentiment c
          = ConversationContext.detect_sentiment c text
       /\ ConversationContext.silence_count c = 0
       /\ ConversationContext.last_user_speech_time c = Some now.
Proof.
  intros Htype Hrole Hcontent Hsid. unfold twilio_on_message.
  rewrite (RelaySpec.is_str_true _ _ Htype).
  cbn [is_str String.eqb Ascii.eqb Bool.eqb].
  unfold twilio_conversation_text. rewrite Hrole, Hcontent, Hsid.
  cbn [is_str String.eqb Ascii.eqb Bool.eqb].
  unfold bind, modify, context_add_turn, bind, get_context, log_turn_or_mark, modify.
  cbn [contexts set_last_user_speech_time].
  destruct (Py.dict_get sid (contexts s)) as [c|];
    cbn [contexts set_contexts set_last_user_speech_time transcript];
    repeat (destruct (_ <? MAX_TRANSCRIPT_ENTRIES)
            || destruct (_ =? MAX_TRANSCRIPT_ENTRIES));
    cbn [fst snd set_transcript set_contexts last_user_speech_time agent_out
         client_out contexts];
    (repeat split; eexists;
     (split; [apply TTLDictSpec.dict_get_set_same | now repeat split])).
Qed.

Lemma user_text_updates_context_witness :
  fst (twilio_on_message sockets_up phone_session 1000
         (Text [("type", JStr "ConversationText"); ("role", JStr "user");
                ("content", JStr "this is not working")]) initial) = Ok tt.
Proof.
  apply (user_text_updates_context sockets_up phone_session 1000
           [("type", JStr "ConversationText"); ("role", JStr "user");
            ("content", JStr "this is not working")] initial
           "CA1" "this is not working"); reflexivity.
Defined.

(** What ends the inbound pump.  A text frame that does not decode ends
    either pump with the frames behind it unread.  So does, on the telephony
    side, a user [ConversationText] whose content is not a string (a missing
    "content" is [None]) once the call id is known: [content.lower()] raises
    [AttributeError], which nothing catches; the transcript and both sockets
    are left as they were. *)
Theorem frames_that_end_the_pump
    (E : env) (sess : session) (now : Z) (rest : list (Z * frame)) (s : state) :
  (forall raw,
      deepgram_to_twilio E sess ((now, Undecodable raw) :: rest) s
      = (Raised (Exception "JSONDecodeError" EmptyString), s)
      /\ deepgram_to_browser E sess ((now, Undecodable raw) :: rest) s
         = (Raised (Exception "JSONDecodeError" EmptyString), s))
  /\ (forall msg_json sid,
        is_str (get msg_json "type") "ConversationText" = true ->
        get msg_json "role" = JStr "user" ->
        (forall text, get msg_json "content" <> JStr text) ->
        nonempty (call_sid sess) = Some sid ->
        fst (deepgram_to_twilio E sess ((now, Text msg_json) :: rest) s)
        = Raised (Exception "AttributeError" "object has no attribute 'lower'")
        /\ transcript (snd (deepgram_to_twilio E sess ((now, Text msg_json) :: rest) s))
           = transcript s
        /\ agent_out (snd (deepgram_to_twilio E sess ((now, Text msg_json) :: rest) s))
           = agent_out s
        /\ client_out (snd (deepgram_to_twilio E sess ((now, Text msg_json) :: rest) s))
           = client_out s).
Proof.
  split; [intros raw; split; reflexivity|].
  intros msg_json sid Htype Hrole Hcontent Hsid.
  unfold deepgram_to_twilio. rewrite RelaySpec.pump_cons.
  unfold twilio_on_message. rewrite (RelaySpec.is_str_true _ _ Htype).
  cbn [is_str String.eqb Ascii.eqb Bool.eqb].
  unfold twilio_conversation_text. rewrite Hrole, Hsid.
  cbn [is_str String.eqb Ascii.eqb Bool.eqb].
  unfold bind, modify, context_add_turn, bind, get_context, modify, raise.
  cbn [contexts set_last_user_speech_time].
  destruct (get msg_json "content") as [| | |text|] eqn:Hc;
    try (exfalso; apply (Hcontent text); reflexivity);
    destruct (Py.dict_get sid (contexts s)); now repeat split.
Qed.

Lemma frames_that_end_the_pump_witness :
  fst (deepgram_to_twilio sockets_up phone_session
         [(1000, Text [("type", JStr "ConversationText"); ("role", JStr "user")]);
          (2000, Binary "audio")] initial)
  = Raised (Exception "AttributeError" "object has no attribute 'lower'").
Proof.
  apply (proj2 (frames_that_end_the_pump sockets_up phone_session 1000
                  [(2000, Binary "audio")] initial)
           [("type", JStr "ConversationText"); ("role", JStr "user")] "CA1").
  - reflexivity.
  - reflexivity.
  - intros text. discriminate.
  - reflexivity.
Defined.

End RelayMore.

(** ** The silence watchdog *)

Module SilenceMonitorSpec.
Import InboundDeepgram.

(** A round never lowers the bound on the prompts still to come: the
    prompts given so far plus the levels left up to 3. *)
Lemma monitor_poll_measure M t_poll t_check st sid :
  Relay.nonempty (monitor_call_sid M) = Some sid ->
  level sid st <= 3 ->
  level sid (monitor_poll M t_poll t_check st) <= 3
  /\ Z.of_nat (List.length (injected (monitor_poll M t_poll t_check st)))
     - level sid (monitor_poll M t_poll t_check st)
     <= Z.of_nat (List.length (injected st)) - level sid st
  /\ (forall prompt,
        In prompt (injected (monitor_poll M t_poll t_check st)) ->
        In prompt (injected st)
        \/ In (Some prompt) ConversationContext.silence_messages).
Proof.
  intros Hsid Hlevel. unfold monitor_poll.
  destruct (active st); cbn [negb]; [|repeat split; [exact Hlevel | lia | tauto]].
  destruct (monitor_last_user_speech_time M);
    [|repeat split; [exact Hlevel | lia | tauto]].
  rewrite Hsid. unfold level in *.
  set (context := match Py.dict_get sid (store st) with
                  | Some c => c
                  | None => ConversationContext.init t_poll sid 50
                  end).
  assert (Hctx : ConversationContext.silence_count context
                 = match Py.dict_get sid (store st) with
                   | Some c => ConversationContext.silence_count c
                   | None => 0
                   end).
  { unfold context. now destruct (Py.dict_get sid (store st)). }
  rewrite <- Hctx in *.
  destruct (ConversationContextSpec.get_silence_response_cases t_poll context)
    as [Hnone|(msg & Hmsg & Hin & Hlt & Hafter)].
  - rewrite Hnone. cbn [store injected].
    rewrite TTLDictSpec.dict_get_set_same. repeat split; [exact Hlevel | lia | tauto].
  - destruct (ConversationContext.get_silence_response t_poll context)
      as [response context'] eqn:Hr.
    cbn [fst snd] in Hmsg, Hafter. subst response context'.
    assert (Hthr : ConversationContext.threshold_of (Some msg) <= 3).
    { cbn [In ConversationContext.silence_messages] in Hin.
      destruct Hin as [[= <-]|[[= <-]|[[= <-]|[]]]]; vm_compute; discriminate. }
    destruct (inject_ok M (List.length (injected st))).
    + destruct (ConversationContext.get_silence_duration t_check _);
        cbn [store injected]; rewrite TTLDictSpec.dict_get_set_same;
        cbn [ConversationContext.silence_count ConversationContext.with_silence_count];
        (repeat split; [exact Hthr | rewrite length_app; cbn [List.length]; lia |]);
        intros prompt Hp; apply in_app_or in Hp;
        (destruct Hp as [Hp|[<-|[]]]; [now left | now right]).
    + cbn [store injected]. rewrite TTLDictSpec.dict_get_set_same.
      cbn [ConversationContext.silence_count ConversationContext.with_silence_count].
      repeat split; [exact Hthr | lia | tauto].
Qed.

Lemma monitor_poll_inactive M t_poll t_check st :
  active st = false -> monitor_poll M t_poll t_check st = st.
Proof. intros H. unfold monitor_poll. now rewrite H. Qed.

(** Left to itself, the watchdog injects at most as many prompts as there
    are escalation levels left (three in a fresh silence episode), each of
    them one of the three silence messages; and once it has stopped (after
    the hand-off, or when a send failed) no later round does anything. *)
Theorem silence_monitor_is_bounded
    (M : monitor_env) (polls : list (Z * Z)) (st : monitor_state) (sid : string) :
  Relay.nonempty (monitor_call_sid M) = Some sid ->
  level sid st <= 3 ->
  Z.of_nat (List.length (injected (silence_monitor M polls st)))
  <= Z.of_nat (List.length (injected st)) + 3 - level sid st
  /\ (forall prompt,
        In prompt (injected (silence_monitor M polls st)) ->
        In prompt (injected st)
        \/ In (Some prompt) ConversationContext.silence_messages)
  /\ (active st = false -> silence_monitor M polls st = st).
Proof.
  intros Hsid. unfold silence_monitor. revert st.
  induction polls as [|[t_poll t_check] polls IH]; intros st Hlevel.
  - cbn [fold_left]. repeat split; [lia | tauto].
  - cbn [fold_left fst snd].
    destruct (monitor_poll_measure M t_poll t_check st sid Hsid Hlevel)
      as (Hl & Hm & Hp).
    destruct (IH (monitor_poll M t_poll t_check st) Hl) as (H1 & H2 & H3).
    repeat split.
    + lia.
    + intros prompt Hin. destruct (H2 prompt Hin) as [H|H]; [now apply Hp | now right].
    + intros Hoff. rewrite (monitor_poll_inactive M t_poll t_check st Hoff).
      clear -Hoff. induction polls as [|[a b] polls IHp]; [reflexivity|].
      cbn [fold_left fst snd]. now rewrite monitor_poll_inactive.
Qed.

Lemma silence_monitor_is_bounded_witness :
  Z.of_nat
    (List.length
       (injected
          (silence_monitor
             (mkMonitorEnv (Some 0) (Some "CA1") (fun _ => true))
             [(6000000, 6000100); (12000000, 12000100); (18000000, 18000100);
              (24000000, 24000100)]
             (mkMonitor []
                [("CA1", ConversationContext.add_turn 0 0 "user" "hello"
                           (ConversationContext.init 0 "CA1" 50))]
                true))))
  <= Z.of_nat 0 + 3
     - level "CA1"
         (mkMonitor []
            [("CA1", ConversationContext.add_turn 0 0 "user" "hello"
                       (ConversationContext.init 0 "CA1" 50))]
            true).
Proof.
  apply (proj1 (silence_monitor_is_bounded
                  (mkMonitorEnv (Some 0) (Some "CA1") (fun _ => true))
                  [(6000000, 6000100); (12000000, 12000100); (18000000, 18000100);
                   (24000000, 24000100)]
                  (mkMonitor []
                     [("CA1", ConversationContext.add_turn 0 0 "user" "hello"
                                (ConversationContext.init 0 "CA1" 50))]
                     true)
                  "CA1" eq_refl ltac:(vm_compute; discriminate))).
Defined.

(** Nineteen seconds of silence, polled every two seconds: the three
    prompts, and the watchdog has stopped. *)
Example silence_monitor_19s :
  let final :=
    silence_monitor (mkMonitorEnv (Some 0) (Some "CA1") (fun _ => true))
      (map (fun sec => (sec * 1000000, sec * 1000000 + 100))
         [2; 4; 6; 8; 10; 12; 14; 16; 18; 20])
      (mkMonitor []
         [("CA1", ConversationContext.add_turn 0 0 "user" "hello"
                    (ConversationContext.init 0 "CA1" 50))]
         true) in
  injected final
  = [ConversationContext.CHECKIN_MESSAGE; ConversationContext.PATIENCE_MESSAGE;
     ConversationContext.HANDOFF_MESSAGE]
  /\ active final = false.
Proof. vm_compute. split; reflexivity. Qed.

End SilenceMonitorSpec.

(** ** Browser relay: the outbound pump *)

Module BrowserOutboundSpec.
Import Relay BrowserOutbound.

Lemma on_data_well_formed E data s :
  Forall well_formed (upstream_out s) ->
  Forall well_formed (upstream_out (snd (on_data E data s))).
Proof.
  intros Hs.
  assert (Hsend : forall m, well_formed m ->
            Forall well_formed (upstream_out (snd (send_upstream E m s)))).
  { intros m Hm. unfold send_upstream. destruct (upstream_send_ok E _); [|exact Hs].
    cbn [snd upstream_out]. apply Forall_app. split; [exact Hs | now constructor]. }
  unfold on_data.
  destruct (is_str _ "websocket_audio").
  { destruct (Py.dict_get "audio" data) as [[| | |encoded|]|]; try exact Hs.
    destruct (b64decode E encoded); [now apply Hsend | exact Hs]. }
  destruct (is_str _ "websocket_transcript").
  { destruct (get_default data "text" (JStr EmptyString)); try exact Hs.
    destruct (String.eqb_spec (Py.strip s0) EmptyString) as [|Hne]; [exact Hs|].
    apply Hsend. split; [exact Hne | apply TtsSanitizerMore.strip_idempotent]. }
  destruct (is_str _ "websocket_start").
  { destruct (browser_send_ok E _); exact Hs. }
  destruct (is_str _ "keepalive"); [now apply Hsend|].
  destruct (is_str _ "silence_detected"); [now apply Hsend | exact Hs].
Qed.

(** Whatever the browser sends, a text injected into the conversation as a
    user message is never empty and carries no whitespace at either end:
    blank texts are dropped and the others are stripped. *)
Theorem injected_user_text_is_stripped
    (E : out_env) (frames : list received) (s : out_state) :
  Forall well_formed (upstream_out s) ->
  Forall well_formed (upstream_out (snd (browser_to_deepgram E frames s))).
Proof.
  revert s. induction frames as [|[data| |] rest IH]; intros s Hs; try exact Hs.
  cbn [browser_to_deepgram].
  pose proof (on_data_well_formed E data s Hs) as H.
  destruct (on_data E data s) as [[u|e] s']; [apply IH, H | exact H].
Qed.

Lemma injected_user_text_is_stripped_witness :
  Forall well_formed
    (upstream_out
       (snd (browser_to_deepgram
               (mkOutEnv (fun _ => true) (fun _ => true) (fun x => Some x))
               [Json [("type", JStr "websocket_transcript"); ("text", JStr "  hi ")];
                Json [("type", JStr "websocket_transcript"); ("text", JStr "   ")]]
               (mkOut [] [])))).
Proof.
  apply (injected_user_text_is_stripped
           (mkOutEnv (fun _ => true) (fun _ => true) (fun x => Some x))
           [Json [("type", JStr "websocket_transcript"); ("text", JStr "  hi ")];
            Json [("type", JStr "websocket_transcript"); ("text", JStr "   ")]]
           (mkOut [] [])).
  constructor.
Defined.

(** Keep-alives, silence notices and frames of unknown type never end the
    outbound pump, even when the agent socket refuses every send: the
    failure of a keep-alive or of a silence prompt is swallowed. *)
Theorem keepalive_failures_are_swallowed
    (E : out_env) (frames : list received) (s : out_state) :
  Forall harmless frames ->
  fst (browser_to_deepgram E frames s) = Ok tt
  /\ browser_out (snd (browser_to_deepgram E frames s)) = browser_out s.
Proof.
  revert s. induction frames as [|frame rest IH]; intros s Hall; [now split|].
  inversion Hall as [|? ? Hframe Hrest]; subst.
  destruct frame as [data| |]; [|destruct Hframe | now split].
  destruct Hframe as (Ha & Ht & Hs).
  cbn [browser_to_deepgram]. unfold on_data. rewrite Ha, Ht, Hs.
  assert (Hq : forall m,
    fst (browser_to_deepgram E rest (snd (send_upstream_quietly E m s))) = Ok tt
    /\ browser_out (snd (browser_to_deepgram E rest (snd (send_upstream_quietly E m s))))
       = browser_out s).
  { intros m. destruct (IH (snd (send_upstream_quietly E m s)) Hrest) as [H1 H2].
    split; [exact H1|]. rewrite H2. unfold send_upstream_quietly, send_upstream.
    now destruct (upstream_send_ok E _). }
  destruct (is_str _ "keepalive"); [apply Hq|].
  destruct (is_str _ "silence_detected"); [apply Hq | now apply IH].
Qed.

Lemma keepalive_failures_are_swallowed_witness :
  fst (browser_to_deepgram
         (mkOutEnv (fun _ => false) (fun _ => true) (fun x => Some x))
         [Json [("type", JStr "keepalive")];
          Json [("type", JStr "silence_detected"); ("duration_ms", JInt 6000)];
          Json [("type", JStr "mystery")]]
         (mkOut [] [])) = Ok tt
  /\ browser_out
       (snd (browser_to_deepgram
               (mkOutEnv (fun _ => false) (fun _ => true) (fun x => Some x))
               [Json [("type", JStr "keepalive")];
                Json [("type", JStr "silence_detected"); ("duration_ms", JInt 6000)];
                Json [("type", JStr "mystery")]]
               (mkOut [] [])))
     = browser_out (mkOut [] []).
Proof.
  apply (keepalive_failures_are_swallowed
           (mkOutEnv (fun _ => false) (fun _ => true) (fun x => Some x))
           [Json [("type", JStr "keepalive")];
            Json [("type", JStr "silence_detected"); ("duration_ms", JInt 6000)];
            Json [("type", JStr "mystery")]]
           (mkOut [] [])).
  repeat constructor.
Defined.

End BrowserOutboundSpec.
